(** * Odyssey HCM: leave-day arithmetic, goal roll-up, requisition approval
      and application tracking

    A shallow embedding of pieces of the application:
    - [Leave]: [calculateDays], [validateForm], [handleSubmit] and
      [handlePolicyChange] of the leave request form (React component
      [LeaveRequestForm]);
    - [Goals], [Goals64]: [updateGoalProgressFromKeyResults] and
      [updateKeyResult] of the performance service;
    - [Recruitment]: [approveJobRequisition], [updateApplicationStage] and
      the two functions that create approval workflows, over the tables
      they read and write;
    - [Text]: [generateSlug] and the running part of the record numbers;
    - [Ats]: [createJobPosting], [createCandidate] and [createApplication]
      with their number generators.

    Strings are byte strings: a JavaScript string is given by its UTF-8
    encoding.
    JavaScript numbers are modelled by [Js.number]: exact rationals extended
    with the two infinities and NaN; the two zeros are identified.  The
    operations come in two kinds: exact ones, used where a statement does
    not depend on rounding, and those of IEEE doubles ([Js.add64],
    [Js.mul64], [Js.div64]), used by [Goals64] for the value that the goal
    roll-up stores.
    Database tables are lists of rows in storage order; ORM calls become
    functions in a state-and-exception monad over the tables. *)

From Stdlib Require Import ZArith QArith Qround Qabs Lqa String Ascii List Lia Bool.
From Stdlib Require Import DecimalString DecimalN Floats.SpecFloat.
From stdpp Require Import base option gmap strings.
Import ListNotations.

Local Open Scope string_scope.

(** ** JavaScript numbers *)

Module Js.

Inductive number : Type :=
| Fin (q : Q)
| PosInf
| NegInf
| NaN.

(** Equality of the denoted values ([Q] has several fractions per value). *)
Definition equiv (a b : number) : Prop :=
  match a, b with
  | Fin x, Fin y => (x == y)%Q
  | PosInf, PosInf | NegInf, NegInf | NaN, NaN => True
  | _, _ => False
  end.

Definition of_Z (z : Z) : number := Fin (inject_Z z).

Definition inf_of (c : comparison) : number :=
  match c with Gt => PosInf | Lt => NegInf | Eq => NaN end.

Definition sign (a : number) : comparison :=
  match a with
  | Fin q => (q ?= 0)%Q
  | PosInf => Gt
  | NegInf => Lt
  | NaN => Eq
  end.

Definition sign_mul (c d : comparison) : comparison :=
  match c, d with
  | Eq, _ | _, Eq => Eq
  | Gt, Gt | Lt, Lt => Gt
  | _, _ => Lt
  end.

Definition add (a b : number) : number :=
  match a, b with
  | NaN, _ | _, NaN => NaN
  | Fin x, Fin y => Fin (x + y)
  | PosInf, NegInf | NegInf, PosInf => NaN
  | PosInf, _ | _, PosInf => PosInf
  | NegInf, _ | _, NegInf => NegInf
  end.

Definition neg (a : number) : number :=
  match a with
  | Fin x => Fin (- x)
  | PosInf => NegInf
  | NegInf => PosInf
  | NaN => NaN
  end.

Definition sub (a b : number) : number := add a (neg b).

Definition mul (a b : number) : number :=
  match a, b with
  | NaN, _ | _, NaN => NaN
  | Fin x, Fin y => Fin (x * y)
  | _, _ => inf_of (sign_mul (sign a) (sign b))
  end.

Definition div (a b : number) : number :=
  match a, b with
  | NaN, _ | _, NaN => NaN
  | Fin x, Fin y => if Qeq_bool y 0 then inf_of (x ?= 0)%Q else Fin (x / y)
  | Fin _, _ => Fin 0
  | _, Fin y => inf_of (sign_mul (sign a) (if Qeq_bool y 0 then Gt else (y ?= 0)%Q))
  | _, _ => NaN
  end.

(** [a <= b]; false as soon as one side is NaN. *)
Definition leb (a b : number) : bool :=
  match a, b with
  | NaN, _ | _, NaN => false
  | Fin x, Fin y => Qle_bool x y
  | NegInf, _ | _, PosInf => true
  | _, _ => false
  end.

Definition geb (a b : number) : bool := leb b a.
Definition ltb (a b : number) : bool := leb a b && negb (leb b a).
Definition gtb (a b : number) : bool := ltb b a.

(** [a === b] on numbers. *)
Definition strict_eq (a b : number) : bool := leb a b && leb b a.

(** [Math.min(a, b)] *)
Definition min (a b : number) : number :=
  match a, b with
  | NaN, _ | _, NaN => NaN
  | _, _ => if leb a b then a else b
  end.

(** [Math.abs] *)
Definition abs (a : number) : number :=
  match a with
  | Fin q => Fin (Qabs q)
  | PosInf | NegInf => PosInf
  | NaN => NaN
  end.

(** [Math.ceil] *)
Definition ceil (a : number) : number :=
  match a with
  | Fin q => of_Z (Qceiling q)
  | _ => a
  end.

(** [Math.round]: the nearest integer, halves towards +infinity. *)
Definition round (a : number) : number :=
  match a with
  | Fin q => of_Z (Qfloor (q + (1 # 2)))
  | _ => a
  end.

(** *** The arithmetic of doubles

    The operations above are exact. An operation on doubles returns the
    double nearest to the exact result, the even one of two that are as
    near, and an infinity beyond the largest double. A double is given by
    its value. *)

(** [n / d] rounded to the nearest integer, halves to the even one;
    [0 <= n] and [0 < d]. *)
Definition round_half_even (n d : Z) : Z :=
  let qt := (n / d)%Z in
  match (2 * (n mod d) ?= d)%Z with
  | Lt => qt
  | Gt => (qt + 1)%Z
  | Eq => if Z.even qt then qt else (qt + 1)%Z
  end.

(** The double nearest to [q]: with [2^e <= |q| < 2^(e+1)], a multiple of
    [2^ex] for [ex] the larger of [e - 52] and [-1074]. *)
Definition binary64 (q : Q) : number :=
  let n := Qnum q in
  let d := Zpos (Qden q) in
  if (n =? 0)%Z then Fin 0
  else
    let a := Z.abs n in
    let e0 := (Z.log2 a - Z.log2 d)%Z in
    let reached :=
      if (0 <=? e0)%Z then (d * 2 ^ e0 <=? a)%Z else (d <=? a * 2 ^ (- e0))%Z in
    let e := if reached then e0 else (e0 - 1)%Z in
    let ex := Z.max (e - 52) (-1074) in
    let m :=
      if (0 <=? ex)%Z then round_half_even a (d * 2 ^ ex)
      else round_half_even (a * 2 ^ (- ex)) d in
    if (0 <=? ex)%Z && (2 ^ 1024 <=? m * 2 ^ ex)%Z
    then (if (0 <? n)%Z then PosInf else NegInf)
    else
      Fin (Qred (if (0 <=? ex)%Z
                 then inject_Z (Z.sgn n * m * 2 ^ ex)
                 else Qmake (Z.sgn n * m) (Z.to_pos (2 ^ (- ex))))).

Definition to64 (a : number) : number :=
  match a with
  | Fin q => binary64 q
  | _ => a
  end.

(** [a + b], [a * b] and [a / b] on doubles. *)
Definition add64 (a b : number) : number := to64 (add a b).
Definition mul64 (a b : number) : number := to64 (mul a b).
Definition div64 (a b : number) : number := to64 (div a b).

(** The value of a binary64 number of the Standard Library. *)
Definition of_spec (x : spec_float) : number :=
  match x with
  | S754_zero _ => Fin 0
  | S754_infinity false => PosInf
  | S754_infinity true => NegInf
  | S754_nan => NaN
  | S754_finite s m e =>
      let z := if s then Z.neg m else Z.pos m in
      Fin (Qred (if (0 <=? e)%Z
                 then inject_Z (z * 2 ^ e)
                 else Qmake z (Z.to_pos (2 ^ (- e)))))
  end.

(** The double [m * 2^e] of the Standard Library. *)
Definition spec_of (m e : Z) : spec_float := binary_normalize 53 1024 m e false.

End Js.

Abbreviation number := Js.number.
Abbreviation Fin := Js.Fin.
Abbreviation NaN := Js.NaN.

(** A string is truthy when it is not empty. *)
Definition truthy (s : string) : bool := negb (String.eqb s "").

(** ** The leave request form *)

Module Leave.

Record LeavePolicy : Type := {
  id : string;
  name : string;
  balanceAvailable : number;
  minimumNotice : number;
  requiresApproval : bool;
  allowNegativeBalance : bool
}.

Record FormData : Type := {
  policyId : string;
  startDate : string;
  endDate : string;
  startTime : string;
  endTime : string;
  reason : string;
  emergencyContact : string
}.

(** The texts stored in the [errors] object; the two template literals keep
    the numbers they interpolate. *)
Inductive message : Type :=
| Text (s : string)
| MinimumNoticeRequired (hours : number)
| InsufficientBalance (available requested : number).

(** The component state read by the functions below. *)
Record State : Type := {
  formData : FormData;
  selectedPolicy : option LeavePolicy;
  calculatedDays : number
}.

(** The object handed to [onSubmit]. *)
Record RequestData : Type := {
  rq_employeeId : string;
  rq_policyId : string;
  rq_startDate : string;
  rq_endDate : string;
  rq_startTime : string;
  rq_endTime : string;
  rq_reason : string;
  rq_emergencyContact : option string;
  rq_daysRequested : number
}.

Definition is_space (c : Ascii.ascii) : bool :=
  let n := Ascii.nat_of_ascii c in
  (Nat.eqb n 32 || (Nat.leb 9 n && Nat.leb n 13))%bool.

Definition byte_is (n : nat) (c : Ascii.ascii) : bool :=
  Nat.eqb (Ascii.nat_of_ascii c) n.

(** The third byte of the white space that begins with E2 and [d]:
    U+2000 to U+200A, U+2028, U+2029 and U+202F after E2 80, U+205F after
    E2 81. *)
Definition white_after_E2 (d e : Ascii.ascii) : bool :=
  let n := Ascii.nat_of_ascii e in
  (byte_is 128 d
   && ((Nat.leb 128 n && Nat.leb n 138) || Nat.eqb n 168 || Nat.eqb n 169
       || Nat.eqb n 175))
  || (byte_is 129 d && Nat.eqb n 159).

(** [!s.trim()]: nothing but white space. [trim] strips the white space and
    the line terminators of ECMAScript: beside the characters of
    [is_space], U+00A0 (C2 A0), U+1680 (E1 9A 80), U+2000 to U+200A, U+2028,
    U+2029, U+202F, U+205F (see [white_after_E2]), U+3000 (E3 80 80) and
    U+FEFF (EF BB BF). *)
Fixpoint blank (s : string) : bool :=
  match s with
  | EmptyString => true
  | String c r =>
      if is_space c then blank r
      else
        match r with
        | String d r1 =>
            if byte_is 194 c then byte_is 160 d && blank r1
            else
              match r1 with
              | String e r2 =>
                  ((byte_is 225 c && byte_is 154 d && byte_is 128 e)
                   || (byte_is 226 c && white_after_E2 d e)
                   || (byte_is 227 c && byte_is 128 d && byte_is 128 e)
                   || (byte_is 239 c && byte_is 187 d && byte_is 191 e))
                  && blank r2
              | EmptyString => false
              end
        | EmptyString => false
        end
  end.

Definition MS_PER_DAY : Z := 1000 * 60 * 60 * 24.
Definition MS_PER_HOUR : Z := 1000 * 60 * 60.

Section Form.

(** [newDate s] is the time value of [new Date(s)]: milliseconds since the
    epoch, NaN for an invalid date.  Dates compare by this value. *)
Variable newDate : string -> number.

Definition calculateDays (fd : FormData) : number :=
  let start := newDate (startDate fd) in
  let end_ := newDate (endDate fd) in
  if Js.gtb start end_ then Js.of_Z 0
  else
    let diffTime := Js.abs (Js.sub end_ start) in
    let diffDays := Js.add (Js.ceil (Js.div diffTime (Js.of_Z MS_PER_DAY))) (Js.of_Z 1) in
    if String.eqb (startTime fd) "half_day" && String.eqb (endTime fd) "half_day" then
      if Js.strict_eq diffDays (Js.of_Z 1) then Fin (1 # 2)
      else Js.sub diffDays (Fin (1 # 2))
    else if String.eqb (startTime fd) "half_day" || String.eqb (endTime fd) "half_day" then
      Js.sub diffDays (Fin (1 # 2))
    else diffDays.

(** [if (c) { newErrors.k = v }] *)
Definition when {A} (c : bool) (f : A -> A) (a : A) : A := if c then f a else a.

Definition validateForm (st : State) (now : number)
  : gmap string message * bool :=
  let fd := formData st in
  let e0 : gmap string message := ∅ in
  let e1 := when (negb (truthy (policyId fd)))
              (<["policyId" := Text "Please select a leave type"]>) e0 in
  let e2 := when (negb (truthy (startDate fd)))
              (<["startDate" := Text "Start date is required"]>) e1 in
  let e3 := when (negb (truthy (endDate fd)))
              (<["endDate" := Text "End date is required"]>) e2 in
  let e4 := when (truthy (startDate fd) && truthy (endDate fd)
                  && Js.gtb (newDate (startDate fd)) (newDate (endDate fd)))
              (<["endDate" := Text "End date must be after start date"]>) e3 in
  let e5 := when (blank (reason fd))
              (<["reason" := Text "Reason is required"]>) e4 in
  let e6 :=
    match selectedPolicy st with
    | Some p =>
        if truthy (startDate fd) then
          let hoursNotice :=
            Js.div (Js.sub (newDate (startDate fd)) now) (Js.of_Z MS_PER_HOUR) in
          when (Js.ltb hoursNotice (minimumNotice p))
            (<["startDate" := MinimumNoticeRequired (minimumNotice p)]>) e5
        else e5
    | None => e5
    end in
  let e7 :=
    match selectedPolicy st with
    | Some p =>
        when (Js.gtb (calculatedDays st) (Js.of_Z 0)
              && negb (allowNegativeBalance p)
              && Js.gtb (calculatedDays st) (balanceAvailable p))
          (<["general" := InsufficientBalance (balanceAvailable p) (calculatedDays st)]>) e6
    | None => e6
    end in
  (e7, bool_decide (size e7 = 0%nat)).

(** What [handleSubmit] passes to [onSubmit], if it gets that far. *)
Definition handleSubmit (employeeId : string) (st : State) (now : number)
  : option RequestData :=
  if negb (snd (validateForm st now)) then None
  else
    let fd := formData st in
    Some {| rq_employeeId := employeeId;
            rq_policyId := policyId fd;
            rq_startDate := startDate fd;
            rq_endDate := endDate fd;
            rq_startTime := startTime fd;
            rq_endTime := endTime fd;
            rq_reason := reason fd;
            rq_emergencyContact :=
              if truthy (emergencyContact fd) then Some (emergencyContact fd) else None;
            rq_daysRequested := calculatedDays st |}.

End Form.

(** Time values of the date-only strings used in the examples
    (midnight UTC of that day). *)
Definition sampleDate (s : string) : number :=
  if String.eqb s "2024-03-04" then Js.of_Z 1709510400000
  else if String.eqb s "2024-03-05" then Js.of_Z 1709596800000
  else if String.eqb s "2024-03-06" then Js.of_Z 1709683200000
  else NaN.

Definition sampleForm (start end_ startTime endTime : string) : FormData :=
  {| policyId := "annual"; startDate := start; endDate := end_;
     startTime := startTime; endTime := endTime;
     reason := "family visit"; emergencyContact := "" |}.

(** *** Vocabulary of the day-count statements *)

(** The [diffDays] of [calculateDays] before the half-day adjustment, for
    time values [a <= b]. *)
Definition daySpan (a b : Z) : Z :=
  (Qceiling (Qabs (inject_Z b + - inject_Z a) / inject_Z MS_PER_DAY) + 1)%Z.

Definition anyHalf (fd : FormData) : bool :=
  String.eqb (startTime fd) "half_day" || String.eqb (endTime fd) "half_day".

(** *** The day count as the specification words it *)

(** The inclusive day count [span], less one half per half-day boundary;
    a single day with both boundaries half-day counts one half. *)
Definition spec_daysRequested (span : Z) (startHalf endHalf : bool) : Q :=
  if (span =? 1)%Z && startHalf && endHalf then 1 # 2
  else inject_Z span
       - (if startHalf then 1 # 2 else 0)
       - (if endHalf then 1 # 2 else 0).

End Leave.

(** ** Service calls: state and exceptions *)

Module Svc.

Inductive exn : Type :=
| Error (message : string)
| RecordNotFound (model : string).

Inductive outcome (A : Type) : Type :=
| Returned (a : A)
| Threw (e : exn).
Arguments Returned {A} a.
Arguments Threw {A} e.

(** A call runs on the tables [S] and leaves them in some state whether it
    returns or throws. *)
Definition M (S A : Type) : Type := S -> outcome A * S.

Definition ret {S A} (a : A) : M S A := fun s => (Returned a, s).

Definition bind {S A B} (m : M S A) (k : A -> M S B) : M S B :=
  fun s =>
    match m s with
    | (Returned a, s') => k a s'
    | (Threw e, s') => (Threw e, s')
    end.

Definition throw {S A} (e : exn) : M S A := fun s => (Threw e, s).

Definition gets {S A} (f : S -> A) : M S A := fun s => (Returned (f s), s).

Definition modify {S} (f : S -> S) : M S unit := fun s => (Returned tt, f s).

(** [try { m } catch (error) { h error }] *)
Definition try_catch {S A} (m : M S A) (h : exn -> M S A) : M S A :=
  fun s =>
    match m s with
    | (Returned a, s') => (Returned a, s')
    | (Threw e, s') => h e s'
    end.

(** [await Promise.all([m1, m2])]: both calls are issued; the first
    rejection, if any, is what the caller sees. *)
Definition all2 {S A B} (m1 : M S A) (m2 : M S B) : M S (A * B) :=
  fun s =>
    match m1 s with
    | (Returned a, s1) =>
        match m2 s1 with
        | (Returned b, s2) => (Returned (a, b), s2)
        | (Threw e, s2) => (Threw e, s2)
        end
    | (Threw e, s1) => (Threw e, snd (m2 s1))
    end.

End Svc.

#[global] Instance svc_ret {S} : MRet (Svc.M S) := @Svc.ret S.
#[global] Instance svc_bind {S} : MBind (Svc.M S) := fun A B k m => Svc.bind m k.

(** ** Goal progress from key results *)

Module Goals.
Import Svc.

Record KeyResult : Type := {
  kr_id : string;
  goal_id : string;
  title : string;
  target_value : Q;
  current_value : Q;
  is_binary : bool;
  weight : Q
}.

Record Goal : Type := {
  id : string;
  progress_percentage : number
}.

Record Db : Type := {
  goals : list Goal;
  keyResults : list KeyResult
}.

(** [prisma.keyResult.findMany({ where: { goal_id: goalId } })] *)
Definition keyResult_findMany (goalId : string) : M Db (list KeyResult) :=
  gets (fun db => List.filter (fun kr => String.eqb (goal_id kr) goalId) (keyResults db)).

(** [prisma.goal.update({ where: { id }, data: { progress_percentage } })];
    Prisma rejects when no row has that id. *)
Definition put_progress (goalId : string) (p : number) (db : Db) : Db :=
  {| goals := List.map (fun x => if String.eqb (id x) goalId
                                 then {| id := id x; progress_percentage := p |}
                                 else x) (goals db);
     keyResults := keyResults db |}.

Definition goal_update (goalId : string) (p : number) : M Db Goal :=
  fun db =>
    match List.find (fun g => String.eqb (id g) goalId) (goals db) with
    | None => (Threw (RecordNotFound "Goal"), db)
    | Some g =>
        (Returned {| id := id g; progress_percentage := p |},
         put_progress goalId p db)
    end.

(** The [progress] constant of the loop body. *)
Definition progress (kr : KeyResult) : number :=
  if is_binary kr then
    if Js.geb (Fin (current_value kr)) (Fin (target_value kr))
    then Js.of_Z 100 else Js.of_Z 0
  else
    Js.min (Js.mul (Js.div (Fin (current_value kr)) (Fin (target_value kr)))
                   (Js.of_Z 100))
           (Js.of_Z 100).

(** One turn of [keyResults.forEach]: the pair is
    [(totalProgress, totalWeight)]. *)
Definition forEach_body (acc : number * number) (kr : KeyResult) : number * number :=
  (Js.add (fst acc) (Js.mul (progress kr) (Fin (weight kr))),
   Js.add (snd acc) (Fin (weight kr))).

Definition updateGoalProgressFromKeyResults (goalId : string) : M Db unit :=
  try_catch
    (keyResults ← keyResult_findMany goalId;
     if Nat.eqb (List.length keyResults) 0 then ret tt
     else
       let totals := List.fold_left forEach_body keyResults (Js.of_Z 0, Js.of_Z 0) in
       let totalProgress := fst totals in
       let totalWeight := snd totals in
       let averageProgress :=
         if Js.gtb totalWeight (Js.of_Z 0)
         then Js.div totalProgress totalWeight
         else Js.of_Z 0 in
       goal_update goalId (Js.round averageProgress);;
       ret tt)
    (fun _ => ret tt).

(** *** The roll-up as the specification words it *)

Definition sum (l : list number) : number :=
  List.fold_right Js.add (Js.of_Z 0) l.

Definition spec_resultProgress (kr : KeyResult) : number :=
  if is_binary kr then
    if Qle_bool (target_value kr) (current_value kr) then Js.of_Z 100 else Js.of_Z 0
  else
    Js.min (Js.mul (Js.div (Fin (current_value kr)) (Fin (target_value kr)))
                   (Js.of_Z 100))
           (Js.of_Z 100).

(** resultProgress × weight *)
Definition spec_weighted (kr : KeyResult) : number :=
  Js.mul (spec_resultProgress kr) (Fin (weight kr)).

(** round(Σ(resultProgress × weight) / Σ(weight)) *)
Definition spec_goalProgress (krs : list KeyResult) : number :=
  Js.round
    (Js.div (sum (List.map spec_weighted krs))
            (sum (List.map (fun kr => Fin (weight kr)) krs))).

Definition keyResultsOf (db : Db) (goalId : string) : list KeyResult :=
  List.filter (fun kr => String.eqb (goal_id kr) goalId) (keyResults db).

Definition progressOf (db : Db) (goalId : string) : option number :=
  option_map progress_percentage
    (List.find (fun g => String.eqb (id g) goalId) (goals db)).


(** *** Sample data *)

Definition sampleKeyResult (k : string) (target current : Q) (binary : bool) (w : Q)
  : KeyResult :=
  {| kr_id := k; goal_id := "goal-1"; title := k;
     target_value := target; current_value := current;
     is_binary := binary; weight := w |}.

Definition sampleDb (krs : list KeyResult) : Db :=
  {| goals := [ {| id := "goal-1"; progress_percentage := Js.of_Z 40 |};
                {| id := "goal-2"; progress_percentage := Js.of_Z 15 |} ];
     keyResults := krs |}.

End Goals.

(** ** Recruitment: requisition approval and application stages *)

Module StepStatus.
Inductive t : Type := pending | approved | rejected.
Definition eqb (a b : t) : bool :=
  match a, b with
  | pending, pending | approved, approved | rejected, rejected => true
  | _, _ => false
  end.
End StepStatus.

Module WorkflowStatus.
Inductive t : Type := active | completed | cancelled.
Definition eqb (a b : t) : bool :=
  match a, b with
  | active, active | completed, completed | cancelled, cancelled => true
  | _, _ => false
  end.
End WorkflowStatus.

Module RequisitionStatus.
Inductive t : Type :=
| draft | pending_approval | approved | rejected
| published | on_hold | cancelled | closed.
End RequisitionStatus.

Module Stage.
Inductive t : Type :=
| applied | screening | phone_interview | technical_interview
| onsite_interview | final_interview | background_check
| offer_pending | offer_sent | hired | rejected | withdrawn.
End Stage.

(** The clock as one call of [approveJobRequisition] reads it: the three
    [new Date()] of its text, named after the columns they are written to. *)
Module Clock.
Record t : Type := {
  actionDate : Z;
  approvedAt : Z;
  completedAt : Z
}.
End Clock.

Module ApprovalStep.
Record t : Type := {
  id : string;
  workflowId : string;
  approverId : string;
  level : Z;
  status : StepStatus.t;
  actionDate : option Z;
  comments : option string;
  required : bool
}.
End ApprovalStep.

Module ApprovalWorkflow.
Record t : Type := {
  id : string;
  jobRequisitionId : option string;
  offerId : option string;
  status : WorkflowStatus.t;
  completedAt : option Z
}.
End ApprovalWorkflow.

Module JobRequisition.
Record t : Type := {
  id : string;
  title : string;
  status : RequisitionStatus.t;
  approvedAt : option Z;
  approvedById : option string
}.
End JobRequisition.

Module Application.
Record t : Type := {
  id : string;
  candidateId : string;
  jobPostingId : string;
  stage : Stage.t;
  updatedById : option string;
  updatedAt : option Z
}.
End Application.

Module ApplicationStageHistory.
Record t : Type := {
  applicationId : string;
  stage : Stage.t;
  notes : option string;
  rejectionReason : option string;
  feedback : option string;
  changedById : string
}.
End ApplicationStageHistory.

(** The validated request body of the stage route
    ([updateApplicationStageSchema]). *)
Module UpdateApplicationStage.
Record t : Type := {
  applicationId : string;
  stage : Stage.t;
  notes : option string;
  rejectionReason : option string;
  feedback : option string
}.
End UpdateApplicationStage.

Module Recruitment.
Import Svc.

Record Db : Type := {
  requisitions : list JobRequisition.t;
  workflows : list ApprovalWorkflow.t;
  steps : list ApprovalStep.t;
  applications : list Application.t;
  stageHistory : list ApplicationStageHistory.t
}.

Definition opt_is (o : option string) (s : string) : bool :=
  match o with Some x => String.eqb x s | None => false end.

(** An [undefined] value in [data] leaves the column as it is. *)
Definition set_if_given {A} (new : option A) (old : option A) : option A :=
  match new with Some _ => new | None => old end.

(** *** [orderBy: { level: 'asc' }] (ties keep storage order) *)

Fixpoint insert_by_level (s : ApprovalStep.t) (l : list ApprovalStep.t)
  : list ApprovalStep.t :=
  match l with
  | [] => [s]
  | x :: r =>
      if (ApprovalStep.level s <=? ApprovalStep.level x)%Z then s :: x :: r
      else x :: insert_by_level s r
  end.

Definition orderBy_level_asc (l : list ApprovalStep.t) : list ApprovalStep.t :=
  List.fold_right insert_by_level [] l.

Definition is_pending (s : ApprovalStep.t) : bool :=
  StepStatus.eqb (ApprovalStep.status s) StepStatus.pending.

(** *** Queries *)

(** The rows selected by [steps: { where: { status: 'pending' } }] for one
    workflow. *)
Definition pendingStepsOf (workflowId : string) (db : Db) : list ApprovalStep.t :=
  List.filter (fun s => String.eqb (ApprovalStep.workflowId s) workflowId && is_pending s)
              (steps db).

(** [approvalWorkflow.findFirst] with the one pending step of lowest level
    included ([orderBy: { level: 'asc' }, take: 1]). *)
Definition findActiveWorkflow (id : string) (db : Db)
  : option (ApprovalWorkflow.t * list ApprovalStep.t) :=
  match List.find (fun w => opt_is (ApprovalWorkflow.jobRequisitionId w) id
                            && WorkflowStatus.eqb (ApprovalWorkflow.status w)
                                 WorkflowStatus.active)
                  (workflows db) with
  | None => None
  | Some w =>
      Some (w, List.firstn 1
                 (orderBy_level_asc (pendingStepsOf (ApprovalWorkflow.id w) db)))
  end.

(** The rows selected by
    [where: { workflowId, level: { gt: lvl }, status: 'pending' }]. *)
Definition pendingStepsAbove (workflowId : string) (lvl : Z) (db : Db)
  : list ApprovalStep.t :=
  List.filter
    (fun s => String.eqb (ApprovalStep.workflowId s) workflowId
              && (lvl <? ApprovalStep.level s)%Z
              && is_pending s)
    (steps db).

(** [approvalStep.findFirst]: the pending step of lowest level above [lvl]. *)
Definition findNextStep (workflowId : string) (lvl : Z) (db : Db)
  : option ApprovalStep.t :=
  List.head (orderBy_level_asc (pendingStepsAbove workflowId lvl db)).

(** What [getJobRequisitionById] shows of a requisition: the row, its
    workflow and the workflow's steps by ascending level. *)
Definition getJobRequisitionById (id : string) (db : Db)
  : option (JobRequisition.t * option (ApprovalWorkflow.t * list ApprovalStep.t)) :=
  match List.find (fun r => String.eqb (JobRequisition.id r) id) (requisitions db) with
  | None => None
  | Some r =>
      Some (r,
            match List.find (fun w => opt_is (ApprovalWorkflow.jobRequisitionId w) id)
                            (workflows db) with
            | None => None
            | Some w =>
                Some (w, orderBy_level_asc
                           (List.filter
                              (fun s => String.eqb (ApprovalStep.workflowId s)
                                          (ApprovalWorkflow.id w))
                              (steps db)))
            end)
  end.

(** *** Updates: Prisma rejects when no row has the id *)

Definition update_where {A} (key : A -> string) (k : string) (f : A -> A)
  (rows : list A) : list A :=
  List.map (fun x => if String.eqb (key x) k then f x else x) rows.

Definition has_row {A} (key : A -> string) (k : string) (rows : list A) : bool :=
  List.existsb (fun x => String.eqb (key x) k) rows.

Definition approve_step (now : Z) (comments : option string) (s : ApprovalStep.t)
  : ApprovalStep.t :=
  {| ApprovalStep.id := ApprovalStep.id s;
     ApprovalStep.workflowId := ApprovalStep.workflowId s;
     ApprovalStep.approverId := ApprovalStep.approverId s;
     ApprovalStep.level := ApprovalStep.level s;
     ApprovalStep.status := StepStatus.approved;
     ApprovalStep.actionDate := Some now;
     ApprovalStep.comments := set_if_given comments (ApprovalStep.comments s);
     ApprovalStep.required := ApprovalStep.required s |}.

Definition approve_requisition (now : Z) (approverId : string) (r : JobRequisition.t)
  : JobRequisition.t :=
  {| JobRequisition.id := JobRequisition.id r;
     JobRequisition.title := JobRequisition.title r;
     JobRequisition.status := RequisitionStatus.approved;
     JobRequisition.approvedAt := Some now;
     JobRequisition.approvedById := Some approverId |}.

Definition complete_workflow (now : Z) (w : ApprovalWorkflow.t) : ApprovalWorkflow.t :=
  {| ApprovalWorkflow.id := ApprovalWorkflow.id w;
     ApprovalWorkflow.jobRequisitionId := ApprovalWorkflow.jobRequisitionId w;
     ApprovalWorkflow.offerId := ApprovalWorkflow.offerId w;
     ApprovalWorkflow.status := WorkflowStatus.completed;
     ApprovalWorkflow.completedAt := Some now |}.

Definition set_steps (l : list ApprovalStep.t) (db : Db) : Db :=
  {| requisitions := requisitions db;
     workflows := workflows db;
     steps := l;
     applications := applications db;
     stageHistory := stageHistory db |}.

Definition set_requisitions (l : list JobRequisition.t) (db : Db) : Db :=
  {| requisitions := l;
     workflows := workflows db;
     steps := steps db;
     applications := applications db;
     stageHistory := stageHistory db |}.

Definition set_workflows (l : list ApprovalWorkflow.t) (db : Db) : Db :=
  {| requisitions := requisitions db;
     workflows := l;
     steps := steps db;
     applications := applications db;
     stageHistory := stageHistory db |}.

Definition approvalStep_update (id : string) (f : ApprovalStep.t -> ApprovalStep.t)
  : M Db unit :=
  fun db =>
    if has_row ApprovalStep.id id (steps db) then
      (Returned tt, set_steps (update_where ApprovalStep.id id f (steps db)) db)
    else (Threw (RecordNotFound "ApprovalStep"), db).

Definition jobRequisition_update (id : string) (f : JobRequisition.t -> JobRequisition.t)
  : M Db unit :=
  fun db =>
    if has_row JobRequisition.id id (requisitions db) then
      (Returned tt,
       set_requisitions (update_where JobRequisition.id id f (requisitions db)) db)
    else (Threw (RecordNotFound "JobRequisition"), db).

Definition approvalWorkflow_update (id : string) (f : ApprovalWorkflow.t -> ApprovalWorkflow.t)
  : M Db unit :=
  fun db =>
    if has_row ApprovalWorkflow.id id (workflows db) then
      (Returned tt,
       set_workflows (update_where ApprovalWorkflow.id id f (workflows db)) db)
    else (Threw (RecordNotFound "ApprovalWorkflow"), db).

(** The tables once a step has been marked approved. *)
Definition recorded (now : Clock.t) (comments : option string) (s : ApprovalStep.t)
    (db : Db) : Db :=
  set_steps (update_where ApprovalStep.id (ApprovalStep.id s)
               (approve_step (Clock.actionDate now) comments) (steps db)) db.

(** The tables once requisition and workflow have been closed. *)
Definition closed (id approverId : string) (now : Clock.t) (w : ApprovalWorkflow.t)
    (db : Db) : Db :=
  set_workflows (update_where ApprovalWorkflow.id (ApprovalWorkflow.id w)
                   (complete_workflow (Clock.completedAt now)) (workflows db))
    (set_requisitions (update_where JobRequisition.id id
                         (approve_requisition (Clock.approvedAt now) approverId)
                         (requisitions db)) db).

(** *** [approveJobRequisition] *)

Definition NOT_AUTHORIZED : exn := Error "Not authorized to approve at this level".

Definition approveJobRequisition (id approverId : string) (comments : option string)
  (now : Clock.t)
  : M Db (option (JobRequisition.t * option (ApprovalWorkflow.t * list ApprovalStep.t))) :=
  workflow ← gets (findActiveWorkflow id);
  match workflow with
  | None => throw NOT_AUTHORIZED
  | Some (workflow, []) => throw NOT_AUTHORIZED
  | Some (workflow, step0 :: _) =>
      if negb (String.eqb (ApprovalStep.approverId step0) approverId)
      then throw NOT_AUTHORIZED
      else
        approvalStep_update (ApprovalStep.id step0)
          (approve_step (Clock.actionDate now) comments);;
        nextStep ← gets (findNextStep (ApprovalWorkflow.id workflow)
                                      (ApprovalStep.level step0));
        match nextStep with
        | None =>
            all2 (jobRequisition_update id
                    (approve_requisition (Clock.approvedAt now) approverId))
                 (approvalWorkflow_update (ApprovalWorkflow.id workflow)
                    (complete_workflow (Clock.completedAt now)));;
            ret tt
        | Some _ => ret tt
        end;;
        gets (getJobRequisitionById id)
  end.

(** *** [updateApplicationStage] *)

Definition set_stage (stage : Stage.t) (updatedById : string) (now : Z)
  (a : Application.t) : Application.t :=
  {| Application.id := Application.id a;
     Application.candidateId := Application.candidateId a;
     Application.jobPostingId := Application.jobPostingId a;
     Application.stage := stage;
     Application.updatedById := Some updatedById;
     Application.updatedAt := Some now |}.

Definition application_update (id : string) (f : Application.t -> Application.t)
  : M Db Application.t :=
  fun db =>
    match List.find (fun a => String.eqb (Application.id a) id) (applications db) with
    | None => (Threw (RecordNotFound "Application"), db)
    | Some a =>
        (Returned (f a),
         {| requisitions := requisitions db;
            workflows := workflows db;
            steps := steps db;
            applications := update_where Application.id id f (applications db);
            stageHistory := stageHistory db |})
    end.

Definition applicationStageHistory_create (h : ApplicationStageHistory.t) : M Db unit :=
  modify (fun db =>
    {| requisitions := requisitions db;
       workflows := workflows db;
       steps := steps db;
       applications := applications db;
       stageHistory := stageHistory db ++ [h] |}).

Definition updateApplicationStage (data : UpdateApplicationStage.t)
  (updatedById : string) (now : Z) : M Db Application.t :=
  application ← application_update (UpdateApplicationStage.applicationId data)
                   (set_stage (UpdateApplicationStage.stage data) updatedById now);
  applicationStageHistory_create
    {| ApplicationStageHistory.applicationId := UpdateApplicationStage.applicationId data;
       ApplicationStageHistory.stage := UpdateApplicationStage.stage data;
       ApplicationStageHistory.notes := UpdateApplicationStage.notes data;
       ApplicationStageHistory.rejectionReason := UpdateApplicationStage.rejectionReason data;
       ApplicationStageHistory.feedback := UpdateApplicationStage.feedback data;
       ApplicationStageHistory.changedById := updatedById |};;
  ret application.

(** *** Vocabulary of the workflow statements *)

(** [s] is a pending step of workflow [wid]. *)
Definition pending_of (db : Db) (wid : string) (s : ApprovalStep.t) : Prop :=
  In s (steps db)
  /\ ApprovalStep.workflowId s = wid
  /\ ApprovalStep.status s = StepStatus.pending.

(** [s] is a pending step of [wid] of lowest level. *)
Definition lowest_pending (db : Db) (wid : string) (s : ApprovalStep.t) : Prop :=
  pending_of db wid s
  /\ forall t, pending_of db wid t -> (ApprovalStep.level s <= ApprovalStep.level t)%Z.

(** [s] is the single pending step of [wid] of lowest level. *)
Definition current_step (db : Db) (wid : string) (s : ApprovalStep.t) : Prop :=
  pending_of db wid s
  /\ forall t, pending_of db wid t -> t <> s ->
               (ApprovalStep.level s < ApprovalStep.level t)%Z.

(** [w] is the active approval workflow of requisition [id], and the only
    one. *)
Definition active_workflow_of (db : Db) (id : string) (w : ApprovalWorkflow.t) : Prop :=
  In w (workflows db)
  /\ ApprovalWorkflow.jobRequisitionId w = Some id
  /\ ApprovalWorkflow.status w = WorkflowStatus.active
  /\ forall w', In w' (workflows db) ->
                ApprovalWorkflow.jobRequisitionId w' = Some id ->
                ApprovalWorkflow.status w' = WorkflowStatus.active -> w' = w.

(** Requisition [id] has no workflow in status [active]. *)
Definition no_active_workflow (db : Db) (id : string) : Prop :=
  forall w, In w (workflows db) ->
            ApprovalWorkflow.jobRequisitionId w = Some id ->
            ApprovalWorkflow.status w <> WorkflowStatus.active.

(** [r'] is the row [r] with the approval written to it: status
    [approved], the time [t] and the approver. *)
Definition approved_as (r' r : JobRequisition.t) (t : Z) (approverId : string) : Prop :=
  JobRequisition.id r' = JobRequisition.id r
  /\ JobRequisition.title r' = JobRequisition.title r
  /\ JobRequisition.status r' = RequisitionStatus.approved
  /\ JobRequisition.approvedAt r' = Some t
  /\ JobRequisition.approvedById r' = Some approverId.

(** [w'] is the row [w] with the completion written to it: status
    [completed] and the time [t]. *)
Definition completed_as (w' w : ApprovalWorkflow.t) (t : Z) : Prop :=
  ApprovalWorkflow.id w' = ApprovalWorkflow.id w
  /\ ApprovalWorkflow.jobRequisitionId w' = ApprovalWorkflow.jobRequisitionId w
  /\ ApprovalWorkflow.offerId w' = ApprovalWorkflow.offerId w
  /\ ApprovalWorkflow.status w' = WorkflowStatus.completed
  /\ ApprovalWorkflow.completedAt w' = Some t.

(** [m] is at or below the level of every step of [l]. *)
Definition below_all (m : ApprovalStep.t) (l : list ApprovalStep.t) : Prop :=
  forall x, In x l -> (ApprovalStep.level m <= ApprovalStep.level x)%Z.

(** The steps of workflow [wid], in storage order. *)
Definition steps_of (db : Db) (wid : string) : list ApprovalStep.t :=
  List.filter (fun s => String.eqb (ApprovalStep.workflowId s) wid) (steps db).

(** *** Sample data: a two-level workflow *)

Definition sampleStep (id approver : string) (lvl : Z) (st : StepStatus.t)
  : ApprovalStep.t :=
  {| ApprovalStep.id := id;
     ApprovalStep.workflowId := "wf-1";
     ApprovalStep.approverId := approver;
     ApprovalStep.level := lvl;
     ApprovalStep.status := st;
     ApprovalStep.actionDate := None;
     ApprovalStep.comments := None;
     ApprovalStep.required := true |}.

Definition sampleWorkflow (st : WorkflowStatus.t) : ApprovalWorkflow.t :=
  {| ApprovalWorkflow.id := "wf-1";
     ApprovalWorkflow.jobRequisitionId := Some "req-1";
     ApprovalWorkflow.offerId := None;
     ApprovalWorkflow.status := st;
     ApprovalWorkflow.completedAt := None |}.

Definition sampleRequisition : JobRequisition.t :=
  {| JobRequisition.id := "req-1";
     JobRequisition.title := "Staff engineer";
     JobRequisition.status := RequisitionStatus.pending_approval;
     JobRequisition.approvedAt := None;
     JobRequisition.approvedById := None |}.

Definition sampleApplication (st : Stage.t) : Application.t :=
  {| Application.id := "app-1";
     Application.candidateId := "cand-1";
     Application.jobPostingId := "post-1";
     Application.stage := st;
     Application.updatedById := None;
     Application.updatedAt := None |}.

Definition sampleHistory : ApplicationStageHistory.t :=
  {| ApplicationStageHistory.applicationId := "app-1";
     ApplicationStageHistory.stage := Stage.applied;
     ApplicationStageHistory.notes := None;
     ApplicationStageHistory.rejectionReason := None;
     ApplicationStageHistory.feedback := None;
     ApplicationStageHistory.changedById := "user-0" |}.

(** A call that reads the clock at [t] and at the two milliseconds after. *)
Definition sampleClock (t : Z) : Clock.t :=
  {| Clock.actionDate := t; Clock.approvedAt := t + 1; Clock.completedAt := t + 2 |}.

Definition sampleDb (w : WorkflowStatus.t) (a b : StepStatus.t) : Db :=
  {| requisitions := [sampleRequisition];
     workflows := [sampleWorkflow w];
     steps := [sampleStep "step-2" "B" 2 b; sampleStep "step-1" "A" 1 a];
     applications := [sampleApplication Stage.applied];
     stageHistory := [sampleHistory] |}.

End Recruitment.

(** ** The leave request form: choosing a policy *)

Module LeaveMore.
Import Leave.

(** [handlePolicyChange], over the [policies] loaded by
    [fetchLeavePolicies]: [policies.find] gives the first policy of that id,
    [null] when there is none. *)
Definition handlePolicyChange (policies : list LeavePolicy) (newPolicyId : string)
    (st : State) : State :=
  {| formData :=
       {| policyId := newPolicyId;
          startDate := startDate (formData st);
          endDate := endDate (formData st);
          startTime := startTime (formData st);
          endTime := endTime (formData st);
          reason := reason (formData st);
          emergencyContact := emergencyContact (formData st) |};
     selectedPolicy := List.find (fun p => String.eqb (id p) newPolicyId) policies;
     calculatedDays := calculatedDays st |}.

(** *** Vocabulary of the validation statements *)

(** The notice check of [validateForm] fires for policy [p]. *)
Definition noticeTooShort (newDate : string -> number) (st : State) (now : number)
    (p : LeavePolicy) : bool :=
  truthy (startDate (formData st))
  && Js.ltb (Js.div (Js.sub (newDate (startDate (formData st))) now)
                    (Js.of_Z MS_PER_HOUR))
            (minimumNotice p).

(** The balance check of [validateForm] fires for policy [p]. *)
Definition balanceTooLow (st : State) (p : LeavePolicy) : bool :=
  Js.gtb (calculatedDays st) (Js.of_Z 0)
  && negb (allowNegativeBalance p)
  && Js.gtb (calculatedDays st) (balanceAvailable p).

(** The dates of the form are both given and in order. *)
Definition datesInOrder (newDate : string -> number) (fd : FormData) : bool :=
  truthy (startDate fd) && truthy (endDate fd)
  && negb (Js.gtb (newDate (startDate fd)) (newDate (endDate fd))).

Definition samplePolicy (allowNegative : bool) : LeavePolicy :=
  {| id := "annual"; name := "Annual leave";
     balanceAvailable := Js.of_Z 5; minimumNotice := Js.of_Z 48;
     requiresApproval := true; allowNegativeBalance := allowNegative |}.

(** U+00A0 and U+3000 in UTF-8. *)
Definition noBreakSpace : string :=
  String (Ascii.ascii_of_nat 194) (String (Ascii.ascii_of_nat 160) EmptyString).
Definition ideographicSpace : string :=
  String (Ascii.ascii_of_nat 227)
    (String (Ascii.ascii_of_nat 128) (String (Ascii.ascii_of_nat 128) EmptyString)).

(** The sample form with another reason. *)
Definition withReason (r : string) (fd : FormData) : FormData :=
  {| policyId := policyId fd; startDate := startDate fd; endDate := endDate fd;
     startTime := startTime fd; endTime := endTime fd;
     reason := r; emergencyContact := emergencyContact fd |}.

Definition sampleState (fd : FormData) (p : option LeavePolicy) (days : number) : State :=
  {| formData := fd; selectedPolicy := p; calculatedDays := days |}.

End LeaveMore.

(** ** Key result updates *)

Module GoalsMore.
Import Svc Goals.

(** The validated body of a key result update ([UpdateKeyResultSchema]): every
    column is optional; an absent one is left as it is. Of the columns of a
    key result, [description], [unit] and the two timestamps are not kept in
    the rows of this model. *)
Record UpdateKeyResult : Type := {
  u_goal_id : option string;
  u_title : option string;
  u_target_value : option Q;
  u_current_value : option Q;
  u_is_binary : option bool;
  u_weight : option Q
}.

Definition or_old {A} (new : option A) (old : A) : A :=
  match new with Some x => x | None => old end.

Definition apply_update (data : UpdateKeyResult) (kr : KeyResult) : KeyResult :=
  {| kr_id := kr_id kr;
     goal_id := or_old (u_goal_id data) (goal_id kr);
     title := or_old (u_title data) (title kr);
     target_value := or_old (u_target_value data) (target_value kr);
     current_value := or_old (u_current_value data) (current_value kr);
     is_binary := or_old (u_is_binary data) (is_binary kr);
     weight := or_old (u_weight data) (weight kr) |}.

(** [prisma.keyResult.update({ where: { id }, data })]; Prisma rejects when
    no row has that id. *)
Definition keyResult_update (id : string) (data : UpdateKeyResult) : M Db KeyResult :=
  fun db =>
    match List.find (fun kr => String.eqb (kr_id kr) id) (keyResults db) with
    | None => (Threw (RecordNotFound "KeyResult"), db)
    | Some kr =>
        (Returned (apply_update data kr),
         {| goals := goals db;
            keyResults :=
              List.map (fun x => if String.eqb (kr_id x) id then apply_update data x else x)
                       (keyResults db) |})
    end.

Definition updateKeyResult (id : string) (data : UpdateKeyResult) : M Db KeyResult :=
  try_catch
    (keyResult ← keyResult_update id data;
     updateGoalProgressFromKeyResults (goal_id keyResult);;
     ret keyResult)
    (fun _ => throw (Error "Failed to update key result")).

(** *** Vocabulary *)

(** The value [updateGoalProgressFromKeyResults] hands to [goal.update] for
    the key results [krs]. *)
Definition storedProgress (krs : list KeyResult) : number :=
  let totals := List.fold_left forEach_body krs (Js.of_Z 0, Js.of_Z 0) in
  Js.round (if Js.gtb (snd totals) (Js.of_Z 0)
            then Js.div (fst totals) (snd totals)
            else Js.of_Z 0).


Definition noUpdate : UpdateKeyResult :=
  {| u_goal_id := None; u_title := None; u_target_value := None;
     u_current_value := None; u_is_binary := None; u_weight := None |}.

End GoalsMore.


(** ** Goal progress in the arithmetic of doubles *)

(** [Goals] computes in exact arithmetic, which is enough for what does not
    depend on rounding. Here are the same functions with the operations of
    doubles. *)
Module Goals64.
Import Svc Goals GoalsMore.

(** The columns [target_value], [current_value] and [weight] hold doubles,
    given by their values; a value that is no double stands for the double
    nearest to it, as a decimal literal does. *)
Definition target (kr : KeyResult) : number := Js.binary64 (target_value kr).
Definition current (kr : KeyResult) : number := Js.binary64 (current_value kr).
Definition weightOf (kr : KeyResult) : number := Js.binary64 (weight kr).

(** The [progress] constant of the loop body. *)
Definition progress (kr : KeyResult) : number :=
  if is_binary kr then
    if Js.geb (current kr) (target kr)
    then Js.of_Z 100 else Js.of_Z 0
  else
    Js.min (Js.mul64 (Js.div64 (current kr) (target kr))
                     (Js.of_Z 100))
           (Js.of_Z 100).

(** One turn of [keyResults.forEach]: the pair is
    [(totalProgress, totalWeight)]. *)
Definition forEach_body (acc : number * number) (kr : KeyResult) : number * number :=
  (Js.add64 (fst acc) (Js.mul64 (progress kr) (weightOf kr)),
   Js.add64 (snd acc) (weightOf kr)).

Definition updateGoalProgressFromKeyResults (goalId : string) : M Db unit :=
  try_catch
    (keyResults ← keyResult_findMany goalId;
     if Nat.eqb (List.length keyResults) 0 then ret tt
     else
       let totals := List.fold_left forEach_body keyResults (Js.of_Z 0, Js.of_Z 0) in
       let totalProgress := fst totals in
       let totalWeight := snd totals in
       let averageProgress :=
         if Js.gtb totalWeight (Js.of_Z 0)
         then Js.div64 totalProgress totalWeight
         else Js.of_Z 0 in
       goal_update goalId (Js.round averageProgress);;
       ret tt)
    (fun _ => ret tt).

Definition updateKeyResult (id : string) (data : UpdateKeyResult) : M Db KeyResult :=
  try_catch
    (keyResult ← keyResult_update id data;
     updateGoalProgressFromKeyResults (goal_id keyResult);;
     ret keyResult)
    (fun _ => throw (Error "Failed to update key result")).

(** *** The roll-up as the specification words it, on doubles *)

(** The sum of a list of doubles, added one after the other from 0. *)
Definition sum (l : list number) : number :=
  List.fold_left Js.add64 l (Js.of_Z 0).

Definition spec_resultProgress (kr : KeyResult) : number :=
  if is_binary kr then
    if Js.leb (target kr) (current kr) then Js.of_Z 100 else Js.of_Z 0
  else
    Js.min (Js.mul64 (Js.div64 (current kr) (target kr))
                     (Js.of_Z 100))
           (Js.of_Z 100).

(** resultProgress × weight *)
Definition spec_weighted (kr : KeyResult) : number :=
  Js.mul64 (spec_resultProgress kr) (weightOf kr).

(** Σ(weight) *)
Definition totalWeight (krs : list KeyResult) : number :=
  sum (List.map weightOf krs).

(** round(Σ(resultProgress × weight) / Σ(weight)) *)
Definition spec_goalProgress (krs : list KeyResult) : number :=
  Js.round (Js.div64 (sum (List.map spec_weighted krs)) (totalWeight krs)).

(** The value [updateGoalProgressFromKeyResults] hands to [goal.update] for
    the key results [krs]. *)
Definition storedProgress (krs : list KeyResult) : number :=
  let totals := List.fold_left forEach_body krs (Js.of_Z 0, Js.of_Z 0) in
  Js.round (if Js.gtb (snd totals) (Js.of_Z 0)
            then Js.div64 (fst totals) (snd totals)
            else Js.of_Z 0).

(** Pairs of doubles [m * 2^e] on which the operations are compared with
    those of the Standard Library. *)
Definition sampleOperands : list ((Z * Z) * (Z * Z)) :=
  [
    ((23, 0), (40, 0));
    ((5179139571476070, -53), (100, 0));
    ((1, 0), (3, 0));
    ((1, -1074), (1, -1));
    ((3, -1074), (7, -3));
    ((9007199254740991, 971), (9007199254740991, 971));
    ((9007199254740993, 0), (1, 0));
    ((-7, 2), (3, -60));
    ((1, 60), (-1, 0));
    ((123456789, -20), (-987654321, 15));
    ((1, -1074), (1, -1074));
    ((1, -1022), (3, -2));
    ((4503599627370497, -52), (1, -53));
    ((4503599627370497, -52), (3, -54));
    ((1, 1023), (1, 1023));
    ((1, -600), (1, -600));
    ((1, 600), (1, -600));
    ((0, 0), (5, 0));
    ((5, 0), (0, 0));
    ((-1, -1074), (1, 1023));
    ((-8324552242978731, 39), (25, -100));
    ((14, 0), (3568293112776500, 265));
    ((7491299201980036, 0), (28, 0));
    ((-461930, 0), (4501556486308980, 0));
    ((-3663934715703068, 0), (-794810, -31));
    ((18, 38), (405288, 0));
    ((6, 0), (-1027980, 30));
    ((1787838675023105, 39), (-9, -18));
    ((7, 0), (835737, -711));
    ((533584, 943), (674984, -11));
    ((0, 696), (-6, -267));
    ((31, -42), (-24, 18));
    ((-2, -647), (19, -313));
    ((-30, -84), (191708, 20));
    ((6533741545464648, -750), (3496687280331391, -86));
    ((49704, 0), (-23, 30));
    ((-2643030493504715, -715), (7, 71));
    ((222717, 0), (8, 0));
    ((5, -319), (11, -43));
    ((-6225970560215851, 0), (15, -342)) ]%Z.

End Goals64.
(** ** Creating approval workflows; runs of approvals *)

Module RecruitmentMore.
Import Svc Recruitment.

(** Row ids are chosen by the database on [create]; the ids it gives to the
    new rows are arguments of the model. *)

Definition approvalWorkflow_create (w : ApprovalWorkflow.t) : M Db ApprovalWorkflow.t :=
  fun db => (Returned w, set_workflows (workflows db ++ [w]) db).

Definition approvalStep_createMany (l : list ApprovalStep.t) : M Db unit :=
  modify (fun db => set_steps (steps db ++ l) db).

(** [createRequisitionApprovalWorkflow]; [workflowId] and [stepId] are the
    ids of the two rows created. *)
Definition createRequisitionApprovalWorkflow (workflowId stepId : string)
    (requisitionId managerId : string) : M Db ApprovalWorkflow.t :=
  workflow ← approvalWorkflow_create
                {| ApprovalWorkflow.id := workflowId;
                   ApprovalWorkflow.jobRequisitionId := Some requisitionId;
                   ApprovalWorkflow.offerId := None;
                   ApprovalWorkflow.status := WorkflowStatus.active;
                   ApprovalWorkflow.completedAt := None |};
  approvalStep_createMany
    [ {| ApprovalStep.id := stepId;
         ApprovalStep.workflowId := ApprovalWorkflow.id workflow;
         ApprovalStep.approverId := managerId;
         ApprovalStep.level := 1;
         ApprovalStep.status := StepStatus.pending;
         ApprovalStep.actionDate := None;
         ApprovalStep.comments := None;
         ApprovalStep.required := true |} ];;
  ret workflow.

(** [approverIds.map((approverId, index) => ...)], from index [i] on;
    [stepId k] is the id of the row created for index [k]. *)
Fixpoint offerSteps (stepId : nat -> string) (workflowId : string) (i : nat)
    (approverIds : list string) : list ApprovalStep.t :=
  match approverIds with
  | [] => []
  | approverId :: rest =>
      {| ApprovalStep.id := stepId i;
         ApprovalStep.workflowId := workflowId;
         ApprovalStep.approverId := approverId;
         ApprovalStep.level := Z.of_nat i + 1;
         ApprovalStep.status := StepStatus.pending;
         ApprovalStep.actionDate := None;
         ApprovalStep.comments := None;
         ApprovalStep.required := true |}
      :: offerSteps stepId workflowId (S i) rest
  end.

(** [createOfferApprovalWorkflow] *)
Definition createOfferApprovalWorkflow (workflowId : string) (stepId : nat -> string)
    (offerId : string) (approverIds : list string) : M Db ApprovalWorkflow.t :=
  workflow ← approvalWorkflow_create
                {| ApprovalWorkflow.id := workflowId;
                   ApprovalWorkflow.jobRequisitionId := None;
                   ApprovalWorkflow.offerId := Some offerId;
                   ApprovalWorkflow.status := WorkflowStatus.active;
                   ApprovalWorkflow.completedAt := None |};
  approvalStep_createMany
    (offerSteps stepId (ApprovalWorkflow.id workflow) 0 approverIds);;
  ret workflow.

(** *** Runs of approvals *)

(** The approver [approveJobRequisition] would accept for requisition [id]. *)
Definition currentApprover (id : string) (db : Db) : option string :=
  match findActiveWorkflow id db with
  | Some (_, s :: _) => Some (ApprovalStep.approverId s)
  | _ => None
  end.

(** [n] successive calls of [approveJobRequisition], each by the approver
    whose turn it is; [now k] is the clock as the [k]-th of them reads it.
    The run stops when it is nobody's turn. *)
Fixpoint approveInTurn (n : nat) (id : string) (comments : option string)
    (now : nat -> Clock.t) (db : Db) : Db :=
  match n with
  | O => db
  | S k =>
      match currentApprover id db with
      | Some a =>
          approveInTurn k id comments (fun i => now (S i))
            (snd (approveJobRequisition id a comments (now O) db))
      | None => db
      end
  end.

(** *** Vocabulary *)

(** What a step keeps through every approval. *)
Definition stepIdentity (s : ApprovalStep.t) : string * string * string * Z * bool :=
  (ApprovalStep.id s, ApprovalStep.workflowId s, ApprovalStep.approverId s,
   ApprovalStep.level s, ApprovalStep.required s).

(** The stage of the latest history record of an application. *)
Definition latestStage (db : Db) (applicationId : string) : option Stage.t :=
  option_map ApplicationStageHistory.stage
    (List.last
       (List.map Some
          (List.filter
             (fun h => String.eqb (ApplicationStageHistory.applicationId h) applicationId)
             (stageHistory db)))
       None).

(** Every application that has history is at the stage of its latest
    record. *)
Definition stageMatchesHistory (db : Db) : Prop :=
  forall a st,
    In a (applications db) ->
    latestStage db (Application.id a) = Some st ->
    Application.stage a = st.

End RecruitmentMore.

(** ** Slugs and sequence numbers *)

Module Text.

Definition code (c : Ascii.ascii) : nat := Ascii.nat_of_ascii c.

Definition is_lower (c : Ascii.ascii) : bool := Nat.leb 97 (code c) && Nat.leb (code c) 122.
Definition is_digit (c : Ascii.ascii) : bool := Nat.leb 48 (code c) && Nat.leb (code c) 57.
Definition is_hyphen (c : Ascii.ascii) : bool := Nat.eqb (code c) 45.
Definition is_blank (c : Ascii.ascii) : bool := Nat.eqb (code c) 32.

(** The class [[a-z0-9 -]]. *)
Definition in_slug_class (c : Ascii.ascii) : bool :=
  is_lower c || is_digit c || is_blank c || is_hyphen c.

(** [s.replace(/[^a-z0-9 -]/g, '')] *)
Fixpoint remove_others (s : string) : string :=
  match s with
  | EmptyString => EmptyString
  | String c t => if in_slug_class c then String c (remove_others t) else remove_others t
  end.

(** [s.replace(/p+/g, r)]: every maximal run of characters of the class [p]
    becomes the one character [r]; [in_run] tells that the previous
    character was of the class. *)
Fixpoint replace_runs (p : Ascii.ascii -> bool) (r : Ascii.ascii) (in_run : bool)
    (s : string) : string :=
  match s with
  | EmptyString => EmptyString
  | String c t =>
      if p c then
        if in_run then replace_runs p r true t
        else String r (replace_runs p r true t)
      else String c (replace_runs p r false t)
  end.

Fixpoint trimStart (s : string) : string :=
  match s with
  | EmptyString => EmptyString
  | String c t => if Leave.is_space c then trimStart t else s
  end.

Fixpoint trimEnd (s : string) : string :=
  match s with
  | EmptyString => EmptyString
  | String c t =>
      match trimEnd t with
      | EmptyString => if Leave.is_space c then EmptyString else String c EmptyString
      | t' => String c t'
      end
  end.

(** [s.trim()] *)
Definition trim (s : string) : string := trimEnd (trimStart s).

(** [generateSlug]. [toLowerCase] is the platform's. On what the first
    replacement leaves, the white space of [\s] and of [trim] is the space
    character alone, so that [\s+] is rendered by runs of [Leave.is_space]
    characters. *)
Definition generateSlug (toLowerCase : string -> string) (title : string) : string :=
  trim
    (replace_runs is_hyphen "-"%char false
       (replace_runs Leave.is_space "-"%char false
          (remove_others (toLowerCase title)))).

(** [n.toString()] for a natural number. *)
Definition decimal (n : N) : string := NilZero.string_of_uint (N.to_uint n).

Fixpoint repeat_char (c : Ascii.ascii) (n : nat) : string :=
  match n with
  | O => EmptyString
  | S k => String c (repeat_char c k)
  end.

(** [s.padStart(len, c)] *)
Definition padStart (len : nat) (c : Ascii.ascii) (s : string) : string :=
  repeat_char c (len - String.length s) ++ s.

(** [(count + 1).toString().padStart(width, '0')], the running part of the
    numbers of requisitions, postings, candidates, applications and
    offers. *)
Definition sequenceNumber (width : nat) (count : nat) : string :=
  padStart width "0"%char (decimal (N.of_nat count + 1)).

(** *** Vocabulary *)

(** Every character of [s] satisfies [p]. *)
Fixpoint all_chars (p : Ascii.ascii -> bool) (s : string) : bool :=
  match s with
  | EmptyString => true
  | String c t => p c && all_chars p t
  end.

(** No two adjacent characters of [s] both satisfy [p]. *)
Fixpoint no_adjacent (p : Ascii.ascii -> bool) (s : string) : bool :=
  match s with
  | EmptyString => true
  | String c t =>
      match t with
      | EmptyString => true
      | String d _ => negb (p c && p d) && no_adjacent p t
      end
  end.

(** The class of the characters of a slug: [[a-z0-9-]]. *)
Definition slug_char (c : Ascii.ascii) : bool := is_lower c || is_digit c || is_hyphen c.

(** Reading a numeral back, leading zeros included. *)
Definition readDecimal (s : string) : option N :=
  option_map N.of_uint (NilEmpty.uint_of_string s).

(** [toLowerCase] on ASCII letters, for the examples. *)
Fixpoint asciiLower (s : string) : string :=
  match s with
  | EmptyString => EmptyString
  | String c t =>
      String (if Nat.leb 65 (code c) && Nat.leb (code c) 90
              then Ascii.ascii_of_nat (code c + 32) else c)
             (asciiLower t)
  end.

End Text.


(** ** Postings, candidates and applications *)

(** Of the columns of a row and of the fields of a request body, the
    records keep those that the code modelled here reads or writes by
    name; the others are copied from the body to the row as they are. *)

Module JobPosting.
Record t : Type := {
  id : string;
  requisitionId : string;
  title : string;
  createdById : string;
  postingNumber : string;
  slug : string;
  createdAt : Z
}.
End JobPosting.

(** The validated body of the posting route ([createJobPostingSchema]). *)
Module CreateJobPosting.
Record t : Type := {
  requisitionId : string;
  title : string
}.
End CreateJobPosting.

Module Candidate.
Record t : Type := {
  id : string;
  firstName : string;
  lastName : string;
  email : string;
  candidateNumber : string
}.
End Candidate.

(** The validated body of the candidate route ([createCandidateSchema]). *)
Module CreateCandidate.
Record t : Type := {
  firstName : string;
  lastName : string;
  email : string
}.
End CreateCandidate.

(** The columns of an application that are written once, when it is
    created; [Application.t] has the others. *)
Module ApplicationDetail.
Record t : Type := {
  applicationId : string;
  applicationNumber : string;
  appliedAt : Z
}.
End ApplicationDetail.

(** The validated body of the application route
    ([createApplicationSchema]). *)
Module CreateApplication.
Record t : Type := {
  candidateId : string;
  jobPostingId : string;
  appliedAt : Z
}.
End CreateApplication.

Module Ats.
Import Svc Recruitment Text.

Record Store : Type := {
  recruitment : Db;
  jobPostings : list JobPosting.t;
  candidates : list Candidate.t;
  applicationDetails : list ApplicationDetail.t
}.

Definition set_recruitment (d : Db) (s : Store) : Store :=
  {| recruitment := d;
     jobPostings := jobPostings s;
     candidates := candidates s;
     applicationDetails := applicationDetails s |}.

(** A call on the tables of [Recruitment], run on the whole store. *)
Definition lift {A} (m : M Db A) : M Store A :=
  fun s =>
    match m (recruitment s) with
    | (o, d) => (o, set_recruitment d s)
    end.

Definition publish (r : JobRequisition.t) : JobRequisition.t :=
  {| JobRequisition.id := JobRequisition.id r;
     JobRequisition.title := JobRequisition.title r;
     JobRequisition.status := RequisitionStatus.published;
     JobRequisition.approvedAt := JobRequisition.approvedAt r;
     JobRequisition.approvedById := JobRequisition.approvedById r |}.

Definition jobPosting_create (p : JobPosting.t) : M Store JobPosting.t :=
  fun s =>
    (Returned p,
     {| recruitment := recruitment s;
        jobPostings := jobPostings s ++ [p];
        candidates := candidates s;
        applicationDetails := applicationDetails s |}).

Definition candidate_create (c : Candidate.t) : M Store Candidate.t :=
  fun s =>
    (Returned c,
     {| recruitment := recruitment s;
        jobPostings := jobPostings s;
        candidates := candidates s ++ [c];
        applicationDetails := applicationDetails s |}).

Definition application_create (a : Application.t) (d : ApplicationDetail.t)
  : M Store Application.t :=
  fun s =>
    (Returned a,
     {| recruitment :=
          {| requisitions := requisitions (recruitment s);
             workflows := workflows (recruitment s);
             steps := steps (recruitment s);
             applications := applications (recruitment s) ++ [a];
             stageHistory := stageHistory (recruitment s) |};
        jobPostings := jobPostings s;
        candidates := candidates s;
        applicationDetails := applicationDetails s ++ [d] |}).

(** [generateCandidateNumber] *)
Definition generateCandidateNumber : M Store string :=
  count ← gets (fun s => List.length (candidates s));
  ret ("CAND-" ++ sequenceNumber 6 count)%string.

(** [createCandidate]; [id] is the id the database gives to a new row. *)
Definition createCandidate (id : string) (data : CreateCandidate.t)
  : M Store Candidate.t :=
  existingCandidate ←
    gets (fun s => List.find
                     (fun c => String.eqb (Candidate.email c) (CreateCandidate.email data))
                     (candidates s));
  match existingCandidate with
  | Some existingCandidate => ret existingCandidate
  | None =>
      candidateNumber ← generateCandidateNumber;
      candidate_create
        {| Candidate.id := id;
           Candidate.firstName := CreateCandidate.firstName data;
           Candidate.lastName := CreateCandidate.lastName data;
           Candidate.email := CreateCandidate.email data;
           Candidate.candidateNumber := candidateNumber |}
  end.

Section Platform.

(** [new Date(t).getFullYear()] and [new Date(`${year}-01-01`).getTime()]
    for the years of our era, and [String.prototype.toLowerCase]. *)
Variable getFullYear : Z -> N.
Variable yearStart : N -> Z.
Variable toLowerCase : string -> string.

(** [{ gte: new Date(`${year}-01-01`), lt: new Date(`${year + 1}-01-01`) }] *)
Definition inYear (year : N) (t : Z) : bool :=
  (yearStart year <=? t)%Z && (t <? yearStart (year + 1))%Z.

(** [generatePostingNumber] *)
Definition generatePostingNumber (now : Z) : M Store string :=
  let year := getFullYear now in
  count ← gets (fun s => List.length
                           (List.filter (fun p => inYear year (JobPosting.createdAt p))
                                        (jobPostings s)));
  ret ("POST-" ++ decimal year ++ "-" ++ sequenceNumber 4 count)%string.

(** [generateApplicationNumber] *)
Definition generateApplicationNumber (now : Z) : M Store string :=
  let year := getFullYear now in
  count ← gets (fun s => List.length
                           (List.filter
                              (fun d => inYear year (ApplicationDetail.appliedAt d))
                              (applicationDetails s)));
  ret ("APP-" ++ decimal year ++ "-" ++ sequenceNumber 4 count)%string.

Definition NOT_APPROVED : exn :=
  Error "Cannot create posting for non-approved requisition".

Definition ALREADY_APPLIED : exn :=
  Error "Candidate has already applied for this position".

(** [createJobPosting]; [id] and [createdAt] are what the database gives
    to the new row, [now] is the clock read by [generatePostingNumber].
    The posting is returned with the requisition as it was read for
    [include], before its status is updated. *)
Definition createJobPosting (id : string) (createdAt now : Z)
    (data : CreateJobPosting.t) (createdById : string)
  : M Store (JobPosting.t * JobRequisition.t) :=
  requisition ←
    gets (fun s => List.find
                     (fun r => String.eqb (JobRequisition.id r)
                                 (CreateJobPosting.requisitionId data))
                     (requisitions (recruitment s)));
  match requisition with
  | None => throw (Error "Job requisition not found")
  | Some requisition =>
      match JobRequisition.status requisition with
      | RequisitionStatus.approved =>
          postingNumber ← generatePostingNumber now;
          posting ← jobPosting_create
            {| JobPosting.id := id;
               JobPosting.requisitionId := CreateJobPosting.requisitionId data;
               JobPosting.title := CreateJobPosting.title data;
               JobPosting.createdById := createdById;
               JobPosting.postingNumber := postingNumber;
               JobPosting.slug := generateSlug toLowerCase (CreateJobPosting.title data);
               JobPosting.createdAt := createdAt |};
          lift (jobRequisition_update (CreateJobPosting.requisitionId data) publish);;
          ret (posting, requisition)
      | _ => throw NOT_APPROVED
      end
  end.

(** [where: { candidateId: data.candidateId, jobPostingId: data.jobPostingId }] *)
Definition samePair (data : CreateApplication.t) (a : Application.t) : bool :=
  String.eqb (Application.candidateId a) (CreateApplication.candidateId data)
  && String.eqb (Application.jobPostingId a) (CreateApplication.jobPostingId data).

(** [createApplication]; [id] and [updatedAt] are what the database gives
    to the new row. *)
Definition createApplication (id : string) (updatedAt : option Z) (now : Z)
    (data : CreateApplication.t) : M Store Application.t :=
  existingApplication ←
    gets (fun s => List.find (samePair data) (applications (recruitment s)));
  match existingApplication with
  | Some _ => throw ALREADY_APPLIED
  | None =>
      applicationNumber ← generateApplicationNumber now;
      application_create
        {| Application.id := id;
           Application.candidateId := CreateApplication.candidateId data;
           Application.jobPostingId := CreateApplication.jobPostingId data;
           Application.stage := Stage.applied;
           Application.updatedById := None;
           Application.updatedAt := updatedAt |}
        {| ApplicationDetail.applicationId := id;
           ApplicationDetail.applicationNumber := applicationNumber;
           ApplicationDetail.appliedAt := CreateApplication.appliedAt data |}
  end.

End Platform.

(** *** Vocabulary *)

(** The [i]-th candidate stored has the number made from the count [i]. *)
Definition numberedInOrder (l : list Candidate.t) : Prop :=
  forall i c, List.nth_error l i = Some c ->
              Candidate.candidateNumber c = ("CAND-" ++ sequenceNumber 6 i)%string.

(** The row that [createCandidate] stores for an address that is new. *)
Definition newCandidate (id : string) (data : CreateCandidate.t) (s : Store) : Candidate.t :=
  {| Candidate.id := id;
     Candidate.firstName := CreateCandidate.firstName data;
     Candidate.lastName := CreateCandidate.lastName data;
     Candidate.email := CreateCandidate.email data;
     Candidate.candidateNumber :=
       ("CAND-" ++ sequenceNumber 6 (List.length (candidates s)))%string |}.

(** The candidate and the posting of an application. *)
Definition applicationPair (a : Application.t) : string * string :=
  (Application.candidateId a, Application.jobPostingId a).

(** The history records of one application, oldest first. *)
Definition historyOf (d : Db) (applicationId : string) : list ApplicationStageHistory.t :=
  List.filter
    (fun h => String.eqb (ApplicationStageHistory.applicationId h) applicationId)
    (stageHistory d).

(** *** Sample data *)

Definition sampleYear (t : Z) : N := 2024.
Definition sampleYearStart (y : N) : Z := (Z.of_N y - 1970) * 31557600000.

Definition sampleStore (d : Db) : Store :=
  {| recruitment := d; jobPostings := []; candidates := []; applicationDetails := [] |}.

(** The sample tables with the last step pending. *)
Definition lastStepPending : Db :=
  sampleDb WorkflowStatus.active StepStatus.approved StepStatus.pending.

(** The sample tables with the requisition approved. *)
Definition approvedDb : Db :=
  set_requisitions [approve_requisition 1000 "B" sampleRequisition] lastStepPending.

Definition samplePosting : CreateJobPosting.t :=
  {| CreateJobPosting.requisitionId := "req-1";
     CreateJobPosting.title := "Staff Engineer (Remote)" |}.

Definition sampleCandidate (mail : string) : CreateCandidate.t :=
  {| CreateCandidate.firstName := "Ada";
     CreateCandidate.lastName := "Lovelace";
     CreateCandidate.email := mail |}.

Definition sampleApply (candidate posting : string) : CreateApplication.t :=
  {| CreateApplication.candidateId := candidate;
     CreateApplication.jobPostingId := posting;
     CreateApplication.appliedAt := 1709510400000 |}.

End Ats.
(** * Properties *)

(** ** Facts about the number model *)

Module JsFacts.

Lemma equiv_refl (a : number) : Js.equiv a a.
Proof. destruct a; simpl; auto. reflexivity. Qed.

Lemma equiv_sym (a b : number) : Js.equiv a b -> Js.equiv b a.
Proof. destruct a, b; simpl; auto. intros H; symmetry; exact H. Qed.

Lemma equiv_trans (a b c : number) :
  Js.equiv a b -> Js.equiv b c -> Js.equiv a c.
Proof.
  destruct a, b, c; simpl; auto; try contradiction.
  intros H1 H2. rewrite H1. exact H2.
Qed.

Lemma Qle_bool_inject (a b : Z) : Qle_bool (inject_Z a) (inject_Z b) = (a <=? b)%Z.
Proof. unfold Qle_bool. simpl. rewrite !Z.mul_1_r. reflexivity. Qed.

Lemma leb_of_Z (a b : Z) : Js.leb (Js.of_Z a) (Js.of_Z b) = (a <=? b)%Z.
Proof. apply Qle_bool_inject. Qed.

Lemma gtb_of_Z (a b : Z) : Js.gtb (Js.of_Z a) (Js.of_Z b) = (b <? a)%Z.
Proof.
  unfold Js.gtb, Js.ltb. rewrite !leb_of_Z.
  destruct (Z.leb_spec b a), (Z.leb_spec a b), (Z.ltb_spec b a); simpl; auto; lia.
Qed.

Lemma strict_eq_of_Z (a b : Z) : Js.strict_eq (Js.of_Z a) (Js.of_Z b) = (a =? b)%Z.
Proof.
  unfold Js.strict_eq. rewrite !leb_of_Z.
  destruct (Z.leb_spec b a), (Z.leb_spec a b), (Z.eqb_spec a b); simpl; auto; lia.
Qed.

(** Sums and differences of integers stay integers. *)
Lemma add_of_Z (a b : Z) : Js.equiv (Js.add (Js.of_Z a) (Js.of_Z b)) (Js.of_Z (a + b)).
Proof. simpl. rewrite inject_Z_plus. reflexivity. Qed.

Lemma half_steps (n : Z) :
  (inject_Z n + - (1 # 2) == (2 * n - 1) # 2)%Q.
Proof. unfold Qeq. simpl. lia. Qed.

Lemma whole_steps (n : Z) : (inject_Z n == (2 * n) # 2)%Q.
Proof. unfold Qeq. simpl. lia. Qed.

End JsFacts.

(** ** The leave request form *)

Module LeaveFacts.
Import Leave JsFacts.

Section WithDate.

Variable newDate : string -> number.

Lemma daySpan_pos (a b : Z) : (1 <= daySpan a b)%Z.
Proof.
  unfold daySpan.
  assert (0 <= Qceiling (Qabs (inject_Z b + - inject_Z a) / inject_Z MS_PER_DAY))%Z; [|lia].
  rewrite Zle_Qle. eapply Qle_trans; [|apply Qle_ceiling].
  apply Qle_shift_div_l; [reflexivity|].
  rewrite Qmult_0_l. apply Qabs_nonneg.
Qed.

(** On whole days the span is the inclusive day count. *)
Lemma daySpan_whole_days (d e : Z) :
  (d <= e)%Z -> daySpan (d * MS_PER_DAY) (e * MS_PER_DAY) = (e - d + 1)%Z.
Proof.
  intros Hde. unfold daySpan. f_equal.
  assert (Heq : (Qabs (inject_Z (e * MS_PER_DAY) + - inject_Z (d * MS_PER_DAY))
                 / inject_Z MS_PER_DAY == inject_Z (e - d))%Q).
  { rewrite Qabs_pos.
    - rewrite !inject_Z_mult. unfold Z.sub. rewrite inject_Z_plus, inject_Z_opp.
      field. discriminate.
    - rewrite <- inject_Z_opp, <- inject_Z_plus. change 0%Q with (inject_Z 0).
      rewrite <- Zle_Qle. unfold MS_PER_DAY. lia. }
  rewrite Heq. apply Qceiling_Z.
Qed.

(** What [calculateDays] computes on two valid dates, start not after end:
    the day span, less one half as soon as a boundary is a half day. *)
Lemma calculateDays_value (fd : FormData) (a b : Z) :
  newDate (startDate fd) = Js.of_Z a ->
  newDate (endDate fd) = Js.of_Z b ->
  (a <= b)%Z ->
  Js.equiv (calculateDays newDate fd)
           (Fin (inject_Z (daySpan a b) + (if anyHalf fd then - (1 # 2) else 0))).
Proof.
  intros Ha Hb Hab. unfold calculateDays, anyHalf. rewrite Ha, Hb, gtb_of_Z.
  destruct (Z.ltb_spec b a) as [?|_]; [lia|].
  cbn [Js.sub Js.neg Js.add Js.abs Js.of_Z Js.div].
  change (Qeq_bool (inject_Z MS_PER_DAY) 0) with false. cbv iota.
  unfold daySpan, Js.ceil.
  set (n := Qceiling (Qabs (inject_Z b + - inject_Z a) / inject_Z MS_PER_DAY)).
  cbn [Js.add Js.of_Z]. clearbody n.
  assert (Hstrict : Js.strict_eq (Fin (inject_Z n + inject_Z 1)) (Js.of_Z 1) = (n =? 0)%Z).
  { unfold Js.strict_eq, Js.leb, Js.of_Z, Qle_bool. simpl.
    apply eq_true_iff_eq. rewrite andb_true_iff, !Z.leb_le, Z.eqb_eq. lia. }
  destruct (String.eqb (startTime fd) "half_day"),
           (String.eqb (endTime fd) "half_day"); simpl andb; simpl orb; cbv iota.
  - rewrite Hstrict. destruct (Z.eqb_spec n 0) as [Hn0|_]; [rewrite Hn0|]; simpl.
    + reflexivity.
    + rewrite inject_Z_plus. reflexivity.
  - simpl. rewrite inject_Z_plus. reflexivity.
  - simpl. rewrite inject_Z_plus. reflexivity.
  - simpl. rewrite inject_Z_plus. ring.
Qed.

(** On whole days: the inclusive day count, less one half as soon as a
    boundary is a half day (never less a whole day). *)
Lemma calculateDays_whole_days (fd : FormData) (d e : Z) :
  newDate (startDate fd) = Js.of_Z (d * MS_PER_DAY) ->
  newDate (endDate fd) = Js.of_Z (e * MS_PER_DAY) ->
  (d <= e)%Z ->
  Js.equiv (calculateDays newDate fd)
           (Fin (inject_Z (e - d + 1) + (if anyHalf fd then - (1 # 2) else 0))).
Proof.
  intros Hd He Hde.
  rewrite <- (daySpan_whole_days d e Hde).
  apply calculateDays_value; auto. unfold MS_PER_DAY. lia.
Qed.

(** C4: for valid start and end dates and any half-day flags, the computed
    days-requested is a non-negative multiple of one half. *)
Theorem days_nonneg_half_multiple (fd : FormData) (a b : Z) :
  newDate (startDate fd) = Js.of_Z a ->
  newDate (endDate fd) = Js.of_Z b ->
  exists k : Z, (0 <= k)%Z /\ Js.equiv (calculateDays newDate fd) (Fin (k # 2)).
Proof.
  intros Ha Hb. destruct (Z.le_gt_cases a b) as [Hab|Hab].
  - pose proof (daySpan_pos a b) as Hpos.
    pose proof (calculateDays_value fd a b Ha Hb Hab) as Hv.
    destruct (anyHalf fd).
    + exists (2 * daySpan a b - 1)%Z. split; [lia|].
      eapply equiv_trans; [exact Hv|]. simpl. apply half_steps.
    + exists (2 * daySpan a b)%Z. split; [lia|].
      eapply equiv_trans; [exact Hv|]. simpl. rewrite Qplus_0_r. apply whole_steps.
  - exists 0%Z. split; [lia|].
    unfold calculateDays. rewrite Ha, Hb, gtb_of_Z.
    destruct (Z.ltb_spec b a); [|lia]. reflexivity.
Qed.

Lemma lookup_when_ne (c : bool) (k k' : string) (v : message)
    (m : gmap string message) :
  k <> k' -> when c (<[k' := v]>) m !! k = m !! k.
Proof. intros Hk. destruct c; simpl; [|reflexivity]. apply lookup_insert_ne; auto. Qed.

Lemma truthy_valid (s : string) (a : Z) :
  newDate "" = NaN -> newDate s = Js.of_Z a -> truthy s = true.
Proof.
  intros Hempty Hs. unfold truthy. destruct (String.eqb_spec s "") as [->|_]; auto.
  rewrite Hempty in Hs. discriminate.
Qed.

(** C5: when the start date is strictly after the end date, validation
    reports an error on the end date and fails, nothing is submitted, and
    the day count shown is 0. *)
Theorem start_after_end_is_rejected (st : State) (now : number)
    (employeeId : string) (a b : Z) :
  newDate "" = NaN ->
  newDate (startDate (formData st)) = Js.of_Z a ->
  newDate (endDate (formData st)) = Js.of_Z b ->
  (b < a)%Z ->
  (validateForm newDate st now).1 !! "endDate"
    = Some (Text "End date must be after start date")
  /\ (validateForm newDate st now).2 = false
  /\ handleSubmit newDate employeeId st now = None
  /\ calculateDays newDate (formData st) = Js.of_Z 0.
Proof.
  intros Hempty Ha Hb Hlt.
  assert (Hend : (validateForm newDate st now).1 !! "endDate"
                 = Some (Text "End date must be after start date")).
  { unfold validateForm. cbn [fst].
    rewrite (truthy_valid _ a Hempty Ha), (truthy_valid _ b Hempty Hb).
    rewrite Ha, Hb, gtb_of_Z. destruct (Z.ltb_spec b a); [|lia].
    cbn [andb negb].
    destruct (selectedPolicy st) as [p|];
      rewrite ?lookup_when_ne by discriminate;
      cbn [when]; apply lookup_insert_eq. }
  assert (Hfail : (validateForm newDate st now).2 = false).
  { destruct (validateForm newDate st now) as [e ok] eqn:E.
    unfold validateForm in E. inversion E as [[He Hok]]. rewrite He.
    cbn [fst snd] in *. apply bool_decide_eq_false. intros Hsize.
    apply map_size_empty_iff in Hsize. rewrite Hsize in Hend.
    rewrite lookup_empty in Hend. discriminate. }
  repeat split; auto.
  - unfold handleSubmit. rewrite Hfail. reflexivity.
  - unfold calculateDays. rewrite Ha, Hb, gtb_of_Z.
    destruct (Z.ltb_spec b a); [reflexivity|lia].
Qed.

End WithDate.

(** C3: a three-day request (4 to 6 March) with both boundaries flagged
    half-day is counted as 2.5 days, where one half per half-day boundary
    gives 2: only one half is taken off, whatever the number of half-day
    boundaries. *)
Theorem three_days_both_half_days :
  calculateDays sampleDate
    (sampleForm "2024-03-04" "2024-03-06" "half_day" "half_day") = Fin (5 # 2)
  /\ (spec_daysRequested 3 true true == 2)%Q
  /\ ~ (5 # 2 == spec_daysRequested 3 true true)%Q.
Proof.
  split; [reflexivity|]. split; [reflexivity|].
  intros H. vm_compute in H. discriminate.
Qed.

(** Where the code and the worded day count agree: whole days with at most
    one half-day boundary, and the single day. *)
Lemma calculateDays_agrees_upto_one_half (newDate : string -> number)
    (fd : FormData) (d e : Z) :
  newDate (startDate fd) = Js.of_Z (d * MS_PER_DAY) ->
  newDate (endDate fd) = Js.of_Z (e * MS_PER_DAY) ->
  (d <= e)%Z ->
  (d = e \/ String.eqb (startTime fd) "half_day" && String.eqb (endTime fd) "half_day"
            = false) ->
  Js.equiv (calculateDays newDate fd)
           (Fin (spec_daysRequested (e - d + 1)
                   (String.eqb (startTime fd) "half_day")
                   (String.eqb (endTime fd) "half_day"))).
Proof.
  intros Hd He Hde Hcase.
  eapply equiv_trans; [apply (calculateDays_whole_days newDate fd d e Hd He Hde)|].
  unfold anyHalf, spec_daysRequested. cbn [Js.equiv].
  destruct (String.eqb (startTime fd) "half_day"),
           (String.eqb (endTime fd) "half_day"); cbn [orb andb].
  - destruct Hcase as [->|Hf]; [|discriminate].
    replace (e - e + 1)%Z with 1%Z by lia. reflexivity.
  - destruct (e - d + 1 =? 1)%Z; cbn [andb];
      generalize (inject_Z (e - d + 1)); intros q; ring.
  - destruct (e - d + 1 =? 1)%Z; cbn [andb];
      generalize (inject_Z (e - d + 1)); intros q; ring.
  - destruct (e - d + 1 =? 1)%Z; cbn [andb];
      generalize (inject_Z (e - d + 1)); intros q; ring.
Qed.

Example one_day_both_half_days :
  calculateDays sampleDate
    (sampleForm "2024-03-04" "2024-03-04" "half_day" "half_day") = Fin (1 # 2).
Proof. reflexivity. Qed.

Example three_days_one_half_day :
  calculateDays sampleDate
    (sampleForm "2024-03-04" "2024-03-06" "full_day" "half_day") = Fin (5 # 2).
Proof. reflexivity. Qed.

Lemma days_nonneg_half_multiple_witness :
  sampleDate "2024-03-04" = Js.of_Z 1709510400000
  /\ sampleDate "2024-03-06" = Js.of_Z 1709683200000
  /\ exists k : Z, (0 <= k)%Z
       /\ Js.equiv (calculateDays sampleDate
                      (sampleForm "2024-03-04" "2024-03-06" "half_day" "full_day"))
                   (Fin (k # 2)).
Proof.
  split; [reflexivity|]. split; [reflexivity|].
  apply (days_nonneg_half_multiple sampleDate
           (sampleForm "2024-03-04" "2024-03-06" "half_day" "full_day")
           1709510400000 1709683200000); reflexivity.
Defined.

Lemma start_after_end_is_rejected_witness :
  let st := {| formData := sampleForm "2024-03-06" "2024-03-04" "full_day" "full_day";
               selectedPolicy := None;
               calculatedDays := Js.of_Z 0 |} in
  sampleDate "" = NaN
  /\ sampleDate "2024-03-06" = Js.of_Z 1709683200000
  /\ sampleDate "2024-03-04" = Js.of_Z 1709510400000
  /\ (1709510400000 < 1709683200000)%Z
  /\ (validateForm sampleDate st (Js.of_Z 1709000000000)).1 !! "endDate"
       = Some (Text "End date must be after start date")
  /\ (validateForm sampleDate st (Js.of_Z 1709000000000)).2 = false
  /\ handleSubmit sampleDate "emp-1" st (Js.of_Z 1709000000000) = None
  /\ calculateDays sampleDate (formData st) = Js.of_Z 0.
Proof.
  intros st.
  split; [reflexivity|]. split; [reflexivity|]. split; [reflexivity|].
  split; [reflexivity|].
  apply (start_after_end_is_rejected sampleDate st (Js.of_Z 1709000000000) "emp-1"
           1709683200000 1709510400000); reflexivity.
Defined.

End LeaveFacts.

(** ** Goal progress *)

Module GoalFacts.
Import Svc Goals JsFacts.

(** *** Arithmetic of the number model, up to [Js.equiv] *)

Lemma add_equiv (a a' b b' : number) :
  Js.equiv a a' -> Js.equiv b b' -> Js.equiv (Js.add a b) (Js.add a' b').
Proof.
  destruct a, a', b, b'; simpl; auto; try contradiction.
  intros H1 H2. rewrite H1, H2. reflexivity.
Qed.


Lemma add_zero_l (a : number) : Js.equiv (Js.add (Js.of_Z 0) a) a.
Proof. destruct a; simpl; auto. apply Qplus_0_l. Qed.

Lemma sign_equiv (a b : number) : Js.equiv a b -> Js.sign a = Js.sign b.
Proof.
  destruct a, b; simpl; auto; try contradiction.
  intros H. rewrite H. reflexivity.
Qed.

Lemma Qeq_bool_equiv (x y : Q) : (x == y)%Q -> Qeq_bool x 0 = Qeq_bool y 0.
Proof.
  intros H. apply eq_true_iff_eq. rewrite !Qeq_bool_iff, H. reflexivity.
Qed.

Lemma div_equiv (a a' b b' : number) :
  Js.equiv a a' -> Js.equiv b b' -> Js.equiv (Js.div a b) (Js.div a' b').
Proof.
  destruct a as [x| | |], a' as [x'| | |], b as [y| | |], b' as [y'| | |];
    simpl; auto; try contradiction; intros H1 H2; try reflexivity.
  - rewrite (Qeq_bool_equiv y y' H2). destruct (Qeq_bool y' 0).
    + rewrite H1. apply equiv_refl.
    + simpl. rewrite H1, H2. reflexivity.
  - rewrite (Qeq_bool_equiv y y' H2), H2. apply equiv_refl.
  - rewrite (Qeq_bool_equiv y y' H2), H2. apply equiv_refl.
Qed.

Lemma round_equiv (a b : number) : Js.equiv a b -> Js.round a = Js.round b.
Proof.
  destruct a, b; cbn [Js.equiv Js.round]; auto; try contradiction.
  intros H. rewrite H. reflexivity.
Qed.

(** *** The loop against the two sums *)

Lemma progress_is_resultProgress (kr : KeyResult) : progress kr = spec_resultProgress kr.
Proof. reflexivity. Qed.





(** *** The write *)

Lemma goal_update_found (goalId : string) (p : number) (db : Db) (g : Goal) :
  In g (goals db) -> id g = goalId ->
  exists g', goal_update goalId p db = (Returned g', put_progress goalId p db).
Proof.
  intros Hin Hid. unfold goal_update.
  destruct (List.find _ (goals db)) as [g0|] eqn:E.
  - eexists. reflexivity.
  - exfalso. apply (List.find_none _ _ E) in Hin.
    rewrite Hid, String.eqb_refl in Hin. discriminate.
Qed.

Lemma progressOf_put (goalId : string) (p : number) (db : Db) (g : Goal) :
  In g (goals db) -> id g = goalId ->
  progressOf (put_progress goalId p db) goalId = Some p.
Proof.
  unfold progressOf, put_progress. cbn [goals].
  induction (goals db) as [|x r IH]; intros Hin Hid; [destruct Hin|].
  cbn [List.map List.find].
  destruct (String.eqb (id x) goalId) eqn:E.
  - cbn [id]. rewrite E. reflexivity.
  - rewrite E. apply IH; auto. destruct Hin as [->|Hin]; auto.
    rewrite Hid, String.eqb_refl in E. discriminate.
Qed.

Lemma put_progress_rows (goalId : string) (p : number) (db : Db) (g : Goal) :
  In g (goals (put_progress goalId p db)) ->
  (id g = goalId /\ progress_percentage g = p) \/ (id g <> goalId /\ In g (goals db)).
Proof.
  unfold put_progress. cbn [goals]. rewrite in_map_iff.
  intros [x [Hx Hin]]. destruct (String.eqb_spec (id x) goalId) as [Heq|Hne].
  - left. subst g. simpl. auto.
  - right. subst g. auto.
Qed.

Lemma put_progress_others (goalId : string) (p : number) (db : Db) (g : Goal) :
  In g (goals db) -> id g <> goalId -> In g (goals (put_progress goalId p db)).
Proof.
  intros Hin Hne. unfold put_progress. cbn [goals]. apply in_map_iff.
  exists g. split; auto. destruct (String.eqb_spec (id g) goalId); congruence.
Qed.

(** The call, once the key results are known not to be empty. *)
Lemma update_unfold (goalId : string) (db : Db) (g : Goal) :
  keyResultsOf db goalId <> [] ->
  In g (goals db) -> id g = goalId ->
  let totals := List.fold_left forEach_body (keyResultsOf db goalId)
                  (Js.of_Z 0, Js.of_Z 0) in
  updateGoalProgressFromKeyResults goalId db
  = (Returned tt,
     put_progress goalId
       (Js.round (if Js.gtb (snd totals) (Js.of_Z 0)
                  then Js.div (fst totals) (snd totals)
                  else Js.of_Z 0)) db).
Proof.
  intros Hne Hin Hid totals.
  unfold updateGoalProgressFromKeyResults, try_catch, mbind, svc_bind, bind,
    keyResult_findMany, gets.
  fold (keyResultsOf db goalId).
  destruct (keyResultsOf db goalId) as [|kr r] eqn:E; [congruence|].
  cbn [List.length Nat.eqb].
  match goal with
  | |- context [goal_update goalId ?p db] =>
      destruct (goal_update_found goalId p db g Hin Hid) as [g' Hg]; rewrite Hg
  end.
  reflexivity.
Qed.

(** *** The loop on doubles *)

Lemma forEach64_totals (krs : list KeyResult) (p w : number) :
  List.fold_left Goals64.forEach_body krs (p, w)
  = (List.fold_left Js.add64 (List.map Goals64.spec_weighted krs) p,
     List.fold_left Js.add64 (List.map Goals64.weightOf krs) w).
Proof.
  revert p w. induction krs as [|kr r IH]; intros p w; [reflexivity|].
  cbn [List.fold_left List.map]. unfold Goals64.forEach_body at 2. cbn [fst snd].
  rewrite IH. reflexivity.
Qed.

Lemma stored64_is_weighted_mean (krs : list KeyResult) :
  Js.gtb (Goals64.totalWeight krs) (Js.of_Z 0) = true ->
  Goals64.storedProgress krs = Goals64.spec_goalProgress krs.
Proof.
  intros Hpos. unfold Goals64.storedProgress. cbv zeta.
  rewrite forEach64_totals. cbn [fst snd].
  fold (Goals64.sum (List.map Goals64.weightOf krs)).
  fold (Goals64.totalWeight krs). rewrite Hpos. reflexivity.
Qed.

(** The call on doubles, once the key results are known not to be empty. *)
Lemma update_unfold64 (goalId : string) (db : Db) (g : Goal) :
  keyResultsOf db goalId <> [] ->
  In g (goals db) -> id g = goalId ->
  Goals64.updateGoalProgressFromKeyResults goalId db
  = (Returned tt,
     put_progress goalId (Goals64.storedProgress (keyResultsOf db goalId)) db).
Proof.
  intros Hne Hin Hid.
  unfold Goals64.updateGoalProgressFromKeyResults, try_catch, mbind, svc_bind, bind,
    keyResult_findMany, gets.
  fold (keyResultsOf db goalId).
  destruct (keyResultsOf db goalId) as [|kr r] eqn:E; [congruence|].
  cbn [List.length Nat.eqb].
  match goal with
  | |- context [goal_update goalId ?p db] =>
      destruct (goal_update_found goalId p db g Hin Hid) as [g' Hg]; rewrite Hg
  end.
  reflexivity.
Qed.

(** *** The claims *)

(** C6 (amended): for a goal with at least one key result whose weights sum
    to a positive value, recomputing progress sets the goal's
    percentage-complete to round(Σ(resultProgress × weight) / Σ(weight)),
    resultProgress being 100 or 0 for a binary key result (current ≥ target
    or not) and min(current/target × 100, 100) otherwise; quotients,
    products and sums are those of doubles, the sums taken in the order of
    the key results. Other goals and the key results are left as they
    are. *)
Theorem goal_progress_weighted_mean (db : Db) (goalId : string) (g : Goal) :
  keyResultsOf db goalId <> [] ->
  Js.gtb (Goals64.totalWeight (keyResultsOf db goalId)) (Js.of_Z 0) = true ->
  In g (goals db) -> id g = goalId ->
  exists db',
    Goals64.updateGoalProgressFromKeyResults goalId db = (Returned tt, db')
    /\ progressOf db' goalId
       = Some (Goals64.spec_goalProgress (keyResultsOf db goalId))
    /\ (forall g', In g' (goals db') -> id g' = goalId ->
         progress_percentage g' = Goals64.spec_goalProgress (keyResultsOf db goalId))
    /\ (forall g', In g' (goals db) -> id g' <> goalId -> In g' (goals db'))
    /\ keyResults db' = keyResults db.
Proof.
  intros Hne Hpos Hin Hid.
  rewrite (update_unfold64 goalId db g Hne Hin Hid).
  rewrite (stored64_is_weighted_mean _ Hpos).
  eexists. split; [reflexivity|].
  split; [apply (progressOf_put goalId _ db g); auto|].
  split; [|split; [|reflexivity]].
  - intros g' Hg' Hid'. apply put_progress_rows in Hg'.
    destruct Hg' as [[_ Hp']|[Hn _]]; [exact Hp'|contradiction].
  - intros g' Hg' Hn. apply put_progress_others; auto.
Qed.

(** C7: for a goal without key results, recomputing progress returns
    without any write: the tables, and so the stored percentage-complete,
    are what they were. *)
Theorem no_key_results_no_write (db : Db) (goalId : string) :
  keyResultsOf db goalId = [] ->
  updateGoalProgressFromKeyResults goalId db = (Returned tt, db).
Proof.
  intros Hnil.
  unfold updateGoalProgressFromKeyResults, try_catch, mbind, svc_bind, bind,
    keyResult_findMany, gets.
  fold (keyResultsOf db goalId). rewrite Hnil. reflexivity.
Qed.


(** C6 as first stated (no condition on the weights) fails: with a single
    key result of weight 0 the stored value is 0, while the quotient of
    the two sums is 0/0. *)
Lemma weighted_mean_fails_on_zero_weights :
  ~ (forall (db : Db) (goalId : string) (g : Goal),
       keyResultsOf db goalId <> [] ->
       In g (goals db) -> id g = goalId ->
       exists p,
         progressOf (snd (Goals64.updateGoalProgressFromKeyResults goalId db)) goalId
         = Some p
         /\ Js.equiv p (Goals64.spec_goalProgress (keyResultsOf db goalId))).
Proof.
  intros H.
  destruct (H (sampleDb [sampleKeyResult "kr-1" 1 1 true 0]) "goal-1"
              {| id := "goal-1"; progress_percentage := Js.of_Z 40 |})
    as [p [Hp Heq]].
  - discriminate.
  - left. reflexivity.
  - reflexivity.
  - vm_compute in Hp. inversion Hp; subst p. exact Heq.
Qed.

Example scenario_two_key_results :
  let krs := [sampleKeyResult "kr-1" 10 10 false 50;
              sampleKeyResult "kr-2" 1 0 true 50] in
  progressOf (snd (Goals64.updateGoalProgressFromKeyResults "goal-1" (sampleDb krs)))
    "goal-1"
  = Some (Js.of_Z 50)
  /\ Goals64.spec_goalProgress krs = Js.of_Z 50.
Proof. split; vm_compute; reflexivity. Qed.

(** The sums, products and quotients are those of doubles: for a current
    value of 23 on a target of 40 the quotient times 100 is the double just
    below 57.5, and 57 is stored, where the mean of the exact values, 57.5,
    rounds to 58. *)
Example doubles_below_the_half :
  let krs := [sampleKeyResult "kr-1" 40 23 false 100] in
  Js.mul64 (Js.div64 (Fin 23) (Fin 40)) (Js.of_Z 100)
  = Fin (8092405580431359 # 140737488355328)
  /\ (8092405580431359 # 140737488355328 < 115 # 2)%Q
  /\ progressOf (snd (Goals64.updateGoalProgressFromKeyResults "goal-1" (sampleDb krs)))
       "goal-1"
     = Some (Js.of_Z 57)
  /\ Goals64.spec_goalProgress krs = Js.of_Z 57
  /\ spec_goalProgress krs = Js.of_Z 58.
Proof. repeat split; vm_compute; reflexivity. Qed.

(** On the sample operands, sum, product and quotient are those of the
    binary64 numbers of the Standard Library. *)
Example doubles_as_in_the_library :
  List.forallb
    (fun p : (Z * Z) * (Z * Z) =>
       let x := Js.spec_of (fst (fst p)) (snd (fst p)) in
       let y := Js.spec_of (fst (snd p)) (snd (snd p)) in
       Js.strict_eq (Js.add64 (Js.of_spec x) (Js.of_spec y))
                    (Js.of_spec (SFadd 53 1024 x y))
       && Js.strict_eq (Js.mul64 (Js.of_spec x) (Js.of_spec y))
                       (Js.of_spec (SFmul 53 1024 x y))
       && Js.strict_eq (Js.div64 (Js.of_spec x) (Js.of_spec y))
                       (Js.of_spec (SFdiv 53 1024 x y)))
    Goals64.sampleOperands
  = true.
Proof. vm_compute. reflexivity. Qed.

Lemma goal_progress_weighted_mean_witness :
  let krs := [sampleKeyResult "kr-1" 40 23 false 100;
              sampleKeyResult "kr-2" 1 0 true 50] in
  let db := sampleDb krs in
  let g := {| id := "goal-1"; progress_percentage := Js.of_Z 40 |} in
  keyResultsOf db "goal-1" <> []
  /\ Js.gtb (Goals64.totalWeight (keyResultsOf db "goal-1")) (Js.of_Z 0) = true
  /\ In g (goals db) /\ id g = "goal-1"
  /\ exists db',
       Goals64.updateGoalProgressFromKeyResults "goal-1" db = (Returned tt, db')
       /\ progressOf db' "goal-1" = Some (Js.of_Z 38).
Proof.
  intros krs db g.
  assert (H1 : keyResultsOf db "goal-1" <> []) by discriminate.
  assert (H2 : Js.gtb (Goals64.totalWeight (keyResultsOf db "goal-1")) (Js.of_Z 0)
               = true) by (vm_compute; reflexivity).
  assert (H3 : In g (goals db)) by (left; reflexivity).
  assert (H4 : id g = "goal-1") by reflexivity.
  split; [exact H1|]. split; [exact H2|]. split; [exact H3|]. split; [exact H4|].
  destruct (goal_progress_weighted_mean db "goal-1" g H1 H2 H3 H4)
    as [db' [Hrun [Hp _]]].
  exists db'. split; [exact Hrun|]. rewrite Hp. vm_compute. reflexivity.
Defined.


Lemma no_key_results_no_write_witness :
  keyResultsOf (sampleDb []) "goal-1" = []
  /\ updateGoalProgressFromKeyResults "goal-1" (sampleDb [])
     = (Returned tt, sampleDb []).
Proof.
  split; [reflexivity|].
  apply (no_key_results_no_write (sampleDb []) "goal-1"). reflexivity.
Defined.

End GoalFacts.

(** ** Requisition approval and application stages *)

Module RecruitmentFacts.
Import Svc Recruitment.

(** *** Equality tests *)

Lemma opt_is_true (o : option string) (s : string) : opt_is o s = true <-> o = Some s.
Proof.
  destruct o as [x|]; simpl.
  - rewrite String.eqb_eq. split; congruence.
  - split; discriminate.
Qed.

Lemma is_pending_true (s : ApprovalStep.t) :
  is_pending s = true <-> ApprovalStep.status s = StepStatus.pending.
Proof. unfold is_pending. destruct (ApprovalStep.status s); simpl; split; congruence. Qed.

Lemma is_active_true (w : ApprovalWorkflow.t) :
  WorkflowStatus.eqb (ApprovalWorkflow.status w) WorkflowStatus.active = true
  <-> ApprovalWorkflow.status w = WorkflowStatus.active.
Proof. destruct (ApprovalWorkflow.status w); simpl; split; congruence. Qed.

(** *** Ordering by level *)

Lemma in_insert_by_level (s x : ApprovalStep.t) (l : list ApprovalStep.t) :
  In x (insert_by_level s l) <-> x = s \/ In x l.
Proof.
  induction l as [|y r IH]; simpl.
  - intuition.
  - destruct (ApprovalStep.level s <=? ApprovalStep.level y)%Z; simpl.
    + intuition.
    + rewrite IH. intuition.
Qed.

Lemma in_orderBy (x : ApprovalStep.t) (l : list ApprovalStep.t) :
  In x (orderBy_level_asc l) <-> In x l.
Proof.
  unfold orderBy_level_asc. induction l as [|y r IH]; simpl; [tauto|].
  rewrite in_insert_by_level, IH. intuition.
Qed.

Lemma head_insert_min (s : ApprovalStep.t) (l : list ApprovalStep.t) :
  (forall m, List.head l = Some m -> below_all m l) ->
  forall m, List.head (insert_by_level s l) = Some m -> below_all m (insert_by_level s l).
Proof.
  intros Hl m Hm x Hx. destruct l as [|y r]; simpl in *.
  - inversion Hm; subst. destruct Hx as [->|[]]. lia.
  - specialize (Hl y eq_refl).
    destruct (Z.leb_spec (ApprovalStep.level s) (ApprovalStep.level y)) as [Hle|Hgt];
      simpl in *; inversion Hm; subst m.
    + destruct Hx as [->|Hx]; [lia|]. specialize (Hl x Hx). lia.
    + destruct Hx as [->|Hx]; [lia|]. apply in_insert_by_level in Hx.
      destruct Hx as [->|Hx]; [lia|]. apply Hl. right. exact Hx.
Qed.

Lemma head_orderBy_below (l : list ApprovalStep.t) (m : ApprovalStep.t) :
  List.head (orderBy_level_asc l) = Some m -> below_all m (orderBy_level_asc l).
Proof.
  revert m. unfold orderBy_level_asc. induction l as [|y r IH]; intros m Hm.
  - discriminate.
  - simpl in *. apply (head_insert_min y _ IH m Hm).
Qed.

Lemma head_orderBy_min (l : list ApprovalStep.t) (m : ApprovalStep.t) :
  List.head (orderBy_level_asc l) = Some m -> In m l /\ below_all m l.
Proof.
  intros Hm. split.
  - apply in_orderBy. destruct (orderBy_level_asc l); inversion Hm; subst. left. reflexivity.
  - intros x Hx. apply (head_orderBy_below l m Hm). apply in_orderBy. exact Hx.
Qed.

Lemma head_orderBy_none (l : list ApprovalStep.t) :
  List.head (orderBy_level_asc l) = None -> l = [].
Proof.
  destruct l as [|y r]; [reflexivity|]. intros H. exfalso.
  assert (Hin : In y (orderBy_level_asc (y :: r))) by (apply in_orderBy; left; reflexivity).
  destruct (orderBy_level_asc (y :: r)); [destruct Hin|discriminate].
Qed.

Lemma firstn_1_head {A} (l : list A) :
  List.firstn 1 l = match List.head l with Some x => [x] | None => [] end.
Proof. destruct l; reflexivity. Qed.

(** *** The queries against the vocabulary *)

Lemma in_pendingStepsOf (db : Db) (wid : string) (s : ApprovalStep.t) :
  In s (pendingStepsOf wid db) <-> pending_of db wid s.
Proof.
  unfold pendingStepsOf, pending_of.
  rewrite filter_In, andb_true_iff, String.eqb_eq, is_pending_true. tauto.
Qed.

(** The included step, when there is one, is a pending step of lowest level. *)
Lemma included_step_lowest (db : Db) (wid : string) (m : ApprovalStep.t) :
  List.head (orderBy_level_asc (pendingStepsOf wid db)) = Some m ->
  lowest_pending db wid m.
Proof.
  intros Hm. apply head_orderBy_min in Hm. destruct Hm as [Hin Hmin].
  split; [apply in_pendingStepsOf; exact Hin|].
  intros t Ht. apply Hmin. apply in_pendingStepsOf. exact Ht.
Qed.

(** The single lowest pending step is the one included. *)
Lemma current_step_included (db : Db) (wid : string) (s : ApprovalStep.t) :
  current_step db wid s ->
  List.head (orderBy_level_asc (pendingStepsOf wid db)) = Some s.
Proof.
  intros [Hs Hstrict].
  destruct (List.head (orderBy_level_asc (pendingStepsOf wid db))) as [m|] eqn:E.
  - destruct (included_step_lowest db wid m E) as [Hm Hmin].
    f_equal. destruct (ApprovalStep.status m) eqn:Est.
    2,3: destruct Hm as [_ [_ Hp]]; congruence.
    specialize (Hmin s Hs).
    assert (Hdec : m = s \/ m <> s).
    { destruct m, s. repeat decide equality. }
    destruct Hdec as [Heq|Hne]; [exact Heq|].
    specialize (Hstrict m Hm Hne). lia.
  - apply head_orderBy_none in E. apply in_pendingStepsOf in Hs.
    rewrite E in Hs. destruct Hs.
Qed.

Lemma findActiveWorkflow_some (db : Db) (id : string) (w : ApprovalWorkflow.t)
    (l : list ApprovalStep.t) :
  findActiveWorkflow id db = Some (w, l) ->
  In w (workflows db)
  /\ ApprovalWorkflow.jobRequisitionId w = Some id
  /\ ApprovalWorkflow.status w = WorkflowStatus.active
  /\ l = List.firstn 1 (orderBy_level_asc (pendingStepsOf (ApprovalWorkflow.id w) db)).
Proof.
  unfold findActiveWorkflow.
  destruct (List.find _ (workflows db)) as [w0|] eqn:E; [|discriminate].
  intros H. inversion H; subst. apply find_some in E. destruct E as [Hin Hp].
  apply andb_true_iff in Hp. destruct Hp as [Hj Ha].
  apply opt_is_true in Hj. apply is_active_true in Ha. auto.
Qed.

Lemma findActiveWorkflow_none (db : Db) (id : string) :
  findActiveWorkflow id db = None <-> no_active_workflow db id.
Proof.
  unfold findActiveWorkflow, no_active_workflow. split.
  - destruct (List.find _ (workflows db)) as [w0|] eqn:E; [discriminate|].
    intros _ w Hin Hj Ha.
    apply (find_none _ _ E) in Hin. apply andb_false_iff in Hin.
    destruct Hin as [Hf|Hf].
    + apply opt_is_true in Hj. congruence.
    + apply is_active_true in Ha. congruence.
  - intros Hno. destruct (List.find _ (workflows db)) as [w0|] eqn:E; [|reflexivity].
    apply find_some in E. destruct E as [Hin Hp].
    apply andb_true_iff in Hp. destruct Hp as [Hj Ha].
    apply opt_is_true in Hj. apply is_active_true in Ha.
    exfalso. exact (Hno w0 Hin Hj Ha).
Qed.

Lemma findActiveWorkflow_of (db : Db) (id : string) (w : ApprovalWorkflow.t) :
  active_workflow_of db id w ->
  findActiveWorkflow id db
  = Some (w, List.firstn 1 (orderBy_level_asc (pendingStepsOf (ApprovalWorkflow.id w) db))).
Proof.
  intros [Hin [Hj [Ha Huniq]]].
  destruct (findActiveWorkflow id db) as [[w0 l]|] eqn:E.
  - apply findActiveWorkflow_some in E. destruct E as [Hin0 [Hj0 [Ha0 ->]]].
    rewrite (Huniq w0 Hin0 Hj0 Ha0). reflexivity.
  - apply findActiveWorkflow_none in E. exfalso. exact (E w Hin Hj Ha).
Qed.

(** *** Updating one row *)

Section UpdateWhere.
Context {A : Type} (key : A -> string).

Lemma key_injective (l : list A) (x y : A) :
  List.NoDup (List.map key l) -> In x l -> In y l -> key x = key y -> x = y.
Proof.
  induction l as [|a r IH]; intros Hnd Hx Hy Hk; [destruct Hx|].
  simpl in Hnd. inversion Hnd as [|? ? Hnotin Hnd']; subst.
  destruct Hx as [->|Hx], Hy as [->|Hy]; auto.
  - exfalso. apply Hnotin. rewrite Hk. apply in_map. exact Hy.
  - exfalso. apply Hnotin. rewrite <- Hk. apply in_map. exact Hx.
Qed.

Lemma has_row_In (l : list A) (x : A) : In x l -> has_row key (key x) l = true.
Proof.
  intros Hin. unfold has_row. apply existsb_exists. exists x.
  split; [exact Hin|apply String.eqb_refl].
Qed.

Lemma in_update_where (l : list A) (s : A) (f : A -> A) (t : A) :
  List.NoDup (List.map key l) -> In s l ->
  (In t (update_where key (key s) f l) <-> t = f s \/ (In t l /\ t <> s)).
Proof.
  intros Hnd Hs. unfold update_where. rewrite in_map_iff. split.
  - intros [x [Hx Hin]]. destruct (String.eqb_spec (key x) (key s)) as [Hk|Hk].
    + left. rewrite (key_injective l x s Hnd Hin Hs Hk) in Hx. auto.
    + right. subst t. split; [exact Hin|]. intros ->. apply Hk. reflexivity.
  - intros [->|[Hin Hne]].
    + exists s. rewrite String.eqb_refl. auto.
    + exists t. split; [|exact Hin].
      destruct (String.eqb_spec (key t) (key s)) as [Hk|Hk]; [|reflexivity].
      exfalso. apply Hne. exact (key_injective l t s Hnd Hin Hs Hk).
Qed.

(** A filter that rejects the updated row before and after sees the same
    rows as a filter that agrees with it elsewhere. *)
Lemma filter_update_where (l : list A) (k : string) (f : A -> A) (p q : A -> bool) :
  (forall x, In x l -> key x = k -> p (f x) = false /\ q x = false) ->
  (forall x, In x l -> key x <> k -> p x = q x) ->
  List.filter p (update_where key k f l) = List.filter q l.
Proof.
  unfold update_where. induction l as [|a r IH]; intros Hk Hn; [reflexivity|].
  cbn [List.map List.filter].
  rewrite IH.
  2: { intros x Hx. apply Hk. right. exact Hx. }
  2: { intros x Hx. apply Hn. right. exact Hx. }
  destruct (String.eqb_spec (key a) k) as [Ha|Ha].
  - destruct (Hk a (or_introl eq_refl) Ha) as [-> ->]. reflexivity.
  - rewrite (Hn a (or_introl eq_refl) Ha). reflexivity.
Qed.

End UpdateWhere.

(** *** Running [approveJobRequisition] *)

Lemma approve_refused_shape (id approverId : string) (comments : option string)
    (now : Clock.t) (db : Db) :
  (forall w s l, findActiveWorkflow id db = Some (w, s :: l) ->
                 ApprovalStep.approverId s <> approverId) ->
  approveJobRequisition id approverId comments now db = (Threw NOT_AUTHORIZED, db).
Proof.
  intros H. unfold approveJobRequisition, mbind, svc_bind, bind, gets.
  destruct (findActiveWorkflow id db) as [[w [|s l]]|] eqn:E; try reflexivity.
  destruct (String.eqb_spec (ApprovalStep.approverId s) approverId) as [Heq|Hne].
  - exfalso. exact (H w s l eq_refl Heq).
  - reflexivity.
Qed.

Lemma approve_accepted_shape (id approverId : string) (comments : option string)
    (now : Clock.t) (db : Db) (w : ApprovalWorkflow.t) (s : ApprovalStep.t)
    (l : list ApprovalStep.t) :
  findActiveWorkflow id db = Some (w, s :: l) ->
  ApprovalStep.approverId s = approverId ->
  In s (steps db) ->
  approveJobRequisition id approverId comments now db
  = let db1 := recorded now comments s db in
    match findNextStep (ApprovalWorkflow.id w) (ApprovalStep.level s) db1 with
    | Some _ => (Returned (getJobRequisitionById id db1), db1)
    | None =>
        match all2 (jobRequisition_update id
                      (approve_requisition (Clock.approvedAt now) approverId))
                   (approvalWorkflow_update (ApprovalWorkflow.id w)
                      (complete_workflow (Clock.completedAt now))) db1 with
        | (Returned _, db2) => (Returned (getJobRequisitionById id db2), db2)
        | (Threw e, db2) => (Threw e, db2)
        end
    end.
Proof.
  intros E Happ Hin. unfold approveJobRequisition, mbind, svc_bind, bind, gets.
  rewrite E. rewrite Happ, String.eqb_refl. cbn [negb].
  unfold approvalStep_update. rewrite (has_row_In ApprovalStep.id _ s Hin).
  fold (recorded now comments s db). cbv zeta.
  destruct (findNextStep _ _ (recorded now comments s db)); [reflexivity|].
  destruct (all2 _ _ (recorded now comments s db)) as [[[]|e] db2]; reflexivity.
Qed.

(** *** What the recorded approval changes in the queries *)

Lemma in_pendingStepsAbove (db : Db) (wid : string) (lvl : Z) (t : ApprovalStep.t) :
  In t (pendingStepsAbove wid lvl db)
  <-> pending_of db wid t /\ (lvl < ApprovalStep.level t)%Z.
Proof.
  unfold pendingStepsAbove, pending_of.
  rewrite filter_In, !andb_true_iff, String.eqb_eq, is_pending_true, Z.ltb_lt. tauto.
Qed.

Lemma pendingStepsAbove_recorded (db : Db) (wid : string) (now : Clock.t)
    (comments : option string) (s : ApprovalStep.t) :
  List.NoDup (List.map ApprovalStep.id (steps db)) ->
  In s (steps db) ->
  pendingStepsAbove wid (ApprovalStep.level s) (recorded now comments s db)
  = pendingStepsAbove wid (ApprovalStep.level s) db.
Proof.
  intros Hnd Hs. unfold pendingStepsAbove, recorded. cbn [steps set_steps].
  apply filter_update_where; [|reflexivity].
  intros x Hx Hk. rewrite (key_injective ApprovalStep.id _ x s Hnd Hx Hs Hk).
  cbn [approve_step ApprovalStep.level ApprovalStep.workflowId].
  rewrite Z.ltb_irrefl, !andb_false_r. split; reflexivity.
Qed.

Lemma pendingStepsOf_recorded (db : Db) (wid : string) (now : Clock.t)
    (comments : option string) (s : ApprovalStep.t) :
  List.NoDup (List.map ApprovalStep.id (steps db)) ->
  current_step db wid s ->
  pendingStepsOf wid (recorded now comments s db)
  = pendingStepsAbove wid (ApprovalStep.level s) db.
Proof.
  intros Hnd [Hs Hstrict]. pose proof Hs as [Hin _].
  unfold pendingStepsOf, pendingStepsAbove, recorded. cbn [steps set_steps].
  apply filter_update_where.
  - intros x Hx Hk. rewrite (key_injective ApprovalStep.id _ x s Hnd Hx Hin Hk).
    unfold is_pending at 1. cbn [approve_step ApprovalStep.status StepStatus.eqb].
    rewrite Z.ltb_irrefl, !andb_false_r. split; reflexivity.
  - intros x Hx Hk.
    destruct (String.eqb_spec (ApprovalStep.workflowId x) wid) as [Hw|Hw];
      [|reflexivity].
    destruct (is_pending x) eqn:Hp; [|rewrite !andb_false_r; reflexivity].
    assert (Hlt : (ApprovalStep.level s < ApprovalStep.level x)%Z).
    { apply Hstrict.
      - split; [exact Hx|]. split; [exact Hw|]. apply is_pending_true. exact Hp.
      - intros ->. apply Hk. reflexivity. }
    apply Z.ltb_lt in Hlt. rewrite Hlt. reflexivity.
Qed.

Lemma closed_no_active (db : Db) (id approverId : string) (now : Clock.t)
    (w : ApprovalWorkflow.t) (db1 : Db) :
  workflows db1 = workflows db ->
  active_workflow_of db id w ->
  In (complete_workflow (Clock.completedAt now) w) (workflows (closed id approverId now w db1))
  /\ no_active_workflow (closed id approverId now w db1) id.
Proof.
  intros Hsame [Hin [Hj [Ha Huniq]]]. unfold no_active_workflow, closed.
  cbn [workflows set_workflows set_requisitions]. rewrite Hsame. split.
  - unfold update_where. apply in_map_iff. exists w.
    rewrite String.eqb_refl. auto.
  - intros w' Hw' Hj' Ha'. unfold update_where in Hw'. apply in_map_iff in Hw'.
    destruct Hw' as [x [Hx Hxin]].
    destruct (String.eqb_spec (ApprovalWorkflow.id x) (ApprovalWorkflow.id w))
      as [Hk|Hk]; subst w'.
    + discriminate.
    + apply Hk. rewrite (Huniq x Hxin Hj' Ha'). reflexivity.
Qed.

Lemma closing_keeps_steps (id approverId : string) (now : Clock.t) (wid : string)
    (db1 : Db) :
  steps (snd (all2 (jobRequisition_update id
                      (approve_requisition (Clock.approvedAt now) approverId))
                   (approvalWorkflow_update wid (complete_workflow (Clock.completedAt now))) db1))
  = steps db1.
Proof.
  unfold all2, jobRequisition_update, approvalWorkflow_update.
  destruct (has_row JobRequisition.id id (requisitions db1));
    cbn [workflows set_requisitions];
    destruct (has_row ApprovalWorkflow.id wid (workflows db1)); reflexivity.
Qed.

(** The rows that closing leaves for the workflow and the requisition. *)
Lemma closed_rows (db1 : Db) (id approverId : string) (now : Clock.t)
    (w : ApprovalWorkflow.t) (r : JobRequisition.t) :
  In w (workflows db1) -> In r (requisitions db1) -> JobRequisition.id r = id ->
  (exists w', In w' (workflows (closed id approverId now w db1))
              /\ completed_as w' w (Clock.completedAt now))
  /\ (exists r', In r' (requisitions (closed id approverId now w db1))
                 /\ approved_as r' r (Clock.approvedAt now) approverId)
  /\ (forall r', In r' (requisitions (closed id approverId now w db1)) ->
                 JobRequisition.id r' = id ->
                 JobRequisition.status r' = RequisitionStatus.approved
                 /\ JobRequisition.approvedAt r' = Some (Clock.approvedAt now)
                 /\ JobRequisition.approvedById r' = Some approverId).
Proof.
  intros Hw Hr Hrid. unfold closed.
  cbn [workflows requisitions set_workflows set_requisitions].
  split; [|split].
  - exists (complete_workflow (Clock.completedAt now) w). split.
    + unfold update_where. apply in_map_iff. exists w.
      rewrite String.eqb_refl. auto.
    + repeat split.
  - exists (approve_requisition (Clock.approvedAt now) approverId r). split.
    + unfold update_where. apply in_map_iff. exists r.
      rewrite Hrid, String.eqb_refl. auto.
    + repeat split.
  - intros r' Hr' Hid'. unfold update_where in Hr'.
    apply in_map_iff in Hr'. destruct Hr' as [x [Hx Hxin]].
    destruct (String.eqb_spec (JobRequisition.id x) id) as [Hk|Hk]; subst r'.
    + repeat split.
    + contradiction.
Qed.

(** What the three [data] objects of [approveJobRequisition] leave in a row. *)
Lemma approval_data_fields (now : Z) (comments : string) (approverId : string)
    (s : ApprovalStep.t) (w : ApprovalWorkflow.t) (r : JobRequisition.t) :
  (ApprovalStep.status (approve_step now (Some comments) s) = StepStatus.approved
   /\ ApprovalStep.actionDate (approve_step now (Some comments) s) = Some now
   /\ ApprovalStep.comments (approve_step now (Some comments) s) = Some comments
   /\ ApprovalStep.level (approve_step now (Some comments) s) = ApprovalStep.level s
   /\ ApprovalStep.approverId (approve_step now (Some comments) s)
      = ApprovalStep.approverId s)
  /\ (ApprovalWorkflow.status (complete_workflow now w) = WorkflowStatus.completed
      /\ ApprovalWorkflow.completedAt (complete_workflow now w) = Some now)
  /\ (JobRequisition.status (approve_requisition now approverId r)
      = RequisitionStatus.approved
      /\ JobRequisition.approvedAt (approve_requisition now approverId r) = Some now
      /\ JobRequisition.approvedById (approve_requisition now approverId r)
         = Some approverId).
Proof. repeat split. Qed.

(** *** The claims *)

(** C1: when the single lowest-level pending step of the requisition's
    active workflow belongs to the acting approver, [approveJobRequisition]
    returns, having recorded the approval on that step and no other: the
    step is stored with status [approved], the time of the decision and the
    comments given, and is otherwise as it was. If no pending step of
    higher level remains, the workflow is stored with status [completed]
    and its time of completion (the requisition has no active workflow
    left) and the requisition with status [approved], the time and the
    approver; if one remains, workflow and requisition are left as they are
    and a lowest such step is the one the next call acts on. *)
Theorem approve_advances_or_completes (db : Db) (id approverId : string)
    (comments : option string) (now : Clock.t)
    (w : ApprovalWorkflow.t) (s : ApprovalStep.t) (r : JobRequisition.t) :
  List.NoDup (List.map ApprovalStep.id (steps db)) ->
  active_workflow_of db id w ->
  current_step db (ApprovalWorkflow.id w) s ->
  ApprovalStep.approverId s = approverId ->
  In r (requisitions db) -> JobRequisition.id r = id ->
  exists db' s',
    approveJobRequisition id approverId comments now db
    = (Returned (getJobRequisitionById id db'), db')
    /\ (ApprovalStep.status s' = StepStatus.approved
        /\ ApprovalStep.actionDate s' = Some (Clock.actionDate now)
        /\ ApprovalStep.comments s'
           = match comments with
             | Some c => Some c
             | None => ApprovalStep.comments s
             end
        /\ ApprovalStep.id s' = ApprovalStep.id s
        /\ ApprovalStep.workflowId s' = ApprovalStep.workflowId s
        /\ ApprovalStep.approverId s' = ApprovalStep.approverId s
        /\ ApprovalStep.level s' = ApprovalStep.level s
        /\ ApprovalStep.required s' = ApprovalStep.required s)
    /\ (forall t, In t (steps db') <-> t = s' \/ (In t (steps db) /\ t <> s))
    /\ ((forall t, pending_of db (ApprovalWorkflow.id w) t ->
                   (ApprovalStep.level t <= ApprovalStep.level s)%Z) ->
        no_active_workflow db' id
        /\ (exists w',
              In w' (workflows db')
              /\ ApprovalWorkflow.id w' = ApprovalWorkflow.id w
              /\ ApprovalWorkflow.jobRequisitionId w' = Some id
              /\ ApprovalWorkflow.offerId w' = ApprovalWorkflow.offerId w
              /\ ApprovalWorkflow.status w' = WorkflowStatus.completed
              /\ ApprovalWorkflow.completedAt w' = Some (Clock.completedAt now))
        /\ (exists r',
              In r' (requisitions db')
              /\ JobRequisition.id r' = id
              /\ JobRequisition.title r' = JobRequisition.title r
              /\ JobRequisition.status r' = RequisitionStatus.approved
              /\ JobRequisition.approvedAt r' = Some (Clock.approvedAt now)
              /\ JobRequisition.approvedById r' = Some approverId)
        /\ (forall r', In r' (requisitions db') -> JobRequisition.id r' = id ->
                       JobRequisition.status r' = RequisitionStatus.approved
                       /\ JobRequisition.approvedAt r' = Some (Clock.approvedAt now)
                       /\ JobRequisition.approvedById r' = Some approverId))
    /\ ((exists t, pending_of db (ApprovalWorkflow.id w) t
                   /\ (ApprovalStep.level s < ApprovalStep.level t)%Z) ->
        workflows db' = workflows db
        /\ requisitions db' = requisitions db
        /\ exists n,
             findActiveWorkflow id db' = Some (w, [n])
             /\ lowest_pending db' (ApprovalWorkflow.id w) n
             /\ In n (steps db)
             /\ (ApprovalStep.level s < ApprovalStep.level n)%Z).
Proof.
  intros Hnd Hwf Hcur Happ Hr Hrid.
  set (wid := ApprovalWorkflow.id w) in *.
  pose proof Hcur as [[Hs _] _].
  pose proof (current_step_included db wid s Hcur) as Hhead.
  pose proof (findActiveWorkflow_of db id w Hwf) as Hfind.
  fold wid in Hfind. rewrite firstn_1_head, Hhead in Hfind.
  rewrite (approve_accepted_shape id approverId comments now db w s [] Hfind Happ Hs).
  cbv zeta. unfold findNextStep. fold wid.
  rewrite (pendingStepsAbove_recorded db wid now comments s Hnd Hs).
  pose proof (in_update_where ApprovalStep.id (steps db) s
                (approve_step (Clock.actionDate now) comments)) as Hrows.
  assert (Hfields :
            ApprovalStep.status (approve_step (Clock.actionDate now) comments s)
            = StepStatus.approved
            /\ ApprovalStep.actionDate (approve_step (Clock.actionDate now) comments s)
               = Some (Clock.actionDate now)
            /\ ApprovalStep.comments (approve_step (Clock.actionDate now) comments s)
               = match comments with
                 | Some c => Some c
                 | None => ApprovalStep.comments s
                 end
            /\ ApprovalStep.id (approve_step (Clock.actionDate now) comments s)
               = ApprovalStep.id s
            /\ ApprovalStep.workflowId (approve_step (Clock.actionDate now) comments s)
               = ApprovalStep.workflowId s
            /\ ApprovalStep.approverId (approve_step (Clock.actionDate now) comments s)
               = ApprovalStep.approverId s
            /\ ApprovalStep.level (approve_step (Clock.actionDate now) comments s)
               = ApprovalStep.level s
            /\ ApprovalStep.required (approve_step (Clock.actionDate now) comments s)
               = ApprovalStep.required s).
  { cbn [approve_step ApprovalStep.status ApprovalStep.actionDate ApprovalStep.comments
         ApprovalStep.id ApprovalStep.workflowId ApprovalStep.approverId
         ApprovalStep.level ApprovalStep.required].
    destruct comments; repeat split. }
  destruct (List.head (orderBy_level_asc
                         (pendingStepsAbove wid (ApprovalStep.level s) db)))
    as [n|] eqn:En.
  - (* a higher pending step remains *)
    exists (recorded now comments s db), (approve_step (Clock.actionDate now) comments s).
    split; [reflexivity|]. split; [exact Hfields|].
    split; [intros t; apply Hrows; auto|].
    pose proof (head_orderBy_min _ _ En) as [Hn _].
    apply in_pendingStepsAbove in Hn. destruct Hn as [Hnp Hnl].
    split.
    + intros Hnone. specialize (Hnone n Hnp). lia.
    + intros _. split; [reflexivity|]. split; [reflexivity|].
      exists n.
      assert (Hhead' : List.head (orderBy_level_asc
                                    (pendingStepsOf wid (recorded now comments s db)))
                       = Some n).
      { rewrite (pendingStepsOf_recorded db wid now comments s Hnd Hcur). exact En. }
      split; [|split; [|split]].
      * rewrite (findActiveWorkflow_of (recorded now comments s db) id w Hwf).
        fold wid. rewrite firstn_1_head, Hhead'. reflexivity.
      * apply included_step_lowest. exact Hhead'.
      * destruct Hnp as [Hin _]. exact Hin.
      * exact Hnl.
  - (* none remains *)
    apply head_orderBy_none in En.
    unfold all2, jobRequisition_update, approvalWorkflow_update.
    assert (Hrow : has_row JobRequisition.id id
                     (requisitions (recorded now comments s db)) = true).
    { rewrite <- Hrid. apply (has_row_In JobRequisition.id). exact Hr. }
    rewrite Hrow. cbn [workflows set_requisitions].
    assert (Hwrow : has_row ApprovalWorkflow.id wid
                      (workflows (recorded now comments s db)) = true).
    { apply (has_row_In ApprovalWorkflow.id). destruct Hwf as [Hin _]. exact Hin. }
    rewrite Hwrow.
    exists (closed id approverId now w (recorded now comments s db)),
           (approve_step (Clock.actionDate now) comments s).
    split; [reflexivity|]. split; [exact Hfields|].
    split; [intros t; apply Hrows; auto|].
    split.
    + intros _.
      destruct (closed_no_active db id approverId now w
                  (recorded now comments s db) eq_refl Hwf) as [Hdone Hnoact].
      split; [exact Hnoact|]. split; [|split].
      * exists (complete_workflow (Clock.completedAt now) w).
        split; [exact Hdone|]. destruct Hwf as [_ [Hj _]].
        cbn [complete_workflow ApprovalWorkflow.id ApprovalWorkflow.jobRequisitionId
             ApprovalWorkflow.offerId ApprovalWorkflow.status
             ApprovalWorkflow.completedAt].
        repeat split. exact Hj.
      * exists (approve_requisition (Clock.approvedAt now) approverId r).
        split.
        { unfold closed, update_where.
          cbn [requisitions set_workflows set_requisitions].
          apply in_map_iff. exists r. rewrite Hrid, String.eqb_refl. auto. }
        cbn [approve_requisition JobRequisition.id JobRequisition.title
             JobRequisition.status JobRequisition.approvedAt
             JobRequisition.approvedById].
        repeat split. exact Hrid.
      * intros r' Hr' Hid'. unfold closed, update_where in Hr'.
        cbn [requisitions set_workflows set_requisitions] in Hr'.
        apply in_map_iff in Hr'. destruct Hr' as [x [Hx Hxin]].
        destruct (String.eqb_spec (JobRequisition.id x) id) as [Hk|Hk]; subst r'.
        -- repeat split.
        -- contradiction.
    + intros [t [Htp Htl]]. exfalso.
      assert (Hin : In t (pendingStepsAbove wid (ApprovalStep.level s) db))
        by (apply in_pendingStepsAbove; auto).
      rewrite En in Hin. destruct Hin.
Qed.

(** C2: whenever the acting user is not the approver of a lowest-level
    pending step of an active workflow of the requisition,
    [approveJobRequisition] throws 'Not authorized to approve at this level'
    and every table is left as it was. *)
Theorem approve_by_other_user_is_refused (db : Db) (id approverId : string)
    (comments : option string) (now : Clock.t) :
  (forall w s,
     In w (workflows db) ->
     ApprovalWorkflow.jobRequisitionId w = Some id ->
     ApprovalWorkflow.status w = WorkflowStatus.active ->
     lowest_pending db (ApprovalWorkflow.id w) s ->
     ApprovalStep.approverId s <> approverId) ->
  approveJobRequisition id approverId comments now db = (Threw NOT_AUTHORIZED, db).
Proof.
  intros H. apply approve_refused_shape. intros w s l E.
  apply findActiveWorkflow_some in E. destruct E as [Hin [Hj [Ha Hl]]].
  apply (H w s Hin Hj Ha). apply included_step_lowest.
  rewrite firstn_1_head in Hl.
  destruct (List.head (orderBy_level_asc (pendingStepsOf (ApprovalWorkflow.id w) db)));
    inversion Hl; reflexivity.
Qed.

(** C9: a call for a requisition that has no workflow in status 'active'
    (a completed one included) throws the authorization error and leaves
    every table as it was; and, step and workflow ids being unique, whatever
    the call, its requisition and its outcome, the steps of a completed
    workflow are afterwards what they were before. *)
Theorem no_active_workflow_is_refused (db : Db) (id approverId : string)
    (comments : option string) (now : Clock.t) :
  (no_active_workflow db id ->
   approveJobRequisition id approverId comments now db = (Threw NOT_AUTHORIZED, db))
  /\ (List.NoDup (List.map ApprovalStep.id (steps db)) ->
      List.NoDup (List.map ApprovalWorkflow.id (workflows db)) ->
      forall wc,
        In wc (workflows db) ->
        ApprovalWorkflow.status wc = WorkflowStatus.completed ->
        steps_of (snd (approveJobRequisition id approverId comments now db))
                 (ApprovalWorkflow.id wc)
        = steps_of db (ApprovalWorkflow.id wc)).
Proof.
  split.
  - intros Hno. apply approve_refused_shape. intros w s l E.
    apply findActiveWorkflow_none in Hno. congruence.
  - intros Hnd Hwnd wc Hwc Hdone.
    destruct (findActiveWorkflow id db) as [[w [|s l]]|] eqn:E.
    + rewrite approve_refused_shape; [reflexivity|]. intros; congruence.
    + destruct (String.eqb_spec (ApprovalStep.approverId s) approverId) as [Heq|Hne].
      * pose proof (findActiveWorkflow_some _ _ _ _ E) as [Hin [_ [Ha Hl]]].
        rewrite firstn_1_head in Hl.
        destruct (List.head (orderBy_level_asc
                               (pendingStepsOf (ApprovalWorkflow.id w) db)))
          as [m|] eqn:Em; inversion Hl; subst m.
        apply included_step_lowest in Em. destruct Em as [[Hs [Hsw _]] _].
        assert (Hsteps : steps (snd (approveJobRequisition id approverId comments now db))
                         = steps (recorded now comments s db)).
        { rewrite (approve_accepted_shape id approverId comments now db w s l E Heq Hs).
          cbv zeta.
          destruct (findNextStep _ _ (recorded now comments s db)); [reflexivity|].
          pose proof (closing_keeps_steps id approverId now (ApprovalWorkflow.id w)
                        (recorded now comments s db)) as Hk.
          destruct (all2 _ _ (recorded now comments s db)) as [[[]|e] db2]; exact Hk. }
        unfold steps_of. rewrite Hsteps. unfold recorded. cbn [steps set_steps].
        apply filter_update_where; [|reflexivity].
        intros x Hx Hk.
        rewrite (key_injective ApprovalStep.id _ x s Hnd Hx Hs Hk).
        cbn [approve_step ApprovalStep.workflowId]. rewrite Hsw.
        destruct (String.eqb_spec (ApprovalWorkflow.id w) (ApprovalWorkflow.id wc))
          as [Hid|Hid]; [|auto].
        rewrite (key_injective ApprovalWorkflow.id _ w wc Hwnd Hin Hwc Hid) in Ha.
        congruence.
      * rewrite approve_refused_shape; [reflexivity|].
        intros w' s' l' E'. rewrite E in E'. inversion E'; subst. exact Hne.
    + rewrite approve_refused_shape; [reflexivity|]. intros; congruence.
Qed.

(** C8: for an existing application and any target stage,
    [updateApplicationStage] returns the application with the given stage
    whatever its previous stage, leaves every row of that id with the given
    stage, and appends to the history one record carrying the stage, notes,
    rejection reason, feedback and actor; every earlier record is kept as
    it was. *)
Theorem stage_update_appends_history (db : Db) (data : UpdateApplicationStage.t)
    (updatedById : string) (now : Z) (a : Application.t) :
  In a (applications db) ->
  Application.id a = UpdateApplicationStage.applicationId data ->
  exists a' db',
    updateApplicationStage data updatedById now db = (Returned a', db')
    /\ Application.id a' = UpdateApplicationStage.applicationId data
    /\ Application.stage a' = UpdateApplicationStage.stage data
    /\ In (set_stage (UpdateApplicationStage.stage data) updatedById now a)
          (applications db')
    /\ (forall x, In x (applications db') ->
                  Application.id x = UpdateApplicationStage.applicationId data ->
                  Application.stage x = UpdateApplicationStage.stage data)
    /\ stageHistory db'
       = (stageHistory db
         ++ [ {| ApplicationStageHistory.applicationId :=
                   UpdateApplicationStage.applicationId data;
                 ApplicationStageHistory.stage := UpdateApplicationStage.stage data;
                 ApplicationStageHistory.notes := UpdateApplicationStage.notes data;
                 ApplicationStageHistory.rejectionReason :=
                   UpdateApplicationStage.rejectionReason data;
                 ApplicationStageHistory.feedback := UpdateApplicationStage.feedback data;
                 ApplicationStageHistory.changedById := updatedById |} ])%list
    /\ requisitions db' = requisitions db
    /\ workflows db' = workflows db
    /\ steps db' = steps db.
Proof.
  intros Hin Hid.
  unfold updateApplicationStage, mbind, svc_bind, bind, application_update,
    applicationStageHistory_create, modify, ret.
  destruct (List.find _ (applications db)) as [a0|] eqn:E.
  - apply find_some in E. destruct E as [_ Ha0]. apply String.eqb_eq in Ha0.
    eexists. eexists. split; [reflexivity|].
    cbn [applications stageHistory requisitions workflows steps].
    split; [exact Ha0|]. split; [reflexivity|].
    split; [|split; [|repeat split]].
    + unfold update_where. apply in_map_iff. exists a.
      rewrite Hid, String.eqb_refl. auto.
    + intros x Hx Hxid. unfold update_where in Hx. apply in_map_iff in Hx.
      destruct Hx as [y [Hy _]].
      destruct (String.eqb_spec (Application.id y)
                  (UpdateApplicationStage.applicationId data)) as [Hk|Hk].
      * subst x. reflexivity.
      * subst x. contradiction.
  - exfalso. apply (find_none _ _ E) in Hin.
    rewrite Hid, String.eqb_refl in Hin. discriminate.
Qed.

(** *** The two-level scenario and instances on the sample tables *)

Example two_level_scenario :
  let db0 := sampleDb WorkflowStatus.active StepStatus.pending StepStatus.pending in
  let db1 := snd (approveJobRequisition "req-1" "A" None (sampleClock 1000) db0) in
  let db2 := snd (approveJobRequisition "req-1" "B" (Some "fine") (sampleClock 2000)
                    db1) in
  approveJobRequisition "req-1" "B" None (sampleClock 1000) db0
  = (Threw NOT_AUTHORIZED, db0)
  /\ List.map ApprovalWorkflow.status (workflows db1) = [WorkflowStatus.active]
  /\ List.map JobRequisition.status (requisitions db1)
     = [RequisitionStatus.pending_approval]
  /\ findActiveWorkflow "req-1" db1
     = Some (sampleWorkflow WorkflowStatus.active,
             [sampleStep "step-2" "B" 2 StepStatus.pending])
  /\ List.map ApprovalWorkflow.status (workflows db2) = [WorkflowStatus.completed]
  /\ List.map ApprovalWorkflow.completedAt (workflows db2) = [Some 2002%Z]
  /\ List.map JobRequisition.status (requisitions db2) = [RequisitionStatus.approved]
  /\ List.map JobRequisition.approvedAt (requisitions db2) = [Some 2001%Z]
  /\ List.map JobRequisition.approvedById (requisitions db2) = [Some "B"]
  /\ List.map ApprovalStep.status (steps db2) = [StepStatus.approved; StepStatus.approved]
  /\ List.map ApprovalStep.actionDate (steps db2) = [Some 2000%Z; Some 1000%Z]
  /\ approveJobRequisition "req-1" "B" None (sampleClock 3000) db2
     = (Threw NOT_AUTHORIZED, db2).
Proof. cbv zeta. repeat split; reflexivity. Qed.

Lemma sample_step_ids (a b : StepStatus.t) (w : WorkflowStatus.t) :
  List.NoDup (List.map ApprovalStep.id (steps (sampleDb w a b))).
Proof.
  simpl. constructor; [|constructor; [|constructor]]; simpl; intuition discriminate.
Defined.

Lemma sample_workflow_ids (a b : StepStatus.t) (w : WorkflowStatus.t) :
  List.NoDup (List.map ApprovalWorkflow.id (workflows (sampleDb w a b))).
Proof. simpl. constructor; [|constructor]; simpl; intuition. Defined.

Lemma approve_advances_or_completes_witness :
  let db := sampleDb WorkflowStatus.active StepStatus.pending StepStatus.pending in
  let w := sampleWorkflow WorkflowStatus.active in
  let s := sampleStep "step-1" "A" 1 StepStatus.pending in
  List.NoDup (List.map ApprovalStep.id (steps db))
  /\ active_workflow_of db "req-1" w
  /\ current_step db (ApprovalWorkflow.id w) s
  /\ In sampleRequisition (requisitions db)
  /\ exists db' s',
       approveJobRequisition "req-1" "A" (Some "ok") (sampleClock 1000) db
       = (Returned (getJobRequisitionById "req-1" db'), db')
       /\ In s' (steps db')
       /\ ApprovalStep.id s' = "step-1"
       /\ ApprovalStep.status s' = StepStatus.approved
       /\ ApprovalStep.actionDate s' = Some 1000%Z
       /\ ApprovalStep.comments s' = Some "ok"
       /\ workflows db' = workflows db
       /\ requisitions db' = requisitions db
       /\ findActiveWorkflow "req-1" db'
          = Some (w, [sampleStep "step-2" "B" 2 StepStatus.pending]).
Proof.
  intros db w s.
  assert (H1 : List.NoDup (List.map ApprovalStep.id (steps db)))
    by apply sample_step_ids.
  assert (H2 : active_workflow_of db "req-1" w).
  { split; [left; reflexivity|]. split; [reflexivity|]. split; [reflexivity|].
    intros w' [<-|[]] _ _. reflexivity. }
  assert (H4 : current_step db (ApprovalWorkflow.id w) s).
  { split.
    - split; [right; left; reflexivity|]. split; reflexivity.
    - intros t [[<-|[<-|[]]] _] Hne; [simpl; lia|contradiction]. }
  assert (H5 : ApprovalStep.approverId s = "A") by reflexivity.
  assert (H6 : In sampleRequisition (requisitions db)) by (left; reflexivity).
  assert (H7 : JobRequisition.id sampleRequisition = "req-1") by reflexivity.
  split; [exact H1|]. split; [exact H2|]. split; [exact H4|]. split; [exact H6|].
  destruct (approve_advances_or_completes db "req-1" "A" (Some "ok") (sampleClock 1000)
              w s sampleRequisition H1 H2 H4 H5 H6 H7)
    as [db' [s' [Hrun [Hf [Hrows [_ Hmore]]]]]].
  destruct Hf as [Hst [Hdate [Hcom [Hid _]]]].
  assert (Hnext : exists t, pending_of db (ApprovalWorkflow.id w) t
                            /\ (ApprovalStep.level s < ApprovalStep.level t)%Z).
  { exists (sampleStep "step-2" "B" 2 StepStatus.pending).
    split; [split; [left; reflexivity|split; reflexivity]|simpl; lia]. }
  destruct (Hmore Hnext) as [Hw [Hr _]].
  exists db', s'. split; [exact Hrun|].
  split; [apply Hrows; left; reflexivity|].
  split; [exact Hid|]. split; [exact Hst|]. split; [exact Hdate|].
  split; [exact Hcom|]. split; [exact Hw|]. split; [exact Hr|].
  vm_compute in Hrun. inversion Hrun. reflexivity.
Defined.

Lemma approve_by_other_user_is_refused_witness :
  let db := sampleDb WorkflowStatus.active StepStatus.pending StepStatus.pending in
  (forall w s,
     In w (workflows db) ->
     ApprovalWorkflow.jobRequisitionId w = Some "req-1" ->
     ApprovalWorkflow.status w = WorkflowStatus.active ->
     lowest_pending db (ApprovalWorkflow.id w) s ->
     ApprovalStep.approverId s <> "B")
  /\ approveJobRequisition "req-1" "B" None (sampleClock 1000) db = (Threw NOT_AUTHORIZED, db).
Proof.
  intros db.
  assert (H : forall w s,
             In w (workflows db) ->
             ApprovalWorkflow.jobRequisitionId w = Some "req-1" ->
             ApprovalWorkflow.status w = WorkflowStatus.active ->
             lowest_pending db (ApprovalWorkflow.id w) s ->
             ApprovalStep.approverId s <> "B").
  { intros w s [<-|[]] _ _ [[Hin _] Hmin].
    destruct Hin as [<-|[<-|[]]]; [|discriminate].
    exfalso.
    assert (Hp : pending_of db "wf-1" (sampleStep "step-1" "A" 1 StepStatus.pending)).
    { split; [right; left; reflexivity|]. split; reflexivity. }
    specialize (Hmin _ Hp). simpl in Hmin. lia. }
  split; [exact H|].
  exact (approve_by_other_user_is_refused db "req-1" "B" None (sampleClock 1000) H).
Defined.

Lemma no_active_workflow_is_refused_witness :
  let db := sampleDb WorkflowStatus.completed StepStatus.approved StepStatus.approved in
  List.NoDup (List.map ApprovalStep.id (steps db))
  /\ List.NoDup (List.map ApprovalWorkflow.id (workflows db))
  /\ no_active_workflow db "req-1"
  /\ approveJobRequisition "req-1" "B" None (sampleClock 3000) db
     = (Threw NOT_AUTHORIZED, db)
  /\ steps_of (snd (approveJobRequisition "req-1" "B" None (sampleClock 3000) db)) "wf-1"
     = steps_of db "wf-1".
Proof.
  intros db.
  assert (H1 : List.NoDup (List.map ApprovalStep.id (steps db)))
    by apply sample_step_ids.
  assert (H2 : List.NoDup (List.map ApprovalWorkflow.id (workflows db)))
    by apply sample_workflow_ids.
  assert (H3 : no_active_workflow db "req-1").
  { intros w [<-|[]] _. discriminate. }
  destruct (no_active_workflow_is_refused db "req-1" "B" None (sampleClock 3000)) as [Ha Hb].
  split; [exact H1|]. split; [exact H2|]. split; [exact H3|].
  split; [exact (Ha H3)|].
  apply (Hb H1 H2 (sampleWorkflow WorkflowStatus.completed)); [left|]; reflexivity.
Defined.

Lemma stage_update_appends_history_witness :
  let db := sampleDb WorkflowStatus.active StepStatus.pending StepStatus.pending in
  let data := {| UpdateApplicationStage.applicationId := "app-1";
                 UpdateApplicationStage.stage := Stage.hired;
                 UpdateApplicationStage.notes := Some "fast track";
                 UpdateApplicationStage.rejectionReason := None;
                 UpdateApplicationStage.feedback := None |} in
  In (sampleApplication Stage.applied) (applications db)
  /\ Application.id (sampleApplication Stage.applied)
     = UpdateApplicationStage.applicationId data
  /\ exists a' db',
       updateApplicationStage data "user-7" 5000 db = (Returned a', db')
       /\ Application.stage a' = Stage.hired
       /\ List.length (stageHistory db') = 2%nat.
Proof.
  intros db data.
  assert (H1 : In (sampleApplication Stage.applied) (applications db))
    by (left; reflexivity).
  assert (H2 : Application.id (sampleApplication Stage.applied)
               = UpdateApplicationStage.applicationId data) by reflexivity.
  split; [exact H1|]. split; [exact H2|].
  destruct (stage_update_appends_history db data "user-7" 5000
              (sampleApplication Stage.applied) H1 H2)
    as [a' [db' [Hrun [_ [Hstage [_ [_ [Hhist _]]]]]]]].
  exists a', db'. split; [exact Hrun|]. split; [exact Hstage|].
  rewrite Hhist. reflexivity.
Defined.

Example applied_to_hired :
  let db := sampleDb WorkflowStatus.active StepStatus.pending StepStatus.pending in
  let data := {| UpdateApplicationStage.applicationId := "app-1";
                 UpdateApplicationStage.stage := Stage.hired;
                 UpdateApplicationStage.notes := Some "fast track";
                 UpdateApplicationStage.rejectionReason := None;
                 UpdateApplicationStage.feedback := None |} in
  let db' := snd (updateApplicationStage data "user-7" 5000 db) in
  List.map Application.stage (applications db') = [Stage.hired]
  /\ List.map ApplicationStageHistory.stage (stageHistory db')
     = [Stage.applied; Stage.hired].
Proof. split; reflexivity. Qed.

End RecruitmentFacts.

(** ** More on the leave request form *)

Module LeaveMoreFacts.
Import Leave LeaveMore JsFacts.

Lemma leb_equiv (a a' b b' : number) :
  Js.equiv a a' -> Js.equiv b b' -> Js.leb a b = Js.leb a' b'.
Proof.
  destruct a, a', b, b'; simpl; auto; try contradiction.
  intros H1 H2. apply eq_true_iff_eq. rewrite !Qle_bool_iff, H1, H2. reflexivity.
Qed.

Lemma when_insert_empty (c : bool) (k : string) (v : message)
    (m : gmap string message) :
  when c (<[k := v]>) m = ∅ <-> c = false /\ m = ∅.
Proof.
  destruct c; simpl.
  - split; [|intros [H _]; discriminate].
    intros H. exfalso. exact (insert_non_empty m k v H).
  - tauto.
Qed.

Lemma lookup_when_eq (c : bool) (k : string) (v : message)
    (m : gmap string message) :
  when c (<[k := v]>) m !! k = if c then Some v else m !! k.
Proof. destruct c; simpl; [apply lookup_insert_eq|reflexivity]. Qed.

Lemma lookup_when_other (c : bool) (k k' : string) (v : message)
    (m : gmap string message) :
  k <> k' -> when c (<[k' := v]>) m !! k = m !! k.
Proof. intros Hk. destruct c; simpl; [|reflexivity]. apply lookup_insert_ne; auto. Qed.

Section WithDate.

Variable newDate : string -> number.

(** The error object, with the two policy checks folded. *)
Lemma validateForm_errors (st : State) (now : number) :
  (validateForm newDate st now).1
  = let fd := formData st in
    let notice := match selectedPolicy st with
                  | Some p => noticeTooShort newDate st now p | None => false end in
    let balance := match selectedPolicy st with
                   | Some p => balanceTooLow st p | None => false end in
    let p0 := match selectedPolicy st with
              | Some p => p | None => samplePolicy false end in
    when balance
      (<["general" := InsufficientBalance (balanceAvailable p0) (calculatedDays st)]>)
    (when notice (<["startDate" := MinimumNoticeRequired (minimumNotice p0)]>)
    (when (blank (reason fd)) (<["reason" := Text "Reason is required"]>)
    (when (truthy (startDate fd) && truthy (endDate fd)
           && Js.gtb (newDate (startDate fd)) (newDate (endDate fd)))
       (<["endDate" := Text "End date must be after start date"]>)
    (when (negb (truthy (endDate fd))) (<["endDate" := Text "End date is required"]>)
    (when (negb (truthy (startDate fd))) (<["startDate" := Text "Start date is required"]>)
    (when (negb (truthy (policyId fd))) (<["policyId" := Text "Please select a leave type"]>)
       ∅)))))).
Proof.
  unfold validateForm, noticeTooShort, balanceTooLow. cbn [fst]. cbv zeta.
  destruct (selectedPolicy st) as [p|]; [|reflexivity].
  destruct (truthy (startDate (formData st))); reflexivity.
Qed.

Lemma validateForm_ok (st : State) (now : number) :
  (validateForm newDate st now).2
  = bool_decide ((validateForm newDate st now).1 = ∅).
Proof.
  change ((validateForm newDate st now).2)
    with (bool_decide (size (validateForm newDate st now).1 = 0%nat)).
  apply bool_decide_ext. apply map_size_empty_iff.
Qed.

(** X1: for valid dates the day count is 0 exactly when the start is after
    the end; with the dates in order it is at least one half. *)
Theorem days_zero_iff_reversed (fd : FormData) (a b : Z) :
  newDate (startDate fd) = Js.of_Z a ->
  newDate (endDate fd) = Js.of_Z b ->
  (Js.equiv (calculateDays newDate fd) (Js.of_Z 0) <-> (b < a)%Z)
  /\ ((a <= b)%Z -> Js.leb (Fin (1 # 2)) (calculateDays newDate fd) = true).
Proof.
  intros Ha Hb.
  assert (Hlow : (a <= b)%Z -> Js.leb (Fin (1 # 2)) (calculateDays newDate fd) = true).
  { intros Hab.
    rewrite (leb_equiv _ (Fin (1 # 2)) _ _ (equiv_refl _)
               (LeaveFacts.calculateDays_value newDate fd a b Ha Hb Hab)).
    cbn [Js.leb]. apply Qle_bool_iff.
    pose proof (LeaveFacts.daySpan_pos a b) as Hpos.
    rewrite Zle_Qle in Hpos.
    destruct (anyHalf fd).
    - apply (Qplus_le_l _ _ (1 # 2)). ring_simplify.
      eapply Qle_trans; [|exact Hpos]. discriminate.
    - rewrite Qplus_0_r. eapply Qle_trans; [|exact Hpos]. discriminate. }
  split; [|exact Hlow]. split.
  - intros Hzero. destruct (Z.lt_ge_cases b a) as [Hlt|Hge]; [exact Hlt|].
    exfalso. specialize (Hlow Hge).
    rewrite (leb_equiv _ (Fin (1 # 2)) _ (Js.of_Z 0) (equiv_refl _) Hzero) in Hlow.
    discriminate.
  - intros Hlt. unfold calculateDays. rewrite Ha, Hb, gtb_of_Z.
    destruct (Z.ltb_spec b a); [apply equiv_refl|lia].
Qed.

(** X2: with the start date and the half-day flags fixed, a later end date
    never gives a smaller day count. *)
Theorem days_monotone_in_end (fd fd' : FormData) (a b b' : Z) :
  startDate fd = startDate fd' ->
  startTime fd = startTime fd' ->
  endTime fd = endTime fd' ->
  newDate (startDate fd) = Js.of_Z a ->
  newDate (endDate fd) = Js.of_Z b ->
  newDate (endDate fd') = Js.of_Z b' ->
  (a <= b)%Z -> (b <= b')%Z ->
  Js.leb (calculateDays newDate fd) (calculateDays newDate fd') = true.
Proof.
  intros Hs Hst Het Ha Hb Hb' Hab Hbb.
  assert (Ha' : newDate (startDate fd') = Js.of_Z a) by (rewrite <- Hs; exact Ha).
  rewrite (leb_equiv _ _ _ _
             (LeaveFacts.calculateDays_value newDate fd a b Ha Hb Hab)
             (LeaveFacts.calculateDays_value newDate fd' a b' Ha' Hb' ltac:(lia))).
  assert (Hh : anyHalf fd = anyHalf fd') by (unfold anyHalf; rewrite Hst, Het; reflexivity).
  rewrite Hh. cbn [Js.leb]. apply Qle_bool_iff. apply Qplus_le_l.
  rewrite <- Zle_Qle. unfold daySpan. apply Z.add_le_mono_r.
  apply Qceiling_resp_le. apply Qmult_le_compat_r; [|discriminate].
  rewrite !Qabs_pos.
  - apply Qplus_le_l. rewrite <- Zle_Qle. exact Hbb.
  - rewrite <- inject_Z_opp, <- inject_Z_plus. change 0%Q with (inject_Z 0).
    rewrite <- Zle_Qle. lia.
  - rewrite <- inject_Z_opp, <- inject_Z_plus. change 0%Q with (inject_Z 0).
    rewrite <- Zle_Qle. lia.
Qed.

(** X3: when either date is invalid the day count is NaN, whatever the
    other date and the flags; and a NaN day count in the state never
    triggers the balance check. *)
Theorem days_nan_on_invalid_date (fd : FormData) :
  (newDate (startDate fd) = NaN \/ newDate (endDate fd) = NaN ->
   calculateDays newDate fd = NaN)
  /\ (forall st now,
        calculatedDays st = NaN ->
        (validateForm newDate st now).1 !! "general" = None).
Proof.
  split.
  - intros H. unfold calculateDays.
    destruct (String.eqb (startTime fd) "half_day"),
             (String.eqb (endTime fd) "half_day");
      destruct H as [-> | ->];
      destruct (newDate _) as [q| | |]; reflexivity.
  - intros st now Hnan. rewrite validateForm_errors. cbv zeta.
    rewrite lookup_when_eq.
    destruct (selectedPolicy st) as [p|].
    + unfold balanceTooLow. rewrite Hnan. cbn [Js.gtb Js.ltb Js.leb andb].
      rewrite !lookup_when_other by discriminate. apply lookup_empty.
    + rewrite !lookup_when_other by discriminate. apply lookup_empty.
Qed.

(** Acceptance, check by check. *)
Lemma validateForm_accepted (st : State) (now : number) :
  (validateForm newDate st now).2 = true
  <-> truthy (policyId (formData st)) = true
      /\ datesInOrder newDate (formData st) = true
      /\ blank (reason (formData st)) = false
      /\ match selectedPolicy st with
         | Some p => noticeTooShort newDate st now p
         | None => false
         end = false
      /\ match selectedPolicy st with
         | Some p => balanceTooLow st p
         | None => false
         end = false.
Proof.
  rewrite validateForm_ok, bool_decide_eq_true, validateForm_errors. cbv zeta.
  rewrite !when_insert_empty. unfold datesInOrder.
  generalize (match selectedPolicy st with
              | Some p => noticeTooShort newDate st now p | None => false end).
  generalize (match selectedPolicy st with
              | Some p => balanceTooLow st p | None => false end).
  intros bl n.
  destruct (truthy (policyId (formData st))),
           (truthy (startDate (formData st))),
           (truthy (endDate (formData st))),
           (Js.gtb (newDate (startDate (formData st))) (newDate (endDate (formData st)))),
           (blank (reason (formData st))), n, bl;
    cbn [negb andb]; intuition congruence.
Qed.


(** X5: the balance error is recorded exactly when a policy is selected
    that forbids a negative balance and the stored day count is positive and
    above the available balance; it then carries both amounts and nothing is
    submitted. A policy that allows a negative balance never gets it. *)
Theorem balance_error_exactly (employeeId : string) (st : State) (now : number) :
  (validateForm newDate st now).1 !! "general"
  = match selectedPolicy st with
    | Some p =>
        if balanceTooLow st p
        then Some (InsufficientBalance (balanceAvailable p) (calculatedDays st))
        else None
    | None => None
    end
  /\ ((validateForm newDate st now).1 !! "general" <> None ->
      handleSubmit newDate employeeId st now = None)
  /\ (forall p, selectedPolicy st = Some p -> allowNegativeBalance p = true ->
                (validateForm newDate st now).1 !! "general" = None).
Proof.
  assert (Hlook : (validateForm newDate st now).1 !! "general"
                  = match selectedPolicy st with
                    | Some p =>
                        if balanceTooLow st p
                        then Some (InsufficientBalance (balanceAvailable p)
                                     (calculatedDays st))
                        else None
                    | None => None
                    end).
  { rewrite validateForm_errors. cbv zeta. rewrite lookup_when_eq.
    rewrite !lookup_when_other by discriminate. rewrite lookup_empty.
    destruct (selectedPolicy st); reflexivity. }
  split; [exact Hlook|]. split.
  - intros Hsome. unfold handleSubmit. rewrite validateForm_ok.
    rewrite bool_decide_eq_false_2; [reflexivity|].
    intros Hempty. rewrite Hempty, lookup_empty in Hsome. congruence.
  - intros p Hp Hallow. rewrite Hlook, Hp. unfold balanceTooLow.
    rewrite Hallow, andb_false_r. reflexivity.
Qed.


(** X7: choosing a policy id that is not among the loaded policies leaves no
    policy selected, and the form is then accepted on the policy id, the
    dates and the reason alone: neither notice nor balance is checked,
    whatever the day count. *)
Theorem unknown_policy_skips_policy_checks (policies : list LeavePolicy)
    (pid : string) (st : State) (now : number) :
  (forall p, In p policies -> id p <> pid) ->
  selectedPolicy (handlePolicyChange policies pid st) = None
  /\ ((validateForm newDate (handlePolicyChange policies pid st) now).2 = true
      <-> truthy pid = true
          /\ datesInOrder newDate (formData st) = true
          /\ blank (reason (formData st)) = false).
Proof.
  intros Hnone.
  assert (Hsel : selectedPolicy (handlePolicyChange policies pid st) = None).
  { cbn [handlePolicyChange selectedPolicy].
    destruct (List.find _ policies) as [p|] eqn:E; [|reflexivity].
    apply find_some in E. destruct E as [Hin Heq]. apply String.eqb_eq in Heq.
    exfalso. exact (Hnone p Hin Heq). }
  split; [exact Hsel|].
  rewrite validateForm_accepted. rewrite Hsel.
  cbn [handlePolicyChange formData policyId reason].
  unfold datesInOrder. cbn [startDate endDate].
  split.
  - intros [H1 [H2 [H3 _]]]. auto.
  - intros [H1 [H2 H3]]. repeat split; auto.
Qed.

End WithDate.

(** *** Instances on the sample dates *)

Lemma days_zero_iff_reversed_witness :
  let fd := sampleForm "2024-03-04" "2024-03-06" "half_day" "half_day" in
  sampleDate (startDate fd) = Js.of_Z 1709510400000
  /\ sampleDate (endDate fd) = Js.of_Z 1709683200000
  /\ (Js.equiv (calculateDays sampleDate fd) (Js.of_Z 0)
      <-> (1709683200000 < 1709510400000)%Z)
  /\ ((1709510400000 <= 1709683200000)%Z ->
      Js.leb (Fin (1 # 2)) (calculateDays sampleDate fd) = true).
Proof.
  intros fd. split; [reflexivity|]. split; [reflexivity|].
  apply (days_zero_iff_reversed sampleDate fd); reflexivity.
Defined.

Lemma days_monotone_in_end_witness :
  let fd := sampleForm "2024-03-04" "2024-03-05" "half_day" "full_day" in
  let fd' := sampleForm "2024-03-04" "2024-03-06" "half_day" "full_day" in
  (1709510400000 <= 1709596800000)%Z
  /\ (1709596800000 <= 1709683200000)%Z
  /\ Js.leb (calculateDays sampleDate fd) (calculateDays sampleDate fd') = true.
Proof.
  intros fd fd'. split; [discriminate|]. split; [discriminate|].
  apply (days_monotone_in_end sampleDate fd fd'
           1709510400000 1709596800000 1709683200000);
    try reflexivity; discriminate.
Defined.

Lemma days_nan_on_invalid_date_witness :
  let fd := sampleForm "" "2024-03-05" "full_day" "half_day" in
  sampleDate (startDate fd) = NaN
  /\ calculateDays sampleDate fd = NaN
  /\ (validateForm sampleDate
        (sampleState fd (Some (samplePolicy false)) NaN) (Js.of_Z 0)).1 !! "general"
     = None.
Proof.
  intros fd.
  destruct (days_nan_on_invalid_date sampleDate fd) as [H1 H2].
  split; [reflexivity|]. split.
  - apply H1. left. reflexivity.
  - apply H2. reflexivity.
Defined.


Lemma balance_error_exactly_witness :
  let st := sampleState (sampleForm "2024-03-04" "2024-03-06" "full_day" "full_day")
              (Some (samplePolicy false)) (Js.of_Z 6) in
  (validateForm sampleDate st (Js.of_Z 1709000000000)).1 !! "general"
  = Some (InsufficientBalance (Js.of_Z 5) (Js.of_Z 6))
  /\ handleSubmit sampleDate "emp-1" st (Js.of_Z 1709000000000) = None.
Proof.
  intros st.
  destruct (balance_error_exactly sampleDate "emp-1" st (Js.of_Z 1709000000000))
    as [H1 [H2 _]].
  split; [exact H1|]. apply H2. rewrite H1. discriminate.
Defined.

Lemma unknown_policy_skips_policy_checks_witness :
  let st := sampleState (sampleForm "2024-03-04" "2024-03-06" "full_day" "full_day")
              None (Js.of_Z 300) in
  (forall p, In p [samplePolicy false] -> id p <> "sick")
  /\ selectedPolicy (handlePolicyChange [samplePolicy false] "sick" st) = None
  /\ (validateForm sampleDate (handlePolicyChange [samplePolicy false] "sick" st)
        (Js.of_Z 1709683200000)).2 = true.
Proof.
  intros st.
  assert (H : forall p, In p [samplePolicy false] -> id p <> "sick").
  { intros p [<-|[]]. discriminate. }
  destruct (unknown_policy_skips_policy_checks sampleDate [samplePolicy false]
              "sick" st (Js.of_Z 1709683200000) H) as [H1 H2].
  split; [exact H|]. split; [exact H1|].
  apply H2. repeat split.
Defined.

(** A reason made of Unicode white space is no reason: the form is
    refused on it, with the other fields in order. *)
Example white_space_reason_is_refused :
  let fd := withReason (noBreakSpace ++ " " ++ ideographicSpace)
              (sampleForm "2024-03-04" "2024-03-06" "full_day" "full_day") in
  let st := sampleState fd (Some (samplePolicy false)) (Js.of_Z 3) in
  blank (reason fd) = true
  /\ blank (noBreakSpace ++ "x") = false
  /\ (validateForm sampleDate st (Js.of_Z 1709000000000)).1 !! "reason"
     = Some (Text "Reason is required")
  /\ (validateForm sampleDate st (Js.of_Z 1709000000000)).2 = false
  /\ handleSubmit sampleDate "emp-1" st (Js.of_Z 1709000000000) = None.
Proof. repeat split; vm_compute; reflexivity. Qed.

End LeaveMoreFacts.

(** ** More on goal progress *)

Module GoalMoreFacts.
Import Svc Goals GoalsMore JsFacts GoalFacts.

Lemma recompute_unfold (goalId : string) (db : Db) (g : Goal) :
  keyResultsOf db goalId <> [] ->
  In g (goals db) -> id g = goalId ->
  updateGoalProgressFromKeyResults goalId db
  = (Returned tt, put_progress goalId (storedProgress (keyResultsOf db goalId)) db).
Proof. intros Hne Hin Hid. apply (update_unfold goalId db g Hne Hin Hid). Qed.

Lemma recompute_no_goal (goalId : string) (db : Db) :
  (forall g, In g (goals db) -> id g <> goalId) ->
  updateGoalProgressFromKeyResults goalId db = (Returned tt, db).
Proof.
  intros Hno.
  unfold updateGoalProgressFromKeyResults, try_catch, mbind, svc_bind, bind,
    keyResult_findMany, gets.
  destruct (List.filter _ (keyResults db)) as [|kr r]; [reflexivity|].
  cbn [List.length Nat.eqb]. unfold goal_update.
  destruct (List.find _ (goals db)) as [g|] eqn:E; [|reflexivity].
  apply find_some in E. destruct E as [Hin Heq]. apply String.eqb_eq in Heq.
  exfalso. exact (Hno g Hin Heq).
Qed.

Lemma recompute_no_key_results (goalId : string) (db : Db) :
  keyResultsOf db goalId = [] ->
  updateGoalProgressFromKeyResults goalId db = (Returned tt, db).
Proof.
  intros Hnil.
  unfold updateGoalProgressFromKeyResults, try_catch, mbind, svc_bind, bind,
    keyResult_findMany, gets.
  fold (keyResultsOf db goalId). rewrite Hnil. reflexivity.
Qed.

Lemma goal_row_dec (goalId : string) (db : Db) :
  (exists g, In g (goals db) /\ id g = goalId)
  \/ (forall g, In g (goals db) -> id g <> goalId).
Proof.
  destruct (List.find (fun g => String.eqb (id g) goalId) (goals db)) as [g|] eqn:E.
  - left. apply find_some in E. destruct E as [Hin Heq].
    apply String.eqb_eq in Heq. eauto.
  - right. intros g Hin Heq. apply (find_none _ _ E) in Hin.
    rewrite Heq, String.eqb_refl in Hin. discriminate.
Qed.

(** The outcome of a recomputation, in every case. *)
Lemma recompute_cases (goalId : string) (db : Db) :
  updateGoalProgressFromKeyResults goalId db = (Returned tt, db)
  \/ ((exists g, In g (goals db) /\ id g = goalId)
      /\ keyResultsOf db goalId <> []
      /\ updateGoalProgressFromKeyResults goalId db
         = (Returned tt,
            put_progress goalId (storedProgress (keyResultsOf db goalId)) db)).
Proof.
  destruct (keyResultsOf db goalId) as [|kr r] eqn:E.
  - left. apply recompute_no_key_results. exact E.
  - destruct (goal_row_dec goalId db) as [[g [Hin Hid]]|Hno].
    + right. split; [eauto|]. split; [discriminate|].
      rewrite <- E. apply (recompute_unfold goalId db g); [rewrite E; discriminate|auto..].
    + left. apply recompute_no_goal. exact Hno.
Qed.

Lemma put_progress_twice (goalId : string) (p q : number) (db : Db) :
  put_progress goalId p (put_progress goalId q db) = put_progress goalId p db.
Proof.
  unfold put_progress. cbn [goals keyResults]. f_equal.
  rewrite List.map_map. apply List.map_ext. intros g.
  destruct (String.eqb (id g) goalId) eqn:E; cbn [id]; rewrite E; reflexivity.
Qed.

(** X8: recomputing a goal's progress a second time changes nothing: the
    second call returns with the tables the first one left. *)
Theorem recompute_idempotent (goalId : string) (db : Db) :
  updateGoalProgressFromKeyResults goalId
    (snd (updateGoalProgressFromKeyResults goalId db))
  = (Returned tt, snd (updateGoalProgressFromKeyResults goalId db)).
Proof.
  destruct (recompute_cases goalId db) as [H|[[g [Hin Hid]] [Hne H]]].
  - rewrite H. cbn [snd]. exact H.
  - rewrite H. cbn [snd].
    set (p := storedProgress (keyResultsOf db goalId)).
    assert (Hin' : In {| id := id g; progress_percentage := p |}
                      (goals (put_progress goalId p db))).
    { unfold put_progress. cbn [goals]. apply in_map_iff. exists g.
      rewrite Hid, String.eqb_refl. auto. }
    rewrite (recompute_unfold goalId (put_progress goalId p db) _ Hne Hin' Hid).
    change (keyResultsOf (put_progress goalId p db) goalId)
      with (keyResultsOf db goalId).
    fold p. rewrite put_progress_twice. reflexivity.
Qed.

(** Writing a progress leaves the goals of other ids at their places. *)
Lemma put_progress_keeps_others (goalId : string) (p : number) (db : Db) (i : nat)
    (g : Goal) :
  goals db !! i = Some g -> id g <> goalId ->
  goals (put_progress goalId p db) !! i = Some g.
Proof.
  intros Hg Hne. unfold put_progress. cbn [goals].
  change (List.map ?f ?l) with (f <$> l). rewrite list_lookup_fmap, Hg. cbn.
  destruct (String.eqb_spec (id g) goalId); [contradiction|reflexivity].
Qed.

(** X9: a recomputation never throws and writes at most the progress of the
    goals of that id: the key results are untouched, no goal row is added
    or removed, and every goal of another id is left as it is, at its
    place. *)
Theorem recompute_frame (goalId : string) (db : Db) :
  let db' := snd (updateGoalProgressFromKeyResults goalId db) in
  fst (updateGoalProgressFromKeyResults goalId db) = Returned tt
  /\ keyResults db' = keyResults db
  /\ List.map id (goals db') = List.map id (goals db)
  /\ (forall (i : nat) (g : Goal),
        goals db !! i = Some g -> id g <> goalId -> goals db' !! i = Some g).
Proof.
  cbv zeta.
  destruct (recompute_cases goalId db) as [H|[_ [_ H]]]; rewrite H; cbn [fst snd].
  - auto.
  - split; [reflexivity|]. split; [reflexivity|]. split.
    + unfold put_progress. cbn [goals].
      rewrite List.map_map. apply List.map_ext. intros g.
      destruct (String.eqb (id g) goalId); reflexivity.
    + intros i g Hg Hne. apply put_progress_keeps_others; assumption.
Qed.

(** X10: updating a key result whose id is in no row throws
    'Failed to update key result' and leaves the tables as they were. *)
Theorem updateKeyResult_missing (id : string) (data : UpdateKeyResult) (db : Db) :
  (forall kr, In kr (keyResults db) -> kr_id kr <> id) ->
  updateKeyResult id data db = (Threw (Error "Failed to update key result"), db).
Proof.
  intros Hno. unfold updateKeyResult, try_catch, mbind, svc_bind, bind, keyResult_update.
  destruct (List.find _ (keyResults db)) as [kr|] eqn:E; [|reflexivity].
  apply find_some in E. destruct E as [Hin Heq]. apply String.eqb_eq in Heq.
  exfalso. exact (Hno kr Hin Heq).
Qed.

(** The tables once the key result row has been rewritten. *)
Lemma keyResult_update_found (id : string) (data : UpdateKeyResult) (db : Db)
    (kr : KeyResult) :
  List.NoDup (List.map kr_id (keyResults db)) ->
  In kr (keyResults db) -> kr_id kr = id ->
  keyResult_update id data db
  = (Returned (apply_update data kr),
     {| goals := goals db;
        keyResults := Recruitment.update_where kr_id id (apply_update data)
                        (keyResults db) |}).
Proof.
  intros Hnd Hin Hid. unfold keyResult_update.
  destruct (List.find _ (keyResults db)) as [kr0|] eqn:E.
  - apply find_some in E. destruct E as [Hin0 Heq]. apply String.eqb_eq in Heq.
    assert (kr0 = kr).
    { apply (RecruitmentFacts.key_injective kr_id (keyResults db)); auto. congruence. }
    subst kr0. reflexivity.
  - exfalso. apply (find_none _ _ E) in Hin.
    rewrite Hid, String.eqb_refl in Hin. discriminate.
Qed.

(** The outcome of a recomputation on doubles, in every case. *)
Lemma recompute64_cases (goalId : string) (db : Db) :
  Goals64.updateGoalProgressFromKeyResults goalId db = (Returned tt, db)
  \/ ((exists g, In g (goals db) /\ id g = goalId)
      /\ keyResultsOf db goalId <> []
      /\ Goals64.updateGoalProgressFromKeyResults goalId db
         = (Returned tt,
            put_progress goalId (Goals64.storedProgress (keyResultsOf db goalId)) db)).
Proof.
  destruct (keyResultsOf db goalId) as [|kr r] eqn:E.
  - left.
    unfold Goals64.updateGoalProgressFromKeyResults, try_catch, mbind, svc_bind, bind,
      keyResult_findMany, gets.
    fold (keyResultsOf db goalId). rewrite E. reflexivity.
  - destruct (goal_row_dec goalId db) as [[g [Hin Hid]]|Hno].
    + right. split; [eauto|]. split; [discriminate|].
      rewrite <- E. apply (update_unfold64 goalId db g); [rewrite E; discriminate|auto..].
    + left.
      unfold Goals64.updateGoalProgressFromKeyResults, try_catch, mbind, svc_bind, bind,
        keyResult_findMany, gets.
      fold (keyResultsOf db goalId). rewrite E.
      cbn [List.length Nat.eqb]. unfold goal_update.
      destruct (List.find _ (goals db)) as [g|] eqn:Ef; [|reflexivity].
      apply find_some in Ef. destruct Ef as [Hin Heq]. apply String.eqb_eq in Heq.
      exfalso. exact (Hno g Hin Heq).
Qed.

(** X11: updating an existing key result (ids unique) returns the rewritten
    row, rewrites that row only, and recomputes the goal the rewritten row
    belongs to: that goal, when it exists, stores the value computed from
    its key results after the update, which is the rounded weighted mean, in
    the arithmetic of doubles, when their weights sum to a positive value.
    Every goal of another id, the goal a key result was moved away from
    included, keeps what it stored. *)
Theorem updateKeyResult_recomputes (id : string) (data : UpdateKeyResult) (db : Db)
    (kr : KeyResult) :
  List.NoDup (List.map kr_id (keyResults db)) ->
  In kr (keyResults db) -> kr_id kr = id ->
  let kr' := apply_update data kr in
  exists db',
    Goals64.updateKeyResult id data db = (Returned kr', db')
    /\ (forall x, In x (keyResults db')
                  <-> x = kr' \/ (In x (keyResults db) /\ x <> kr))
    /\ (forall g, In g (goals db) -> Goals.id g = goal_id kr' ->
                  progressOf db' (goal_id kr')
                  = Some (Goals64.storedProgress (keyResultsOf db' (goal_id kr'))))
    /\ (Js.gtb (Goals64.totalWeight (keyResultsOf db' (goal_id kr'))) (Js.of_Z 0)
        = true ->
        Goals64.storedProgress (keyResultsOf db' (goal_id kr'))
        = Goals64.spec_goalProgress (keyResultsOf db' (goal_id kr')))
    /\ (forall (i : nat) (g : Goal),
          goals db !! i = Some g -> Goals.id g <> goal_id kr' ->
          goals db' !! i = Some g).
Proof.
  intros Hnd Hin Hid kr'.
  unfold Goals64.updateKeyResult, try_catch, mbind, svc_bind, bind.
  rewrite (keyResult_update_found id data db kr Hnd Hin Hid). fold kr'.
  set (db1 := {| goals := goals db;
                 keyResults := Recruitment.update_where kr_id id (apply_update data)
                                 (keyResults db) |}).
  assert (Hframe :
            fst (Goals64.updateGoalProgressFromKeyResults (goal_id kr') db1)
            = Returned tt
            /\ keyResults (snd (Goals64.updateGoalProgressFromKeyResults
                                  (goal_id kr') db1))
               = keyResults db1
            /\ (forall (i : nat) (g : Goal),
                  goals db1 !! i = Some g -> Goals.id g <> goal_id kr' ->
                  goals (snd (Goals64.updateGoalProgressFromKeyResults
                                (goal_id kr') db1)) !! i
                  = Some g)).
  { destruct (recompute64_cases (goal_id kr') db1) as [H|[_ [_ H]]]; rewrite H;
      cbn [fst snd].
    - auto.
    - split; [reflexivity|]. split; [reflexivity|].
      intros i g Hg Hne. apply put_progress_keeps_others; assumption. }
  destruct Hframe as [Hret [Hkrs Hothers]].
  destruct (Goals64.updateGoalProgressFromKeyResults (goal_id kr') db1)
    as [o db'] eqn:Erun.
  cbn [fst snd] in *. subst o. cbn [ret].
  exists db'. split; [reflexivity|].
  assert (Hin1 : In kr' (keyResults db1)).
  { cbn [keyResults db1]. unfold Recruitment.update_where. apply in_map_iff.
    exists kr. rewrite Hid, String.eqb_refl. auto. }
  assert (Hne1 : keyResultsOf db1 (goal_id kr') <> []).
  { intros Hnil. assert (Hk : In kr' (keyResultsOf db1 (goal_id kr'))).
    { unfold keyResultsOf. apply filter_In. split; [exact Hin1|apply String.eqb_refl]. }
    rewrite Hnil in Hk. destruct Hk. }
  assert (Hsame : keyResultsOf db' (goal_id kr') = keyResultsOf db1 (goal_id kr')).
  { unfold keyResultsOf. rewrite Hkrs. reflexivity. }
  split; [|split; [|split]].
  - intros x. rewrite Hkrs. cbn [keyResults db1]. rewrite <- Hid.
    apply (RecruitmentFacts.in_update_where kr_id (keyResults db) kr); auto.
  - intros g Hg Hgid. rewrite Hsame.
    rewrite (update_unfold64 (goal_id kr') db1 g Hne1 Hg Hgid) in Erun.
    inversion Erun; subst db'.
    apply (progressOf_put (goal_id kr') _ db1 g); auto.
  - intros Hpos. apply stored64_is_weighted_mean. exact Hpos.
  - exact Hothers.
Qed.

(** *** Bounds of the stored value *)




(** *** Instances on the sample tables *)

Lemma updateKeyResult_missing_witness :
  let db := sampleDb [sampleKeyResult "kr-1" 10 10 false 50] in
  (forall kr, In kr (keyResults db) -> kr_id kr <> "kr-9")
  /\ updateKeyResult "kr-9" noUpdate db
     = (Threw (Error "Failed to update key result"), db).
Proof.
  intros db.
  assert (H : forall kr, In kr (keyResults db) -> kr_id kr <> "kr-9").
  { intros kr [<-|[]]. discriminate. }
  split; [exact H|]. exact (updateKeyResult_missing "kr-9" noUpdate db H).
Defined.

Lemma updateKeyResult_recomputes_witness :
  let krs := [sampleKeyResult "kr-1" 40 5 false 100;
              sampleKeyResult "kr-2" 1 0 true 0] in
  let db := sampleDb krs in
  let data := {| u_goal_id := None; u_title := None; u_target_value := None;
                 u_current_value := Some 23%Q; u_is_binary := None;
                 u_weight := None |} in
  List.NoDup (List.map kr_id (keyResults db))
  /\ exists db',
       Goals64.updateKeyResult "kr-1" data db
       = (Returned (sampleKeyResult "kr-1" 40 23 false 100), db')
       /\ progressOf db' "goal-1" = Some (Js.of_Z 57).
Proof.
  intros krs db data.
  assert (Hnd : List.NoDup (List.map kr_id (keyResults db))).
  { simpl. constructor; [|constructor; [|constructor]]; simpl; intuition discriminate. }
  split; [exact Hnd|].
  destruct (updateKeyResult_recomputes "kr-1" data db
              (sampleKeyResult "kr-1" 40 5 false 100) Hnd
              (or_introl eq_refl) eq_refl)
    as [db' [Hrun _]].
  exists db'. split; [exact Hrun|].
  vm_compute in Hrun. inversion Hrun; subst db'. reflexivity.
Defined.


End GoalMoreFacts.

(** ** More on requisition approval and application stages *)

Module RecruitmentMoreFacts.
Import Svc Recruitment RecruitmentMore RecruitmentFacts.

(** *** What an approval call can leave behind *)

Lemma approve_steps_after (id approverId : string) (comments : option string)
    (now : Clock.t) (db : Db) :
  steps (snd (approveJobRequisition id approverId comments now db)) = steps db
  \/ exists w s l,
       findActiveWorkflow id db = Some (w, s :: l)
       /\ ApprovalStep.approverId s = approverId
       /\ pending_of db (ApprovalWorkflow.id w) s
       /\ steps (snd (approveJobRequisition id approverId comments now db))
          = update_where ApprovalStep.id (ApprovalStep.id s)
              (approve_step (Clock.actionDate now) comments) (steps db).
Proof.
  destruct (findActiveWorkflow id db) as [[w [|s l]]|] eqn:E.
  - left. rewrite approve_refused_shape; [reflexivity|]. intros; congruence.
  - destruct (String.eqb_spec (ApprovalStep.approverId s) approverId) as [Heq|Hne].
    + right. exists w, s, l.
      pose proof (findActiveWorkflow_some _ _ _ _ E) as [_ [_ [_ Hl]]].
      rewrite firstn_1_head in Hl.
      destruct (List.head (orderBy_level_asc
                             (pendingStepsOf (ApprovalWorkflow.id w) db)))
        as [m|] eqn:Em; inversion Hl; subst m.
      apply included_step_lowest in Em. destruct Em as [Hp _].
      pose proof Hp as [Hs _].
      split; [reflexivity|]. split; [exact Heq|]. split; [exact Hp|].
      rewrite (approve_accepted_shape id approverId comments now db w s l E Heq Hs).
      cbv zeta.
      destruct (findNextStep _ _ (recorded now comments s db)); [reflexivity|].
      pose proof (closing_keeps_steps id approverId now (ApprovalWorkflow.id w)
                    (recorded now comments s db)) as Hk.
      destruct (all2 _ _ (recorded now comments s db)) as [[[]|e] db2]; exact Hk.
    + left. rewrite approve_refused_shape; [reflexivity|].
      intros w' s' l' E'. rewrite E in E'. inversion E'; subst. exact Hne.
  - left. rewrite approve_refused_shape; [reflexivity|]. intros; congruence.
Qed.

Lemma map_update_where {A B} (key : A -> string) (k : string) (g : A -> A)
    (f : A -> B) (l : list A) :
  (forall x, f (g x) = f x) ->
  List.map f (update_where key k g l) = List.map f l.
Proof.
  intros Hf. unfold update_where. rewrite List.map_map. apply List.map_ext.
  intros x. destruct (String.eqb (key x) k); auto.
Qed.

(** X13: whatever its arguments and its outcome, an approval call adds,
    removes and reorders no row; it changes no step's id, workflow,
    approver, level or required flag, no workflow's id or subject, no
    requisition's id or title, and it leaves applications and stage history
    untouched. *)
Theorem approve_keeps_identities (id approverId : string) (comments : option string)
    (now : Clock.t) (db : Db) :
  let db' := snd (approveJobRequisition id approverId comments now db) in
  List.map stepIdentity (steps db') = List.map stepIdentity (steps db)
  /\ List.map (fun w => (ApprovalWorkflow.id w, ApprovalWorkflow.jobRequisitionId w,
                         ApprovalWorkflow.offerId w)) (workflows db')
     = List.map (fun w => (ApprovalWorkflow.id w, ApprovalWorkflow.jobRequisitionId w,
                           ApprovalWorkflow.offerId w)) (workflows db)
  /\ List.map (fun r => (JobRequisition.id r, JobRequisition.title r)) (requisitions db')
     = List.map (fun r => (JobRequisition.id r, JobRequisition.title r)) (requisitions db)
  /\ applications db' = applications db
  /\ stageHistory db' = stageHistory db.
Proof.
  cbv zeta.
  unfold approveJobRequisition, mbind, svc_bind, bind, gets, throw, ret,
    approvalStep_update, all2, jobRequisition_update, approvalWorkflow_update.
  destruct (findActiveWorkflow id db) as [[w [|s l]]|]; cbn [snd]; auto.
  destruct (negb (String.eqb (ApprovalStep.approverId s) approverId)); cbn [snd]; auto.
  destruct (has_row ApprovalStep.id (ApprovalStep.id s) (steps db)); cbn [snd]; auto.
  destruct (findNextStep _ _ _); cbn [snd].
  - cbn [steps workflows requisitions applications stageHistory set_steps].
    rewrite map_update_where by reflexivity. auto.
  - cbn [requisitions set_steps].
    destruct (has_row JobRequisition.id id (requisitions db));
      cbn [workflows set_requisitions set_steps];
      destruct (has_row ApprovalWorkflow.id (ApprovalWorkflow.id w) (workflows db));
      cbn [snd steps workflows requisitions applications stageHistory
             set_steps set_requisitions set_workflows];
      rewrite ?map_update_where by reflexivity; auto.
Qed.

(** X14: with unique step ids, a step that is not pending is never changed
    by an approval call: a recorded decision stays as it is, at its place,
    whoever calls and for whichever requisition. *)
Theorem decided_steps_are_final (id approverId : string) (comments : option string)
    (now : Clock.t) (db : Db) :
  List.NoDup (List.map ApprovalStep.id (steps db)) ->
  forall (i : nat) (s : ApprovalStep.t),
    steps db !! i = Some s ->
    ApprovalStep.status s <> StepStatus.pending ->
    steps (snd (approveJobRequisition id approverId comments now db)) !! i = Some s.
Proof.
  intros Hnd i s Hs Hdone.
  destruct (approve_steps_after id approverId comments now db)
    as [H|[w [s0 [l [_ [_ [[Hin0 [_ Hpend]] H]]]]]]]; rewrite H; [exact Hs|].
  unfold update_where. change (List.map ?f ?l) with (f <$> l).
  rewrite list_lookup_fmap, Hs. cbn.
  destruct (String.eqb_spec (ApprovalStep.id s) (ApprovalStep.id s0)) as [Hk|Hk];
    [|reflexivity].
  exfalso. apply Hdone.
  assert (Hin : In s (steps db)).
  { apply list_elem_of_In. eapply list_elem_of_lookup_2. exact Hs. }
  rewrite (key_injective ApprovalStep.id _ s s0 Hnd Hin Hin0 Hk). exact Hpend.
Qed.

(** *** Stage updates *)

(** X15: a stage update for an application id that is in no row throws and
    writes nothing: in particular no history record is created. *)
Theorem stage_update_missing_application (data : UpdateApplicationStage.t)
    (updatedById : string) (now : Z) (db : Db) :
  (forall a, In a (applications db) ->
             Application.id a <> UpdateApplicationStage.applicationId data) ->
  updateApplicationStage data updatedById now db
  = (Threw (RecordNotFound "Application"), db).
Proof.
  intros Hno.
  unfold updateApplicationStage, mbind, svc_bind, bind, application_update.
  destruct (List.find _ (applications db)) as [a|] eqn:E; [|reflexivity].
  apply find_some in E. destruct E as [Hin Heq]. apply String.eqb_eq in Heq.
  exfalso. exact (Hno a Hin Heq).
Qed.

Lemma stage_update_cases (data : UpdateApplicationStage.t) (updatedById : string)
    (now : Z) (db : Db) :
  snd (updateApplicationStage data updatedById now db) = db
  \/ ((exists a, In a (applications db)
                 /\ Application.id a = UpdateApplicationStage.applicationId data)
      /\ exists h,
           ApplicationStageHistory.applicationId h
           = UpdateApplicationStage.applicationId data
           /\ ApplicationStageHistory.stage h = UpdateApplicationStage.stage data
           /\ snd (updateApplicationStage data updatedById now db)
              = {| requisitions := requisitions db;
                   workflows := workflows db;
                   steps := steps db;
                   applications :=
                     update_where Application.id
                       (UpdateApplicationStage.applicationId data)
                       (set_stage (UpdateApplicationStage.stage data) updatedById now)
                       (applications db);
                   stageHistory := (stageHistory db ++ [h])%list |}).
Proof.
  unfold updateApplicationStage, mbind, svc_bind, bind, application_update,
    applicationStageHistory_create, modify, ret.
  destruct (List.find _ (applications db)) as [a|] eqn:E; [|left; reflexivity].
  right. apply find_some in E. destruct E as [Hin Heq]. apply String.eqb_eq in Heq.
  split; [eauto|]. eexists. split; [|split; [|reflexivity]]; reflexivity.
Qed.

Lemma latestStage_snoc (db db' : Db) (h : ApplicationStageHistory.t) (x : string) :
  stageHistory db' = (stageHistory db ++ [h])%list ->
  latestStage db' x
  = if String.eqb (ApplicationStageHistory.applicationId h) x
    then Some (ApplicationStageHistory.stage h)
    else latestStage db x.
Proof.
  intros Hh. unfold latestStage. rewrite Hh, List.filter_app. cbn [List.filter].
  destruct (String.eqb (ApplicationStageHistory.applicationId h) x).
  - rewrite List.map_app. cbn [List.map]. rewrite List.last_last. reflexivity.
  - rewrite List.app_nil_r. reflexivity.
Qed.

(** X16: stage updates keep current stage and history in step. If every
    application that has history is at the stage of its latest record, this
    still holds after a stage update, whatever its outcome; and after an
    update of an existing application the latest record of that application
    carries the stage just given. *)
Theorem stage_update_keeps_history_in_step (data : UpdateApplicationStage.t)
    (updatedById : string) (now : Z) (db : Db) :
  stageMatchesHistory db ->
  let db' := snd (updateApplicationStage data updatedById now db) in
  stageMatchesHistory db'
  /\ (forall a, In a (applications db) ->
                Application.id a = UpdateApplicationStage.applicationId data ->
                latestStage db' (UpdateApplicationStage.applicationId data)
                = Some (UpdateApplicationStage.stage data)).
Proof.
  intros Hinv. cbv zeta.
  destruct (stage_update_cases data updatedById now db)
    as [H|[_ [h [Hh [Hst H]]]]]; rewrite H.
  - split; [exact Hinv|]. intros a Hin Hid. exfalso.
    unfold updateApplicationStage, mbind, svc_bind, bind, application_update in H.
    destruct (List.find _ (applications db)) as [a0|] eqn:E.
    + cbn in H. apply (f_equal stageHistory) in H. cbn [stageHistory] in H.
      apply (f_equal (@List.length _)) in H. rewrite List.length_app in H.
      cbn in H. lia.
    + apply (find_none _ _ E) in Hin. rewrite Hid, String.eqb_refl in Hin.
      discriminate.
  - set (db' := {| requisitions := requisitions db; workflows := workflows db;
                   steps := steps db;
                   applications := update_where Application.id
                       (UpdateApplicationStage.applicationId data)
                       (set_stage (UpdateApplicationStage.stage data) updatedById now)
                       (applications db);
                   stageHistory := (stageHistory db ++ [h])%list |}).
    assert (Hlatest : forall x,
               latestStage db' x
               = if String.eqb (UpdateApplicationStage.applicationId data) x
                 then Some (UpdateApplicationStage.stage data)
                 else latestStage db x).
    { intros x. rewrite (latestStage_snoc db db' h x eq_refl), Hh, Hst. reflexivity. }
    split.
    + intros a st Hin Hl. cbn [applications db'] in Hin.
      unfold update_where in Hin. apply in_map_iff in Hin.
      destruct Hin as [y [Hy Hyin]]. rewrite Hlatest in Hl.
      destruct (String.eqb_spec (Application.id y)
                  (UpdateApplicationStage.applicationId data)) as [Hk|Hk]; subst a.
      * cbn [set_stage Application.id Application.stage] in *.
        rewrite Hk, String.eqb_refl in Hl. congruence.
      * destruct (String.eqb_spec (UpdateApplicationStage.applicationId data)
                    (Application.id y)) as [Hk'|_]; [congruence|].
        exact (Hinv y st Hyin Hl).
    + intros a _ _. rewrite Hlatest, String.eqb_refl. reflexivity.
Qed.

(** *** One accepted approval, as a step of a run *)

Lemma approve_current (db : Db) (id : string) (comments : option string) (now : Clock.t)
    (w : ApprovalWorkflow.t) (s : ApprovalStep.t) (r : JobRequisition.t) :
  List.NoDup (List.map ApprovalStep.id (steps db)) ->
  active_workflow_of db id w ->
  current_step db (ApprovalWorkflow.id w) s ->
  In r (requisitions db) -> JobRequisition.id r = id ->
  let a := ApprovalStep.approverId s in
  let db1 := recorded now comments s db in
  approveJobRequisition id a comments now db
  = match pendingStepsAbove (ApprovalWorkflow.id w) (ApprovalStep.level s) db with
    | [] => (Returned (getJobRequisitionById id (closed id a now w db1)),
             closed id a now w db1)
    | _ :: _ => (Returned (getJobRequisitionById id db1), db1)
    end.
Proof.
  intros Hnd Hwf Hcur Hr Hrid a db1.
  set (wid := ApprovalWorkflow.id w) in *.
  pose proof Hcur as [[Hs _] _].
  pose proof (current_step_included db wid s Hcur) as Hhead.
  pose proof (findActiveWorkflow_of db id w Hwf) as Hfind.
  fold wid in Hfind. rewrite firstn_1_head, Hhead in Hfind.
  rewrite (approve_accepted_shape id a comments now db w s [] Hfind eq_refl Hs).
  cbv zeta. fold db1. unfold findNextStep. fold wid. unfold db1.
  rewrite (pendingStepsAbove_recorded db wid now comments s Hnd Hs).
  destruct (pendingStepsAbove wid (ApprovalStep.level s) db) as [|x rest] eqn:E.
  - cbn [orderBy_level_asc List.fold_right List.head].
    unfold all2, jobRequisition_update, approvalWorkflow_update.
    assert (Hrow : has_row JobRequisition.id id
                     (requisitions (recorded now comments s db)) = true).
    { rewrite <- Hrid. apply (has_row_In JobRequisition.id). exact Hr. }
    rewrite Hrow. cbn [workflows set_requisitions].
    assert (Hwrow : has_row ApprovalWorkflow.id wid
                      (workflows (recorded now comments s db)) = true).
    { apply (has_row_In ApprovalWorkflow.id). destruct Hwf as [Hin _]. exact Hin. }
    rewrite Hwrow. reflexivity.
  - destruct (List.head (orderBy_level_asc (x :: rest))) as [n|] eqn:En;
      [reflexivity|].
    apply head_orderBy_none in En. discriminate.
Qed.

Lemma NoDup_map_injective {A B} (f : A -> B) (l : list A) (x y : A) :
  List.NoDup (List.map f l) -> In x l -> In y l -> f x = f y -> x = y.
Proof.
  induction l as [|a r IH]; intros Hnd Hx Hy Hk; [destruct Hx|].
  simpl in Hnd. inversion Hnd as [|? ? Hnotin Hnd']; subst.
  destruct Hx as [->|Hx], Hy as [->|Hy]; auto.
  - exfalso. apply Hnotin. rewrite Hk. apply in_map. exact Hy.
  - exfalso. apply Hnotin. rewrite <- Hk. apply in_map. exact Hx.
Qed.

Lemma NoDup_map_filter {A B} (f : A -> B) (p : A -> bool) (l : list A) :
  List.NoDup (List.map f l) -> List.NoDup (List.map f (List.filter p l)).
Proof.
  induction l as [|a r IH]; intros Hnd; [exact Hnd|].
  simpl in Hnd. inversion Hnd as [|? ? Hnotin Hnd']; subst.
  cbn [List.filter]. destruct (p a); [|auto].
  cbn [List.map]. constructor; [|auto].
  intros Hin. apply Hnotin. apply in_map_iff in Hin. destruct Hin as [x [Hx Hxin]].
  apply filter_In in Hxin. destruct Hxin as [Hxin _].
  rewrite <- Hx. apply in_map. exact Hxin.
Qed.

Lemma pendingStepsAbove_filter (wid : string) (lvl : Z) (db : Db) :
  pendingStepsAbove wid lvl db
  = List.filter (fun x => (lvl <? ApprovalStep.level x)%Z) (pendingStepsOf wid db).
Proof.
  unfold pendingStepsAbove, pendingStepsOf.
  induction (steps db) as [|a r IH]; [reflexivity|].
  cbn [List.filter].
  destruct (String.eqb (ApprovalStep.workflowId a) wid), (is_pending a),
           (lvl <? ApprovalStep.level a)%Z eqn:E;
    cbn [andb List.filter]; rewrite ?E; rewrite IH; reflexivity.
Qed.

(** Taking the lowest level out of distinct levels leaves one element less. *)
Lemma length_above_lowest (l : list ApprovalStep.t) (s : ApprovalStep.t) :
  In s l ->
  List.NoDup (List.map ApprovalStep.level l) ->
  below_all s l ->
  S (List.length (List.filter (fun x => (ApprovalStep.level s <? ApprovalStep.level x)%Z) l))
  = List.length l.
Proof.
  induction l as [|a r IH]; intros Hin Hnd Hlow; [destruct Hin|].
  simpl in Hnd. inversion Hnd as [|? ? Hnotin Hnd']; subst.
  cbn [List.filter List.length].
  destruct (Z.ltb_spec (ApprovalStep.level s) (ApprovalStep.level a)) as [Hlt|Hge].
  - cbn [List.length]. f_equal. apply IH; auto.
    + destruct Hin as [->|Hin]; [lia|exact Hin].
    + intros x Hx. apply Hlow. right. exact Hx.
  - assert (Hsa : ApprovalStep.level a = ApprovalStep.level s).
    { pose proof (Hlow a (or_introl eq_refl)). lia. }
    f_equal.
    assert (Hall : forall x, In x r ->
                     (ApprovalStep.level s <? ApprovalStep.level x)%Z = true).
    { intros x Hx. apply Z.ltb_lt.
      pose proof (Hlow x (or_intror Hx)).
      assert (ApprovalStep.level x <> ApprovalStep.level a).
      { intros Heq. apply Hnotin. rewrite <- Heq. apply in_map. exact Hx. }
      lia. }
    clear -Hall. induction r as [|b r IH]; [reflexivity|].
    cbn [List.filter]. rewrite (Hall b (or_introl eq_refl)). cbn [List.length].
    f_equal. apply IH. intros x Hx. apply Hall. right. exact Hx.
Qed.

(** With distinct levels, the pending step the query includes is the single
    lowest one. *)
Lemma included_step_current (db : Db) (wid : string) (s : ApprovalStep.t) :
  List.NoDup (List.map ApprovalStep.level (pendingStepsOf wid db)) ->
  List.head (orderBy_level_asc (pendingStepsOf wid db)) = Some s ->
  current_step db wid s.
Proof.
  intros Hnd Hhead. destruct (included_step_lowest db wid s Hhead) as [Hs Hmin].
  split; [exact Hs|]. intros t Ht Hne.
  pose proof (Hmin t Ht) as Hle.
  assert (ApprovalStep.level s <> ApprovalStep.level t); [|lia].
  intros Heq. apply Hne. symmetry.
  apply (NoDup_map_injective ApprovalStep.level (pendingStepsOf wid db)); auto;
    apply in_pendingStepsOf; assumption.
Qed.

Lemma approve_in_turn_step (db : Db) (id : string) (comments : option string)
    (now : Clock.t) (w : ApprovalWorkflow.t) (r : JobRequisition.t) (m : nat) :
  List.NoDup (List.map ApprovalStep.id (steps db)) ->
  active_workflow_of db id w ->
  In r (requisitions db) -> JobRequisition.id r = id ->
  List.NoDup (List.map ApprovalStep.level (pendingStepsOf (ApprovalWorkflow.id w) db)) ->
  List.length (pendingStepsOf (ApprovalWorkflow.id w) db) = S m ->
  exists a,
    currentApprover id db = Some a
    /\ let db1 := snd (approveJobRequisition id a comments now db) in
       match m with
       | O =>
           no_active_workflow db1 id
           /\ (exists w', In w' (workflows db1)
                          /\ completed_as w' w (Clock.completedAt now))
           /\ (exists r', In r' (requisitions db1)
                          /\ approved_as r' r (Clock.approvedAt now) a)
           /\ pendingStepsOf (ApprovalWorkflow.id w) db1 = []
       | S _ =>
           List.NoDup (List.map ApprovalStep.id (steps db1))
           /\ active_workflow_of db1 id w
           /\ requisitions db1 = requisitions db
           /\ List.NoDup (List.map ApprovalStep.level
                            (pendingStepsOf (ApprovalWorkflow.id w) db1))
           /\ List.length (pendingStepsOf (ApprovalWorkflow.id w) db1) = m
       end.
Proof.
  intros Hnd Hwf Hr Hrid Hlv Hlen.
  set (wid := ApprovalWorkflow.id w) in *.
  destruct (List.head (orderBy_level_asc (pendingStepsOf wid db))) as [s|] eqn:Hhead.
  2: { apply head_orderBy_none in Hhead. rewrite Hhead in Hlen. discriminate. }
  pose proof (included_step_current db wid s Hlv Hhead) as Hcur.
  pose proof (included_step_lowest db wid s Hhead) as [Hsp Hmin].
  pose proof Hsp as [Hs _].
  exists (ApprovalStep.approverId s). split.
  { unfold currentApprover. rewrite (findActiveWorkflow_of db id w Hwf).
    fold wid. rewrite firstn_1_head, Hhead. reflexivity. }
  cbv zeta.
  rewrite (approve_current db id comments now w s r Hnd Hwf Hcur Hr Hrid).
  cbv zeta. fold wid.
  assert (Habove : S (List.length (pendingStepsAbove wid (ApprovalStep.level s) db))
                   = S m).
  { rewrite pendingStepsAbove_filter, <- Hlen. apply length_above_lowest; auto.
    - apply in_pendingStepsOf. exact Hsp.
    - intros x Hx. apply Hmin. apply in_pendingStepsOf. exact Hx. }
  injection Habove as Habove.
  pose proof (pendingStepsOf_recorded db wid now comments s Hnd Hcur) as Hrec.
  destruct (pendingStepsAbove wid (ApprovalStep.level s) db) as [|x rest] eqn:E;
    cbn [snd].
  - cbn [List.length] in Habove. subst m.
    destruct (closed_no_active db id (ApprovalStep.approverId s) now w
                (recorded now comments s db) eq_refl Hwf) as [_ Hnoact].
    destruct (closed_rows (recorded now comments s db) id (ApprovalStep.approverId s)
                now w r) as [Hw' [Hr' _]].
    { destruct Hwf as [Hin _]. exact Hin. }
    { exact Hr. }
    { exact Hrid. }
    split; [exact Hnoact|]. split; [exact Hw'|]. split; [exact Hr'|exact Hrec].
  - cbn [List.length] in Habove. subst m.
    split; [|split; [exact Hwf|split; [reflexivity|split]]].
    + unfold recorded. cbn [steps set_steps].
      rewrite map_update_where by reflexivity. exact Hnd.
    + rewrite Hrec. rewrite <- E, pendingStepsAbove_filter.
      apply NoDup_map_filter. exact Hlv.
    + rewrite Hrec. reflexivity.
Qed.

(** X17: a workflow with N pending steps of distinct levels is completed by
    exactly N approvals made in turn. While fewer than N have been made the
    workflow is still the requisition's active one, with one pending step
    less per approval, and the requisitions are untouched; the N-th stores
    the workflow with status [completed] and the requisition with status
    [approved] and the approver whose turn it was, each with the time that
    call read, no pending step is left, and every further approval call is
    refused. *)
Theorem approvals_in_turn_complete (N : nat) (db : Db) (id : string)
    (comments : option string) (now : nat -> Clock.t)
    (w : ApprovalWorkflow.t) (r : JobRequisition.t) :
  List.NoDup (List.map ApprovalStep.id (steps db)) ->
  active_workflow_of db id w ->
  In r (requisitions db) -> JobRequisition.id r = id ->
  List.NoDup (List.map ApprovalStep.level (pendingStepsOf (ApprovalWorkflow.id w) db)) ->
  List.length (pendingStepsOf (ApprovalWorkflow.id w) db) = S N ->
  (forall k, (k <= N)%nat ->
     let dbk := approveInTurn k id comments now db in
     active_workflow_of dbk id w
     /\ List.length (pendingStepsOf (ApprovalWorkflow.id w) dbk) = (S N - k)%nat
     /\ requisitions dbk = requisitions db)
  /\ (let dbN := approveInTurn (S N) id comments now db in
      no_active_workflow dbN id
      /\ (exists w', In w' (workflows dbN)
                     /\ completed_as w' w (Clock.completedAt (now N)))
      /\ (exists r' a,
            currentApprover id (approveInTurn N id comments now db) = Some a
            /\ In r' (requisitions dbN)
            /\ approved_as r' r (Clock.approvedAt (now N)) a)
      /\ pendingStepsOf (ApprovalWorkflow.id w) dbN = []
      /\ forall a c t,
           approveJobRequisition id a c t dbN = (Threw NOT_AUTHORIZED, dbN)).
Proof.
  revert db now. induction N as [|N IH]; intros db now Hnd Hwf Hr Hrid Hlv Hlen.
  - destruct (approve_in_turn_step db id comments (now O) w r 0
                Hnd Hwf Hr Hrid Hlv Hlen) as [a [Ha Hstep]].
    cbv zeta in Hstep.
    split.
    + intros k Hk. assert (k = 0)%nat by lia. subst k. cbn [approveInTurn].
      split; [exact Hwf|]. split; [rewrite Hlen; reflexivity|reflexivity].
    + cbn [approveInTurn]. rewrite Ha. cbv zeta.
      destruct Hstep as [Hno [Hdone [[r' Happ] Hnil]]].
      split; [exact Hno|]. split; [exact Hdone|].
      split; [exists r', a; split; [first [exact Ha|reflexivity]|exact Happ]|].
      split; [exact Hnil|].
      intros a' c t. apply approve_refused_shape. intros w' s' l' E.
      apply findActiveWorkflow_none in Hno. congruence.
  - destruct (approve_in_turn_step db id comments (now O) w r (S N)
                Hnd Hwf Hr Hrid Hlv Hlen) as [a [Ha Hstep]].
    cbv zeta in Hstep.
    destruct Hstep as [Hnd1 [Hwf1 [Hreq1 [Hlv1 Hlen1]]]].
    set (db1 := snd (approveJobRequisition id a comments (now O) db)) in *.
    assert (Hr1 : In r (requisitions db1)) by (rewrite Hreq1; exact Hr).
    destruct (IH db1 (fun i => now (S i)) Hnd1 Hwf1 Hr1 Hrid Hlv1 Hlen1) as [IHk IHN].
    split.
    + intros k Hk. destruct k as [|k].
      * cbn [approveInTurn]. split; [exact Hwf|].
        split; [rewrite Hlen; reflexivity|reflexivity].
      * cbn [approveInTurn]. rewrite Ha. fold db1.
        destruct (IHk k ltac:(lia)) as [H1 [H2 H3]]. cbv zeta.
        split; [exact H1|]. split; [rewrite H2; lia|]. rewrite H3. exact Hreq1.
    + change (approveInTurn (S (S N)) id comments now db)
        with (match currentApprover id db with
              | Some a0 => approveInTurn (S N) id comments (fun i => now (S i))
                             (snd (approveJobRequisition id a0 comments (now O) db))
              | None => db end).
      change (approveInTurn (S N) id comments now db)
        with (match currentApprover id db with
              | Some a0 => approveInTurn N id comments (fun i => now (S i))
                             (snd (approveJobRequisition id a0 comments (now O) db))
              | None => db end).
      rewrite Ha. fold db1. exact IHN.
Qed.

(** *** Creating workflows *)

Lemma NoDup_snoc {A} (l : list A) (x : A) :
  List.NoDup l -> ~ In x l -> List.NoDup (l ++ [x]).
Proof.
  induction l as [|a r IH]; intros Hnd Hx.
  - constructor; [intros []|constructor].
  - inversion Hnd as [|? ? Hnotin Hnd']; subst. cbn. constructor.
    + intros Hin. apply in_app_or in Hin. destruct Hin as [Hin|[<-|[]]].
      * exact (Hnotin Hin).
      * apply Hx. left. reflexivity.
    + apply IH; [exact Hnd'|]. intros Hin. apply Hx. right. exact Hin.
Qed.

(** X18: once [createRequisitionApprovalWorkflow] has run for an existing
    requisition that had no active workflow (the ids given to the two new
    rows being fresh), the manager's approval returns, stores the
    requisition with status [approved], the time and the manager, and
    leaves it without active workflow; an approval by
    anybody else is refused and changes nothing. *)
Theorem manager_approves_new_workflow (workflowId stepId requisitionId managerId : string)
    (db : Db) (r : JobRequisition.t) :
  List.NoDup (List.map ApprovalStep.id (steps db)) ->
  ~ In stepId (List.map ApprovalStep.id (steps db)) ->
  (forall s, In s (steps db) -> ApprovalStep.workflowId s <> workflowId) ->
  no_active_workflow db requisitionId ->
  In r (requisitions db) -> JobRequisition.id r = requisitionId ->
  let db1 := snd (createRequisitionApprovalWorkflow workflowId stepId
                    requisitionId managerId db) in
  (forall comments now,
     exists db2,
       approveJobRequisition requisitionId managerId comments now db1
       = (Returned (getJobRequisitionById requisitionId db2), db2)
       /\ (exists r', In r' (requisitions db2)
                      /\ approved_as r' r (Clock.approvedAt now) managerId)
       /\ no_active_workflow db2 requisitionId)
  /\ (forall other comments now,
        other <> managerId ->
        approveJobRequisition requisitionId other comments now db1
        = (Threw NOT_AUTHORIZED, db1)).
Proof.
  intros Hnd Hfresh Hwfresh Hnoact Hr Hrid.
  set (wnew := {| ApprovalWorkflow.id := workflowId;
                  ApprovalWorkflow.jobRequisitionId := Some requisitionId;
                  ApprovalWorkflow.offerId := None;
                  ApprovalWorkflow.status := WorkflowStatus.active;
                  ApprovalWorkflow.completedAt := None |}).
  set (st := {| ApprovalStep.id := stepId;
                ApprovalStep.workflowId := workflowId;
                ApprovalStep.approverId := managerId;
                ApprovalStep.level := 1;
                ApprovalStep.status := StepStatus.pending;
                ApprovalStep.actionDate := None;
                ApprovalStep.comments := None;
                ApprovalStep.required := true |}).
  set (db1 := set_steps (steps db ++ [st])%list
                (set_workflows (workflows db ++ [wnew])%list db)).
  change (snd (createRequisitionApprovalWorkflow workflowId stepId
                 requisitionId managerId db)) with db1.
  cbv zeta.
  assert (Hnd1 : List.NoDup (List.map ApprovalStep.id (steps db1))).
  { cbn [steps db1 set_steps]. rewrite List.map_app. cbn [List.map].
    apply NoDup_snoc; assumption. }
  assert (Hwf1 : active_workflow_of db1 requisitionId wnew).
  { split; [cbn [workflows db1 set_steps set_workflows]; apply in_or_app; right;
            left; reflexivity|].
    split; [reflexivity|]. split; [reflexivity|].
    intros w' Hw' Hj Ha. cbn [workflows db1 set_steps set_workflows] in Hw'.
    apply in_app_or in Hw'. destruct Hw' as [Hold|[<-|[]]]; [|reflexivity].
    exfalso. exact (Hnoact w' Hold Hj Ha). }
  assert (Hin_st : In st (steps db1)).
  { cbn [steps db1 set_steps]. apply in_or_app. right. left. reflexivity. }
  assert (Honly : forall t, pending_of db1 workflowId t -> t = st).
  { intros t [Ht [Hw _]]. cbn [steps db1 set_steps] in Ht.
    apply in_app_or in Ht. destruct Ht as [Hold|[<-|[]]]; [|reflexivity].
    exfalso. exact (Hwfresh t Hold Hw). }
  assert (Hcur : current_step db1 (ApprovalWorkflow.id wnew) st).
  { split; [split; [exact Hin_st|split; reflexivity]|].
    intros t Ht Hne. exfalso. apply Hne. apply Honly. exact Ht. }
  assert (Habove : pendingStepsAbove (ApprovalWorkflow.id wnew) (ApprovalStep.level st) db1
                   = []).
  { destruct (pendingStepsAbove _ _ db1) as [|x rest] eqn:E; [reflexivity|].
    assert (Hx : In x (pendingStepsAbove (ApprovalWorkflow.id wnew)
                         (ApprovalStep.level st) db1)) by (rewrite E; left; reflexivity).
    apply in_pendingStepsAbove in Hx. destruct Hx as [Hp Hl].
    rewrite (Honly x Hp) in Hl. cbn in Hl. lia. }
  assert (Hr1 : In r (requisitions db1)) by exact Hr.
  split.
  - intros comments now.
    pose proof (approve_current db1 requisitionId comments now wnew st r
                  Hnd1 Hwf1 Hcur Hr1 Hrid) as Hrun.
    cbv zeta in Hrun. rewrite Habove in Hrun.
    change (ApprovalStep.approverId st) with managerId in Hrun.
    eexists. split; [exact Hrun|].
    destruct (closed_no_active db1 requisitionId managerId now wnew
                (recorded now comments st db1) eq_refl Hwf1) as [_ Hno].
    split; [|exact Hno].
    destruct (closed_rows (recorded now comments st db1) requisitionId managerId
                now wnew r) as [_ [Hr' _]].
    { destruct Hwf1 as [Hin _]. exact Hin. }
    { exact Hr1. }
    { exact Hrid. }
    exact Hr'.
  - intros other comments now Hother. apply approve_refused_shape.
    intros w' s' l' E.
    rewrite (findActiveWorkflow_of db1 requisitionId wnew Hwf1) in E.
    rewrite firstn_1_head, (current_step_included db1 _ st Hcur) in E.
    inversion E; subst. cbn. congruence.
Qed.

Lemma find_append {A} (p : A -> bool) (l k : list A) :
  List.find p (l ++ k)
  = match List.find p l with Some x => Some x | None => List.find p k end.
Proof.
  induction l as [|a r IH]; [reflexivity|]. cbn. destruct (p a); auto.
Qed.

Lemma offerSteps_shape (stepId : nat -> string) (wid : string) (i : nat)
    (approverIds : list string) :
  List.map ApprovalStep.approverId (offerSteps stepId wid i approverIds) = approverIds
  /\ List.map ApprovalStep.level (offerSteps stepId wid i approverIds)
     = List.map (fun k => Z.of_nat k + 1)%Z (List.seq i (List.length approverIds))
  /\ List.filter (fun s => String.eqb (ApprovalStep.workflowId s) wid)
                 (offerSteps stepId wid i approverIds)
     = offerSteps stepId wid i approverIds
  /\ (forall s, In s (offerSteps stepId wid i approverIds) ->
                ApprovalStep.workflowId s = wid
                /\ ApprovalStep.status s = StepStatus.pending).
Proof.
  revert i. induction approverIds as [|a rest IH]; intros i.
  - repeat split; destruct H.
  - destruct (IH (S i)) as [H1 [H2 [H3 H4]]].
    cbn [offerSteps List.map List.length List.seq List.filter ApprovalStep.approverId
           ApprovalStep.level ApprovalStep.workflowId].
    rewrite H1, H2, String.eqb_refl, H3.
    repeat split; try reflexivity.
    + destruct H as [<-|H]; [reflexivity|]. apply H4. exact H.
    + destruct H as [<-|H]; [reflexivity|]. apply H4. exact H.
Qed.

(** X19: [createOfferApprovalWorkflow] with a fresh workflow id gives the
    workflow exactly one pending step per approver, in the order of the
    approver list, at levels 1, 2, ..., n; and no requisition approval ever
    sees it: [findActiveWorkflow] answers as before for every
    requisition. *)
Theorem offer_workflow_levels (workflowId : string) (stepId : nat -> string)
    (offerId : string) (approverIds : list string) (db : Db) :
  (forall s, In s (steps db) -> ApprovalStep.workflowId s <> workflowId) ->
  (forall w, In w (workflows db) -> ApprovalWorkflow.id w <> workflowId) ->
  let db' := snd (createOfferApprovalWorkflow workflowId stepId offerId approverIds db) in
  List.map ApprovalStep.approverId (steps_of db' workflowId) = approverIds
  /\ List.map ApprovalStep.level (steps_of db' workflowId)
     = List.map (fun k => Z.of_nat k + 1)%Z (List.seq 0 (List.length approverIds))
  /\ (forall s, In s (steps_of db' workflowId) ->
                ApprovalStep.status s = StepStatus.pending)
  /\ (forall id, findActiveWorkflow id db' = findActiveWorkflow id db).
Proof.
  intros Hsfresh Hwfresh.
  set (new := offerSteps stepId workflowId 0 approverIds).
  set (wnew := {| ApprovalWorkflow.id := workflowId;
                  ApprovalWorkflow.jobRequisitionId := None;
                  ApprovalWorkflow.offerId := Some offerId;
                  ApprovalWorkflow.status := WorkflowStatus.active;
                  ApprovalWorkflow.completedAt := None |}).
  change (snd (createOfferApprovalWorkflow workflowId stepId offerId approverIds db))
    with (set_steps (steps db ++ new)%list
            (set_workflows (workflows db ++ [wnew])%list db)).
  cbv zeta.
  destruct (offerSteps_shape stepId workflowId 0 approverIds) as [H1 [H2 [H3 H4]]].
  fold new in H1, H2, H3, H4.
  assert (Hold : forall wid, wid <> workflowId ->
            forall p, List.filter (fun s => String.eqb (ApprovalStep.workflowId s) wid && p s)
                        new = []).
  { intros wid Hwid p. clear -H4 Hwid. induction new as [|x rest IH]; [reflexivity|].
    cbn [List.filter]. destruct (H4 x (or_introl eq_refl)) as [Hx _].
    destruct (String.eqb_spec (ApprovalStep.workflowId x) wid) as [He|_];
      [congruence|]. cbn [andb]. apply IH. intros s Hs. apply H4. right. exact Hs. }
  assert (Hsteps : steps_of (set_steps (steps db ++ new)%list
                               (set_workflows (workflows db ++ [wnew])%list db))
                     workflowId = new).
  { unfold steps_of. cbn [steps set_steps]. rewrite List.filter_app, H3.
    assert (Hnil : List.filter (fun s => String.eqb (ApprovalStep.workflowId s) workflowId)
                     (steps db) = []).
    { clear -Hsfresh. induction (steps db) as [|x rest IH]; [reflexivity|].
      cbn [List.filter].
      destruct (String.eqb_spec (ApprovalStep.workflowId x) workflowId) as [He|_].
      - exfalso. exact (Hsfresh x (or_introl eq_refl) He).
      - apply IH. intros s Hs. apply Hsfresh. right. exact Hs. }
    rewrite Hnil. reflexivity. }
  rewrite Hsteps.
  split; [exact H1|]. split; [exact H2|]. split; [intros s Hs; apply H4; exact Hs|].
  intros id. unfold findActiveWorkflow. cbn [workflows set_steps set_workflows].
  rewrite find_append. cbn [List.find opt_is ApprovalWorkflow.jobRequisitionId wnew andb].
  destruct (List.find _ (workflows db)) as [w|] eqn:E; [|reflexivity].
  apply find_some in E. destruct E as [Hin _].
  f_equal. f_equal. f_equal. f_equal.
  unfold pendingStepsOf. cbn [steps set_steps]. rewrite List.filter_app.
  rewrite (Hold (ApprovalWorkflow.id w) (Hwfresh w Hin) is_pending).
  apply List.app_nil_r.
Qed.

(** *** Instances on the sample tables *)

Lemma decided_steps_are_final_witness :
  let db := sampleDb WorkflowStatus.active StepStatus.approved StepStatus.pending in
  List.NoDup (List.map ApprovalStep.id (steps db))
  /\ steps db !! 1%nat = Some (sampleStep "step-1" "A" 1 StepStatus.approved)
  /\ steps (snd (approveJobRequisition "req-1" "B" None (sampleClock 2000) db)) !! 1%nat
     = Some (sampleStep "step-1" "A" 1 StepStatus.approved).
Proof.
  intros db.
  assert (Hnd : List.NoDup (List.map ApprovalStep.id (steps db)))
    by apply sample_step_ids.
  split; [exact Hnd|]. split; [reflexivity|].
  apply (decided_steps_are_final "req-1" "B" None (sampleClock 2000) db Hnd 1%nat);
    [reflexivity|].
  discriminate.
Defined.

Lemma stage_update_missing_application_witness :
  let db := sampleDb WorkflowStatus.active StepStatus.pending StepStatus.pending in
  let data := {| UpdateApplicationStage.applicationId := "app-9";
                 UpdateApplicationStage.stage := Stage.screening;
                 UpdateApplicationStage.notes := None;
                 UpdateApplicationStage.rejectionReason := None;
                 UpdateApplicationStage.feedback := None |} in
  (forall a, In a (applications db) -> Application.id a <> "app-9")
  /\ updateApplicationStage data "user-7" 5000 db
     = (Threw (RecordNotFound "Application"), db).
Proof.
  intros db data.
  assert (H : forall a, In a (applications db) ->
                        Application.id a <> UpdateApplicationStage.applicationId data).
  { intros a [<-|[]]. discriminate. }
  split; [exact H|].
  exact (stage_update_missing_application data "user-7" 5000 db H).
Defined.

Lemma stage_update_keeps_history_in_step_witness :
  let db := sampleDb WorkflowStatus.active StepStatus.pending StepStatus.pending in
  let data := {| UpdateApplicationStage.applicationId := "app-1";
                 UpdateApplicationStage.stage := Stage.screening;
                 UpdateApplicationStage.notes := None;
                 UpdateApplicationStage.rejectionReason := None;
                 UpdateApplicationStage.feedback := None |} in
  stageMatchesHistory db
  /\ stageMatchesHistory (snd (updateApplicationStage data "user-7" 5000 db))
  /\ latestStage (snd (updateApplicationStage data "user-7" 5000 db)) "app-1"
     = Some Stage.screening.
Proof.
  intros db data.
  assert (H : stageMatchesHistory db).
  { intros a st [<-|[]] Hl. vm_compute in Hl. inversion Hl. reflexivity. }
  destruct (stage_update_keeps_history_in_step data "user-7" 5000 db H) as [H1 H2].
  split; [exact H|]. split; [exact H1|].
  apply (H2 (sampleApplication Stage.applied)); [left|]; reflexivity.
Defined.

Lemma approvals_in_turn_complete_witness :
  let db := sampleDb WorkflowStatus.active StepStatus.pending StepStatus.pending in
  let w := sampleWorkflow WorkflowStatus.active in
  let now := fun k : nat => sampleClock (1000 * (Z.of_nat k + 1)) in
  List.length (pendingStepsOf (ApprovalWorkflow.id w) db) = 2%nat
  /\ active_workflow_of (approveInTurn 1 "req-1" None now db) "req-1" w
  /\ no_active_workflow (approveInTurn 2 "req-1" None now db) "req-1"
  /\ (exists r' a,
        In r' (requisitions (approveInTurn 2 "req-1" None now db))
        /\ JobRequisition.status r' = RequisitionStatus.approved
        /\ JobRequisition.approvedAt r' = Some 2001%Z
        /\ JobRequisition.approvedById r' = Some a).
Proof.
  intros db w now.
  assert (H1 : List.NoDup (List.map ApprovalStep.id (steps db)))
    by apply sample_step_ids.
  assert (H2 : active_workflow_of db "req-1" w).
  { split; [left; reflexivity|]. split; [reflexivity|]. split; [reflexivity|].
    intros w' [<-|[]] _ _. reflexivity. }
  assert (H3 : List.NoDup (List.map ApprovalStep.level
                             (pendingStepsOf (ApprovalWorkflow.id w) db))).
  { simpl. constructor; [|constructor; [|constructor]]; simpl; intuition discriminate. }
  destruct (approvals_in_turn_complete 1 db "req-1" None now w sampleRequisition
              H1 H2 (or_introl eq_refl) eq_refl H3 eq_refl) as [Hk HN].
  split; [reflexivity|].
  destruct (Hk 1%nat (le_n 1)) as [Hact _]. split; [exact Hact|].
  cbv zeta in HN. destruct HN as [Hno [_ [[r' [a [_ [Hin Happ]]]] _]]].
  split; [exact Hno|].
  destruct Happ as [_ [_ [Hst [Hat Hby]]]].
  exists r', a. split; [exact Hin|]. split; [exact Hst|]. split; [exact Hat|exact Hby].
Defined.

Lemma manager_approves_new_workflow_witness :
  let db := {| requisitions := [sampleRequisition]; workflows := []; steps := [];
               applications := []; stageHistory := [] |} in
  let db1 := snd (createRequisitionApprovalWorkflow "wf-7" "step-7" "req-1" "M" db) in
  no_active_workflow db "req-1"
  /\ (exists db2,
        approveJobRequisition "req-1" "M" None (sampleClock 1000) db1
        = (Returned (getJobRequisitionById "req-1" db2), db2)
        /\ List.map JobRequisition.status (requisitions db2)
           = [RequisitionStatus.approved]
        /\ List.map JobRequisition.approvedById (requisitions db2) = [Some "M"]
        /\ no_active_workflow db2 "req-1")
  /\ approveJobRequisition "req-1" "X" None (sampleClock 1000) db1
     = (Threw NOT_AUTHORIZED, db1).
Proof.
  intros db db1.
  assert (H1 : List.NoDup (List.map ApprovalStep.id (steps db))) by constructor.
  assert (H2 : ~ In "step-7" (List.map ApprovalStep.id (steps db))) by (intros []).
  assert (H3 : forall s, In s (steps db) -> ApprovalStep.workflowId s <> "wf-7")
    by (intros s []).
  assert (H4 : no_active_workflow db "req-1") by (intros w []).
  destruct (manager_approves_new_workflow "wf-7" "step-7" "req-1" "M" db
              sampleRequisition H1 H2 H3 H4 (or_introl eq_refl) eq_refl) as [Ha Hb].
  split; [exact H4|]. split.
  - destruct (Ha None (sampleClock 1000)) as [db2 [Hrun [_ Hno]]].
    exists db2. split; [exact Hrun|].
    assert (Hdb2 : db2 = snd (approveJobRequisition "req-1" "M" None (sampleClock 1000)
                                db1)) by (unfold db1; rewrite Hrun; reflexivity).
    split; [rewrite Hdb2; reflexivity|]. split; [rewrite Hdb2; reflexivity|exact Hno].
  - apply Hb. discriminate.
Defined.

Lemma offer_workflow_levels_witness :
  let db := sampleDb WorkflowStatus.active StepStatus.pending StepStatus.pending in
  let stepId := fun k : nat => match k with
                               | O => "o-1" | 1%nat => "o-2" | _ => "o-3" end in
  let db' := snd (createOfferApprovalWorkflow "wf-9" stepId "offer-1"
                    ["A"; "B"; "C"] db) in
  (forall s, In s (steps db) -> ApprovalStep.workflowId s <> "wf-9")
  /\ (forall w, In w (workflows db) -> ApprovalWorkflow.id w <> "wf-9")
  /\ List.map ApprovalStep.approverId (steps_of db' "wf-9") = ["A"; "B"; "C"]
  /\ List.map ApprovalStep.level (steps_of db' "wf-9") = [1; 2; 3]%Z
  /\ findActiveWorkflow "req-1" db' = findActiveWorkflow "req-1" db.
Proof.
  intros db stepId db'.
  assert (H1 : forall s, In s (steps db) -> ApprovalStep.workflowId s <> "wf-9").
  { intros s [<-|[<-|[]]]; discriminate. }
  assert (H2 : forall w, In w (workflows db) -> ApprovalWorkflow.id w <> "wf-9").
  { intros w [<-|[]]. discriminate. }
  destruct (offer_workflow_levels "wf-9" stepId "offer-1" ["A"; "B"; "C"] db H1 H2)
    as [Ha [Hl [_ Hf]]].
  split; [exact H1|]. split; [exact H2|]. split; [exact Ha|]. split; [exact Hl|].
  apply Hf.
Defined.

End RecruitmentMoreFacts.

(** ** Slugs and sequence numbers *)

Module TextFacts.
Import Text.

(** *** Character classes *)

Lemma slug_char_in_class (c : ascii) : slug_char c = true -> in_slug_class c = true.
Proof. destruct c as [[] [] [] [] [] [] [] []]; vm_compute; auto. Qed.

Lemma slug_char_not_space (c : ascii) : slug_char c = true -> Leave.is_space c = false.
Proof. destruct c as [[] [] [] [] [] [] [] []]; vm_compute; auto. Qed.

Lemma class_not_space_slug (c : ascii) :
  in_slug_class c = true -> Leave.is_space c = false -> slug_char c = true.
Proof. destruct c as [[] [] [] [] [] [] [] []]; vm_compute; auto. Qed.

Lemma hyphen_is_hyphen (c : ascii) : is_hyphen c = true -> c = "-"%char.
Proof. destruct c as [[] [] [] [] [] [] [] []]; vm_compute; auto; discriminate. Qed.

(** *** The three replacements *)

Lemma remove_others_class (s : string) : all_chars in_slug_class (remove_others s) = true.
Proof.
  induction s as [|c t IH]; [reflexivity|]. cbn [remove_others].
  destruct (in_slug_class c) eqn:E; [|exact IH]. cbn [all_chars]. rewrite E, IH. reflexivity.
Qed.

Lemma spaces_to_hyphen_chars (b : bool) (s : string) :
  all_chars in_slug_class s = true ->
  all_chars slug_char (replace_runs Leave.is_space "-" b s) = true.
Proof.
  revert b. induction s as [|c t IH]; intros b H; [reflexivity|].
  cbn [all_chars] in H. apply andb_true_iff in H. destruct H as [Hc Ht].
  cbn [replace_runs]. destruct (Leave.is_space c) eqn:E.
  - destruct b; [apply IH; exact Ht|]. cbn [all_chars]. rewrite IH by exact Ht. reflexivity.
  - cbn [all_chars]. rewrite (class_not_space_slug c Hc E), IH by exact Ht. reflexivity.
Qed.

Lemma hyphen_runs_chars (b : bool) (s : string) :
  all_chars slug_char s = true ->
  all_chars slug_char (replace_runs is_hyphen "-" b s) = true.
Proof.
  revert b. induction s as [|c t IH]; intros b H; [reflexivity|].
  cbn [all_chars] in H. apply andb_true_iff in H. destruct H as [Hc Ht].
  cbn [replace_runs]. destruct (is_hyphen c).
  - destruct b; [apply IH; exact Ht|]. cbn [all_chars]. rewrite IH by exact Ht. reflexivity.
  - cbn [all_chars]. rewrite Hc, IH by exact Ht. reflexivity.
Qed.

(** After a run, what follows does not start with a character of the
    class; and the result never has two of them side by side. *)
Lemma replace_runs_no_adjacent (p : ascii -> bool) (r : ascii) (b : bool) (s : string) :
  p r = true ->
  no_adjacent p (replace_runs p r b s) = true
  /\ (b = true ->
      match replace_runs p r b s with
      | EmptyString => True
      | String d _ => p d = false
      end).
Proof.
  intros Hr. revert b. induction s as [|c t IH]; intros b; [split; [reflexivity|intros _; exact I]|].
  cbn [replace_runs]. destruct (p c) eqn:E.
  - destruct b.
    + apply IH.
    + destruct (IH true) as [H1 H2]. specialize (H2 eq_refl). split; [|discriminate].
      cbn [no_adjacent]. destruct (replace_runs p r true t) as [|d u]; [reflexivity|].
      rewrite H2, andb_false_r. cbn [negb andb]. exact H1.
  - destruct (IH false) as [H1 _]. split; [|intros _; exact E].
    cbn [no_adjacent]. destruct (replace_runs p r false t) as [|d u]; [reflexivity|].
    rewrite E. cbn [negb andb]. exact H1.
Qed.

Lemma trim_no_space (s : string) :
  all_chars (fun c => negb (Leave.is_space c)) s = true -> trim s = s.
Proof.
  intros H. unfold trim.
  assert (Hs : trimStart s = s).
  { destruct s as [|c t]; [reflexivity|]. cbn [all_chars] in H.
    apply andb_true_iff in H. destruct H as [Hc _]. cbn [trimStart].
    apply negb_true_iff in Hc. rewrite Hc. reflexivity. }
  rewrite Hs. induction s as [|c t IH]; [reflexivity|].
  cbn [all_chars] in H. apply andb_true_iff in H. destruct H as [Hc Ht].
  apply negb_true_iff in Hc. cbn [trimEnd].
  assert (Hst : trimStart t = t).
  { destruct t as [|d u]; [reflexivity|]. cbn [all_chars] in Ht.
    apply andb_true_iff in Ht. destruct Ht as [Hd _]. cbn [trimStart].
    apply negb_true_iff in Hd. rewrite Hd. reflexivity. }
  rewrite (IH Ht Hst). destruct t; [rewrite Hc|]; reflexivity.
Qed.

Lemma all_chars_weaken (p q : ascii -> bool) (s : string) :
  (forall c, p c = true -> q c = true) ->
  all_chars p s = true -> all_chars q s = true.
Proof.
  intros Hpq. induction s as [|c t IH]; [reflexivity|]. cbn [all_chars].
  rewrite !andb_true_iff. intros [Hc Ht]. split; [apply Hpq; exact Hc|apply IH; exact Ht].
Qed.

(** The last character of the text decides the last character of the
    result, unless the whole text is one run that continues an earlier one. *)
Lemma replace_runs_last (p : ascii -> bool) (r : ascii) (b : bool) (s : string)
    (c : ascii) :
  exists u,
    replace_runs p r b (s ++ String c "")
    = (u ++ String (if p c then r else c) "")%string
    \/ (p c = true
        /\ replace_runs p r b (s ++ String c "") = ""%string
        /\ b = true).
Proof.
  revert b. induction s as [|d t IH]; intros b.
  - change ("" ++ String c "")%string with (String c ""). cbn [replace_runs].
    destruct (p c) eqn:E.
    + destruct b; [exists ""%string; right; auto|exists ""%string; left; reflexivity].
    + exists ""%string. left. reflexivity.
  - change (String d t ++ String c "")%string with (String d (t ++ String c "")).
    cbn [replace_runs]. destruct (p d).
    + destruct b.
      * apply IH.
      * destruct (IH true) as [u [Hu|(Hs & Hu & _)]].
        -- exists (String r u). left. rewrite Hu. reflexivity.
        -- exists ""%string. left. rewrite Hu, Hs. reflexivity.
    + destruct (IH false) as [u [Hu|(_ & _ & Hb)]]; [|discriminate].
      exists (String d u). left. rewrite Hu. reflexivity.
Qed.

Section Slug.

Variable toLowerCase : string -> string.

(** The slug before its final [trim]. *)
Lemma untrimmed_chars (title : string) :
  all_chars slug_char
    (replace_runs is_hyphen "-" false
       (replace_runs Leave.is_space "-" false (remove_others (toLowerCase title))))
  = true.
Proof. apply hyphen_runs_chars, spaces_to_hyphen_chars, remove_others_class. Qed.

Lemma generateSlug_untrimmed (title : string) :
  generateSlug toLowerCase title
  = replace_runs is_hyphen "-" false
      (replace_runs Leave.is_space "-" false (remove_others (toLowerCase title))).
Proof.
  unfold generateSlug. apply trim_no_space.
  apply (all_chars_weaken slug_char); [|apply untrimmed_chars].
  intros c Hc. rewrite (slug_char_not_space c Hc). reflexivity.
Qed.

Lemma generateSlug_chars (title : string) :
  all_chars slug_char (generateSlug toLowerCase title) = true.
Proof. rewrite generateSlug_untrimmed. apply untrimmed_chars. Qed.

Lemma generateSlug_no_adjacent (title : string) :
  no_adjacent is_hyphen (generateSlug toLowerCase title) = true.
Proof.
  rewrite generateSlug_untrimmed.
  apply (replace_runs_no_adjacent is_hyphen "-" false). reflexivity.
Qed.

(** X20: whatever the title, a slug is made of lower-case letters, digits
    and hyphens only, and never has two hyphens side by side. *)
Theorem slug_alphabet (title : string) :
  all_chars slug_char (generateSlug toLowerCase title) = true
  /\ no_adjacent is_hyphen (generateSlug toLowerCase title) = true.
Proof.
  rewrite generateSlug_untrimmed. split.
  - apply hyphen_runs_chars, spaces_to_hyphen_chars, remove_others_class.
  - apply (replace_runs_no_adjacent is_hyphen "-" false). reflexivity.
Qed.

(** X21: the final [trim] of [generateSlug] comes too late to remove
    anything: when the characters kept of the lower-cased title begin with a
    space or a hyphen the slug begins with a hyphen, and when they end with
    one it ends with a hyphen. *)
Theorem slug_keeps_outer_hyphens (title : string) (c : ascii) (rest : string) :
  is_blank c || is_hyphen c = true ->
  (remove_others (toLowerCase title) = String c rest ->
   exists rest', generateSlug toLowerCase title = String "-" rest')
  /\ (remove_others (toLowerCase title) = (rest ++ String c "")%string ->
      exists rest', generateSlug toLowerCase title = (rest' ++ "-")%string).
Proof.
  intros Hc.
  assert (Hcases : Leave.is_space c = true /\ is_hyphen c = false
                   \/ Leave.is_space c = false /\ is_hyphen c = true).
  { destruct c as [[] [] [] [] [] [] [] []]; vm_compute in Hc |- *;
      first [left; split; reflexivity | right; split; reflexivity | discriminate]. }
  split; intros Hrem; rewrite generateSlug_untrimmed, Hrem.
  - cbn [replace_runs]. destruct Hcases as [[Hs _]|[Hs Hh]]; rewrite Hs.
    + cbn [replace_runs]. change (is_hyphen "-") with true. cbv iota. eauto.
    + cbn [replace_runs]. rewrite Hh. eauto.
  - destruct (replace_runs_last Leave.is_space "-" false rest c)
      as [u [Hu|(_ & _ & Hb)]]; [|discriminate].
    rewrite Hu.
    destruct (replace_runs_last is_hyphen "-" false u
                (if Leave.is_space c then "-"%char else c))
      as [v [Hv|(_ & _ & Hb)]]; [|discriminate].
    rewrite Hv. exists v. f_equal.
    destruct Hcases as [[Hs _]|[Hs Hh]]; rewrite Hs; [reflexivity|].
    rewrite Hh. reflexivity.
Qed.

(** *** Slugs of slugs *)

Lemma remove_others_fixed (s : string) :
  all_chars in_slug_class s = true -> remove_others s = s.
Proof.
  induction s as [|c t IH]; [reflexivity|]. cbn [all_chars remove_others].
  rewrite andb_true_iff. intros [-> Ht]. rewrite (IH Ht). reflexivity.
Qed.

Lemma replace_runs_none (p : ascii -> bool) (r : ascii) (b : bool) (s : string) :
  all_chars (fun c => negb (p c)) s = true -> replace_runs p r b s = s.
Proof.
  revert b. induction s as [|c t IH]; intros b; [reflexivity|].
  cbn [all_chars replace_runs]. rewrite andb_true_iff, negb_true_iff.
  intros [-> Ht]. rewrite (IH false Ht). reflexivity.
Qed.

Lemma replace_runs_hyphen_fixed (b : bool) (s : string) :
  no_adjacent is_hyphen s = true ->
  (b = true -> match s with EmptyString => True | String d _ => is_hyphen d = false end) ->
  replace_runs is_hyphen "-" b s = s.
Proof.
  revert b. induction s as [|c t IH]; intros b Hs Hb; [reflexivity|].
  cbn [replace_runs]. destruct (is_hyphen c) eqn:E.
  - destruct b; [specialize (Hb eq_refl); congruence|].
    rewrite (hyphen_is_hyphen c E). f_equal. apply IH.
    + cbn [no_adjacent] in Hs. destruct t as [|d u]; [reflexivity|].
      apply andb_true_iff in Hs. apply Hs.
    + intros _. cbn [no_adjacent] in Hs. destruct t as [|d u]; [exact I|].
      apply andb_true_iff in Hs. destruct Hs as [Hs _].
      rewrite E in Hs. cbn [andb] in Hs. apply negb_true_iff in Hs. exact Hs.
  - f_equal. apply IH; [|discriminate].
    cbn [no_adjacent] in Hs. destruct t as [|d u]; [reflexivity|].
    apply andb_true_iff in Hs. apply Hs.
Qed.

(** X22: making the slug of a slug changes nothing, on a platform whose
    [toLowerCase] leaves the slug as it is (it has no upper-case letter). *)
Theorem slug_of_slug (title : string) :
  toLowerCase (generateSlug toLowerCase title) = generateSlug toLowerCase title ->
  generateSlug toLowerCase (generateSlug toLowerCase title)
  = generateSlug toLowerCase title.
Proof.
  intros Hlow. rewrite (generateSlug_untrimmed (generateSlug toLowerCase title)), Hlow.
  pose proof (generateSlug_chars title) as Hc.
  pose proof (generateSlug_no_adjacent title) as Hn.
  rewrite remove_others_fixed
    by (apply (all_chars_weaken slug_char); [exact slug_char_in_class|exact Hc]).
  rewrite (replace_runs_none Leave.is_space).
  - apply replace_runs_hyphen_fixed; [exact Hn|discriminate].
  - apply (all_chars_weaken slug_char); [|exact Hc].
    intros c H. rewrite (slug_char_not_space c H). reflexivity.
Qed.

End Slug.

Lemma slug_keeps_outer_hyphens_witness :
  (exists rest', generateSlug asciiLower " Data Engineer" = String "-" rest')
  /\ (exists rest', generateSlug asciiLower "Engineer (Remote) " = (rest' ++ "-")%string).
Proof.
  split.
  - apply (slug_keeps_outer_hyphens asciiLower " Data Engineer" " " "data engineer");
      reflexivity.
  - apply (slug_keeps_outer_hyphens asciiLower "Engineer (Remote) " " " "engineer remote");
      reflexivity.
Defined.

Lemma slug_of_slug_witness :
  generateSlug asciiLower (generateSlug asciiLower "Senior Engineer (C++)")
  = generateSlug asciiLower "Senior Engineer (C++)".
Proof. apply (slug_of_slug asciiLower "Senior Engineer (C++)"). reflexivity. Defined.

(** *** Sequence numbers *)

Lemma readDecimal_decimal (n : N) : readDecimal (decimal n) = Some n.
Proof.
  unfold readDecimal, decimal.
  assert (Hnil : N.to_uint n <> Decimal.Nil).
  { destruct n as [|p]; [discriminate|apply DecimalPos.Unsigned.to_uint_nonnil]. }
  assert (Hs : NilZero.string_of_uint (N.to_uint n)
               = NilEmpty.string_of_uint (N.to_uint n)).
  { destruct (N.to_uint n); [congruence|reflexivity..]. }
  rewrite Hs, NilEmpty.usu. cbn [option_map].
  rewrite DecimalN.Unsigned.of_to. reflexivity.
Qed.

Lemma readDecimal_zeros (k : nat) (s : string) :
  readDecimal (repeat_char "0" k ++ s) = readDecimal s.
Proof.
  induction k as [|k IH]; [reflexivity|].
  change (repeat_char "0" (S k) ++ s)%string with (String "0" (repeat_char "0" k ++ s)).
  rewrite <- IH. unfold readDecimal. cbn [NilEmpty.uint_of_string].
  destruct (NilEmpty.uint_of_string (repeat_char "0" k ++ s)) as [d|]; reflexivity.
Qed.

Lemma length_repeat_char (c : ascii) (k : nat) : String.length (repeat_char c k) = k.
Proof. induction k as [|k IH]; [reflexivity|]. cbn. rewrite IH. reflexivity. Qed.

Lemma length_append (s t : string) :
  String.length (s ++ t) = String.length s + String.length t.
Proof.
  induction s as [|c s IH]; [reflexivity|].
  change (String c s ++ t)%string with (String c (s ++ t)).
  cbn [String.length]. rewrite IH. reflexivity.
Qed.

Lemma readDecimal_sequenceNumber (width count : nat) :
  readDecimal (sequenceNumber width count) = Some (N.of_nat count + 1)%N.
Proof. unfold sequenceNumber, padStart. rewrite readDecimal_zeros. apply readDecimal_decimal. Qed.

Lemma sequenceNumber_inj (width c1 c2 : nat) :
  sequenceNumber width c1 = sequenceNumber width c2 -> c1 = c2.
Proof.
  intros H. apply (f_equal readDecimal) in H.
  rewrite !readDecimal_sequenceNumber in H. injection H as H. lia.
Qed.

(** X23: the running part of a number reads back as the count plus one,
    whatever the width: it is padded to the width but never cut, so that
    different counts give different numbers. *)
Theorem sequence_number_reads_back (width count : nat) :
  readDecimal (sequenceNumber width count) = Some (N.of_nat count + 1)%N
  /\ String.length (sequenceNumber width count)
     = Nat.max width (String.length (decimal (N.of_nat count + 1)))
  /\ (forall count', sequenceNumber width count = sequenceNumber width count' ->
                     count = count').
Proof.
  split; [apply readDecimal_sequenceNumber|]. split.
  - unfold sequenceNumber, padStart. rewrite length_append, length_repeat_char. lia.
  - intros count'. apply sequenceNumber_inj.
Qed.

End TextFacts.

(** ** Postings, candidates and applications *)

Module AtsFacts.
Import Svc Recruitment RecruitmentFacts RecruitmentMore RecruitmentMoreFacts Text TextFacts Ats.

(** *** Looking a row up by its key *)

Lemma find_update_where {A} (key : A -> string) (k : string) (f : A -> A) (l : list A) :
  (forall x, key (f x) = key x) ->
  List.find (fun x => String.eqb (key x) k) (update_where key k f l)
  = option_map f (List.find (fun x => String.eqb (key x) k) l).
Proof.
  intros Hf. unfold update_where. induction l as [|a r IH]; [reflexivity|].
  cbn [List.map List.find]. destruct (String.eqb (key a) k) eqn:E.
  - rewrite Hf, E. reflexivity.
  - rewrite E. exact IH.
Qed.

Lemma find_by_key {A} (key : A -> string) (l : list A) (x : A) :
  List.NoDup (List.map key l) -> In x l ->
  List.find (fun y => String.eqb (key y) (key x)) l = Some x.
Proof.
  intros Hnd Hin.
  destruct (List.find (fun y => String.eqb (key y) (key x)) l) as [y|] eqn:E.
  - apply List.find_some in E. destruct E as [Hy Hk]. apply String.eqb_eq in Hk.
    f_equal. exact (key_injective key l y x Hnd Hy Hin Hk).
  - exfalso. pose proof (List.find_none _ _ E x Hin) as H. cbv beta in H.
    rewrite String.eqb_refl in H. discriminate.
Qed.

Section Platform.

Variable getFullYear : Z -> N.
Variable yearStart : N -> Z.
Variable toLowerCase : string -> string.

(** *** Postings *)

Lemma posting_run (id : string) (createdAt now : Z) (data : CreateJobPosting.t)
    (createdById : string) (s : Store) (r : JobRequisition.t) :
  List.find (fun x => String.eqb (JobRequisition.id x)
                        (CreateJobPosting.requisitionId data))
            (requisitions (recruitment s)) = Some r ->
  JobRequisition.status r = RequisitionStatus.approved ->
  exists posting,
    createJobPosting getFullYear yearStart toLowerCase id createdAt now data createdById s
    = (Returned (posting, r),
       {| recruitment :=
            set_requisitions
              (update_where JobRequisition.id (CreateJobPosting.requisitionId data)
                 publish (requisitions (recruitment s)))
              (recruitment s);
          jobPostings := jobPostings s ++ [posting];
          candidates := candidates s;
          applicationDetails := applicationDetails s |})
    /\ JobPosting.requisitionId posting = CreateJobPosting.requisitionId data
    /\ JobPosting.createdById posting = createdById
    /\ JobPosting.slug posting
       = generateSlug toLowerCase (CreateJobPosting.title data).
Proof.
  intros Hfind Hst. eexists. split; [|split; [|split]].
  - unfold createJobPosting, mbind, svc_bind, bind, gets. rewrite Hfind, Hst.
    unfold generatePostingNumber, mbind, svc_bind, bind, gets, mret, svc_ret, ret,
      jobPosting_create, lift, jobRequisition_update.
    cbn [recruitment jobPostings candidates applicationDetails].
    assert (Hrow : has_row JobRequisition.id (CreateJobPosting.requisitionId data)
                     (requisitions (recruitment s)) = true).
    { apply List.find_some in Hfind. destruct Hfind as [Hin Hk].
      apply String.eqb_eq in Hk. rewrite <- Hk.
      apply (has_row_In JobRequisition.id). exact Hin. }
    rewrite Hrow. reflexivity.
  - reflexivity.
  - reflexivity.
  - reflexivity.
Qed.

Lemma posting_refused (id : string) (createdAt now : Z) (data : CreateJobPosting.t)
    (createdById : string) (s : Store) (r : JobRequisition.t) :
  List.find (fun x => String.eqb (JobRequisition.id x)
                        (CreateJobPosting.requisitionId data))
            (requisitions (recruitment s)) = Some r ->
  JobRequisition.status r <> RequisitionStatus.approved ->
  createJobPosting getFullYear yearStart toLowerCase id createdAt now data createdById s
  = (Threw NOT_APPROVED, s).
Proof.
  intros Hfind Hst.
  unfold createJobPosting, mbind, svc_bind, bind, gets. rewrite Hfind.
  destruct (JobRequisition.status r); try reflexivity. congruence.
Qed.

(** X24: for a requisition that is stored as approved, [createJobPosting]
    returns: it stores one more posting, made for the requisition by the
    caller and with the slug of its title, and leaves the requisition
    published, so that every later call for the same requisition is refused
    and changes nothing. *)
Theorem posting_publishes_requisition (id id' : string) (createdAt now createdAt' now' : Z)
    (data data' : CreateJobPosting.t) (createdById createdById' : string)
    (s : Store) (r : JobRequisition.t) :
  List.find (fun x => String.eqb (JobRequisition.id x)
                        (CreateJobPosting.requisitionId data))
            (requisitions (recruitment s)) = Some r ->
  JobRequisition.status r = RequisitionStatus.approved ->
  CreateJobPosting.requisitionId data' = CreateJobPosting.requisitionId data ->
  exists posting s1,
    createJobPosting getFullYear yearStart toLowerCase id createdAt now data createdById s
    = (Returned (posting, r), s1)
    /\ jobPostings s1 = (jobPostings s ++ [posting])%list
    /\ JobPosting.requisitionId posting = CreateJobPosting.requisitionId data
    /\ JobPosting.createdById posting = createdById
    /\ JobPosting.slug posting = generateSlug toLowerCase (CreateJobPosting.title data)
    /\ List.find (fun x => String.eqb (JobRequisition.id x)
                             (CreateJobPosting.requisitionId data))
                 (requisitions (recruitment s1)) = Some (publish r)
    /\ createJobPosting getFullYear yearStart toLowerCase id' createdAt' now' data'
         createdById' s1
       = (Threw NOT_APPROVED, s1).
Proof.
  intros Hfind Hst Hsame.
  destruct (posting_run id createdAt now data createdById s r Hfind Hst)
    as [posting [Hrun [Hreq [Hby Hslug]]]].
  eexists posting, _. split; [exact Hrun|].
  assert (Hfind1 : List.find (fun x => String.eqb (JobRequisition.id x)
                                         (CreateJobPosting.requisitionId data))
                     (update_where JobRequisition.id
                        (CreateJobPosting.requisitionId data) publish
                        (requisitions (recruitment s))) = Some (publish r)).
  { rewrite (find_update_where JobRequisition.id) by reflexivity.
    rewrite Hfind. reflexivity. }
  split; [reflexivity|]. split; [exact Hreq|]. split; [exact Hby|].
  split; [exact Hslug|]. split; [exact Hfind1|].
  apply (posting_refused _ _ _ _ _ _ (publish r)).
  - rewrite Hsame. exact Hfind1.
  - discriminate.
Qed.

(** X25: the approval of the last pending step is what opens a requisition
    for posting: before it [createJobPosting] is refused unless the
    requisition was stored as approved already; after it the call returns
    the posting together with the requisition as the approval left it, and
    the requisition is then stored with status [published], still carrying
    the time and the approver of the approval. *)
Theorem approval_opens_posting (d : Db) (comments : option string) (t : Clock.t)
    (w : ApprovalWorkflow.t) (st : ApprovalStep.t) (r : JobRequisition.t)
    (id : string) (createdAt now : Z) (data : CreateJobPosting.t)
    (createdById : string) (s : Store) :
  List.NoDup (List.map ApprovalStep.id (steps d)) ->
  List.NoDup (List.map JobRequisition.id (requisitions d)) ->
  active_workflow_of d (CreateJobPosting.requisitionId data) w ->
  current_step d (ApprovalWorkflow.id w) st ->
  pendingStepsAbove (ApprovalWorkflow.id w) (ApprovalStep.level st) d = [] ->
  In r (requisitions d) ->
  JobRequisition.id r = CreateJobPosting.requisitionId data ->
  recruitment s = d ->
  let a := ApprovalStep.approverId st in
  let d1 := snd (approveJobRequisition (CreateJobPosting.requisitionId data) a
                   comments t d) in
  (JobRequisition.status r <> RequisitionStatus.approved ->
   createJobPosting getFullYear yearStart toLowerCase id createdAt now data createdById s
   = (Threw NOT_APPROVED, s))
  /\ exists posting r1 s2,
       createJobPosting getFullYear yearStart toLowerCase id createdAt now data createdById
         (set_recruitment d1 s)
       = (Returned (posting, r1), s2)
       /\ approved_as r1 r (Clock.approvedAt t) a
       /\ jobPostings s2 = (jobPostings s ++ [posting])%list
       /\ JobPosting.requisitionId posting = CreateJobPosting.requisitionId data
       /\ (exists r2,
             In r2 (requisitions (recruitment s2))
             /\ JobRequisition.id r2 = CreateJobPosting.requisitionId data
             /\ JobRequisition.title r2 = JobRequisition.title r
             /\ JobRequisition.status r2 = RequisitionStatus.published
             /\ JobRequisition.approvedAt r2 = Some (Clock.approvedAt t)
             /\ JobRequisition.approvedById r2 = Some a)
       /\ (forall r2, In r2 (requisitions (recruitment s2)) ->
                      JobRequisition.id r2 = CreateJobPosting.requisitionId data ->
                      JobRequisition.status r2 = RequisitionStatus.published).
Proof.
  intros Hnd Hndr Hwf Hcur Hlast Hr Hrid Hs a d1.
  assert (Hfind : List.find (fun x => String.eqb (JobRequisition.id x)
                                        (CreateJobPosting.requisitionId data))
                    (requisitions d) = Some r).
  { rewrite <- Hrid. apply (find_by_key JobRequisition.id); assumption. }
  split.
  - intros Hst. apply (posting_refused _ _ _ _ _ _ r); [rewrite Hs; exact Hfind|exact Hst].
  - pose proof (approve_current d (CreateJobPosting.requisitionId data) comments t w st r
                  Hnd Hwf Hcur Hr Hrid) as Hrun.
    cbv zeta in Hrun. rewrite Hlast in Hrun. fold a in Hrun.
    assert (Hd1 : d1 = closed (CreateJobPosting.requisitionId data) a t w
                         (recorded t comments st d)).
    { unfold d1. rewrite Hrun. reflexivity. }
    set (r1 := approve_requisition (Clock.approvedAt t) a r).
    assert (Hfind1 : List.find (fun x => String.eqb (JobRequisition.id x)
                                           (CreateJobPosting.requisitionId data))
                       (requisitions (recruitment (set_recruitment d1 s)))
                     = Some r1).
    { cbn [recruitment set_recruitment]. rewrite Hd1. unfold closed, recorded.
      cbn [requisitions set_workflows set_requisitions set_steps].
      rewrite (find_update_where JobRequisition.id) by reflexivity.
      rewrite Hfind. reflexivity. }
    destruct (posting_run id createdAt now data createdById (set_recruitment d1 s)
                r1 Hfind1 eq_refl)
      as [posting [Hp [Hpreq _]]].
    eexists posting, r1, _. split; [exact Hp|].
    split; [repeat split|]. split; [reflexivity|]. split; [exact Hpreq|].
    cbn [recruitment requisitions set_requisitions set_recruitment].
    apply List.find_some in Hfind1. destruct Hfind1 as [Hin _].
    cbn [recruitment set_recruitment] in Hin.
    split.
    + exists (publish r1). split.
      * unfold update_where. apply in_map_iff. exists r1.
        split; [|exact Hin]. cbn [JobRequisition.id approve_requisition r1].
        rewrite Hrid, String.eqb_refl. reflexivity.
      * cbn [publish r1 approve_requisition JobRequisition.id JobRequisition.title
             JobRequisition.status JobRequisition.approvedAt
             JobRequisition.approvedById].
        repeat split. exact Hrid.
    + intros r2 Hr2 Hid2. unfold update_where in Hr2.
      apply in_map_iff in Hr2. destruct Hr2 as [x [Hx Hxin]].
      destruct (String.eqb_spec (JobRequisition.id x)
                  (CreateJobPosting.requisitionId data)) as [Hk|Hk]; subst r2.
      * reflexivity.
      * contradiction.
Qed.

(** *** Applications *)

Lemma createApplication_run (id : string) (updatedAt : option Z) (now : Z)
    (data : CreateApplication.t) (s : Store) :
  match List.find (samePair data) (applications (recruitment s)) with
  | Some _ =>
      createApplication getFullYear yearStart id updatedAt now data s
      = (Threw ALREADY_APPLIED, s)
  | None =>
      exists a d,
        createApplication getFullYear yearStart id updatedAt now data s
        = (Returned a,
           {| recruitment :=
                {| requisitions := requisitions (recruitment s);
                   workflows := workflows (recruitment s);
                   steps := steps (recruitment s);
                   applications := (applications (recruitment s) ++ [a])%list;
                   stageHistory := stageHistory (recruitment s) |};
              jobPostings := jobPostings s;
              candidates := candidates s;
              applicationDetails := (applicationDetails s ++ [d])%list |})
        /\ Application.id a = id
        /\ applicationPair a
           = (CreateApplication.candidateId data, CreateApplication.jobPostingId data)
        /\ Application.stage a = Stage.applied
        /\ ApplicationDetail.applicationId d = id
        /\ ApplicationDetail.appliedAt d = CreateApplication.appliedAt data
  end.
Proof.
  unfold createApplication, mbind, svc_bind, bind, gets.
  destruct (List.find (samePair data) (applications (recruitment s))) as [a|];
    [reflexivity|].
  eexists _, _. split; [reflexivity|]. repeat split.
Qed.

Lemma samePair_pair (data : CreateApplication.t) (a : Application.t) :
  samePair data a = true
  <-> applicationPair a
      = (CreateApplication.candidateId data, CreateApplication.jobPostingId data).
Proof.
  unfold samePair, applicationPair. rewrite andb_true_iff, !String.eqb_eq.
  split; [intros [-> ->]; reflexivity|intros H; injection H; auto].
Qed.

(** X26: nobody applies twice for a posting: once [createApplication] has
    run for a candidate and a posting, whatever its outcome, every further
    call for the same candidate and posting is refused and changes
    nothing. *)
Theorem application_once_per_posting (id1 id2 : string) (updatedAt1 updatedAt2 : option Z)
    (now1 now2 : Z) (data1 data2 : CreateApplication.t) (s : Store) :
  CreateApplication.candidateId data2 = CreateApplication.candidateId data1 ->
  CreateApplication.jobPostingId data2 = CreateApplication.jobPostingId data1 ->
  let s1 := snd (createApplication getFullYear yearStart id1 updatedAt1 now1 data1 s) in
  createApplication getFullYear yearStart id2 updatedAt2 now2 data2 s1
  = (Threw ALREADY_APPLIED, s1).
Proof.
  intros Hc Hp s1.
  assert (Hsame : samePair data2 = samePair data1).
  { unfold samePair. rewrite Hc, Hp. reflexivity. }
  assert (Hfound : exists a, List.find (samePair data2) (applications (recruitment s1))
                             = Some a).
  { rewrite Hsame. unfold s1.
    pose proof (createApplication_run id1 updatedAt1 now1 data1 s) as Hrun.
    destruct (List.find (samePair data1) (applications (recruitment s))) as [a|] eqn:E.
    - rewrite Hrun. cbn [snd]. eauto.
    - destruct Hrun as [a [d [Hrun [_ [Hpair _]]]]]. rewrite Hrun.
      cbn [snd recruitment applications]. exists a.
      rewrite find_append, E. cbn [List.find].
      apply samePair_pair in Hpair. rewrite Hpair. reflexivity. }
  destruct Hfound as [a Ha].
  pose proof (createApplication_run id2 updatedAt2 now2 data2 s1) as Hrun.
  rewrite Ha in Hrun. exact Hrun.
Qed.

(** X27: if no two stored applications have the same candidate and
    posting, this is still so after [createApplication] and after
    [updateApplicationStage], whatever their arguments and outcomes. *)
Theorem application_pairs_stay_unique (s : Store) :
  List.NoDup (List.map applicationPair (applications (recruitment s))) ->
  (forall id updatedAt now data,
     List.NoDup
       (List.map applicationPair
          (applications
             (recruitment
                (snd (createApplication getFullYear yearStart id updatedAt now data s))))))
  /\ (forall data updatedById now,
        List.NoDup
          (List.map applicationPair
             (applications
                (recruitment
                   (snd (lift (updateApplicationStage data updatedById now) s)))))).
Proof.
  intros Hnd. split.
  - intros id updatedAt now data.
    pose proof (createApplication_run id updatedAt now data s) as Hrun.
    destruct (List.find (samePair data) (applications (recruitment s))) as [a|] eqn:E.
    + rewrite Hrun. exact Hnd.
    + destruct Hrun as [a [d [Hrun [_ [Hpair _]]]]]. rewrite Hrun.
      cbn [snd recruitment applications]. rewrite List.map_app. cbn [List.map].
      apply NoDup_snoc; [exact Hnd|].
      intros Hin. apply in_map_iff in Hin. destruct Hin as [b [Hb Hbin]].
      pose proof (List.find_none _ _ E b Hbin) as Hno.
      assert (Hyes : samePair data b = true)
        by (apply samePair_pair; rewrite Hb; exact Hpair).
      congruence.
  - intros data updatedById now. unfold lift.
    destruct (updateApplicationStage data updatedById now (recruitment s))
      as [o d1] eqn:Erun.
    cbn [snd recruitment set_recruitment].
    assert (Hd1 : d1 = snd (updateApplicationStage data updatedById now (recruitment s)))
      by (rewrite Erun; reflexivity).
    destruct (stage_update_cases data updatedById now (recruitment s))
      as [H|[_ [h [_ [_ H]]]]]; rewrite <- Hd1 in H; rewrite H.
    + exact Hnd.
    + cbn [applications].
      rewrite (map_update_where Application.id); [exact Hnd|reflexivity].
Qed.

(** X28: a new application starts at stage [applied] with no history
    record: [createApplication] writes none, so that the history of an
    application begins with its first change of stage. Stage and history
    stay in step all the same. *)
Theorem new_application_has_no_history (id : string) (updatedAt : option Z) (now : Z)
    (data : CreateApplication.t) (s : Store) :
  List.find (samePair data) (applications (recruitment s)) = None ->
  historyOf (recruitment s) id = [] ->
  exists a s1,
    createApplication getFullYear yearStart id updatedAt now data s = (Returned a, s1)
    /\ Application.id a = id
    /\ Application.stage a = Stage.applied
    /\ applications (recruitment s1) = (applications (recruitment s) ++ [a])%list
    /\ stageHistory (recruitment s1) = stageHistory (recruitment s)
    /\ latestStage (recruitment s1) id = None
    /\ (stageMatchesHistory (recruitment s) -> stageMatchesHistory (recruitment s1)).
Proof.
  intros Hnone Hfresh.
  pose proof (createApplication_run id updatedAt now data s) as Hrun.
  rewrite Hnone in Hrun. destruct Hrun as [a [d [Hrun [Hid [_ [Hst _]]]]]].
  eexists a, _. split; [exact Hrun|]. split; [exact Hid|]. split; [exact Hst|].
  cbn [recruitment applications stageHistory].
  split; [reflexivity|]. split; [reflexivity|].
  assert (Hlatest : forall x,
             latestStage
               {| requisitions := requisitions (recruitment s);
                  workflows := workflows (recruitment s);
                  steps := steps (recruitment s);
                  applications := (applications (recruitment s) ++ [a])%list;
                  stageHistory := stageHistory (recruitment s) |} x
             = latestStage (recruitment s) x) by reflexivity.
  assert (Hnew : latestStage (recruitment s) id = None).
  { unfold latestStage. unfold historyOf in Hfresh. rewrite Hfresh. reflexivity. }
  split; [rewrite Hlatest; exact Hnew|].
  intros Hinv b st Hin Hl. rewrite Hlatest in Hl. cbn [applications] in Hin.
  apply in_app_or in Hin. destruct Hin as [Hold|[<-|[]]].
  - exact (Hinv b st Hold Hl).
  - rewrite Hid, Hnew in Hl. discriminate.
Qed.

End Platform.

(** *** Candidates *)

Lemma createCandidate_run (id : string) (data : CreateCandidate.t) (s : Store) :
  createCandidate id data s
  = match List.find (fun c => String.eqb (Candidate.email c) (CreateCandidate.email data))
                    (candidates s) with
    | Some c => (Returned c, s)
    | None =>
        (Returned (newCandidate id data s),
         {| recruitment := recruitment s;
            jobPostings := jobPostings s;
            candidates := (candidates s ++ [newCandidate id data s])%list;
            applicationDetails := applicationDetails s |})
    end.
Proof.
  unfold createCandidate, mbind, svc_bind, bind, gets.
  destruct (List.find _ (candidates s)); reflexivity.
Qed.

(** X29: one candidate per e-mail address: a second [createCandidate] with
    the address of a first one returns what the first returned and leaves
    the store as the first left it, whatever else the second body says. *)
Theorem one_candidate_per_email (id1 id2 : string) (data1 data2 : CreateCandidate.t)
    (s : Store) :
  CreateCandidate.email data2 = CreateCandidate.email data1 ->
  createCandidate id2 data2 (snd (createCandidate id1 data1 s))
  = createCandidate id1 data1 s.
Proof.
  intros Hmail. rewrite (createCandidate_run id1 data1 s).
  destruct (List.find _ (candidates s)) as [c|] eqn:E.
  - cbn [snd]. rewrite createCandidate_run, Hmail, E. reflexivity.
  - cbn [snd]. rewrite createCandidate_run, Hmail.
    cbn [candidates]. rewrite find_append, E. cbn [List.find newCandidate Candidate.email].
    rewrite String.eqb_refl. reflexivity.
Qed.

Lemma prefix_inj (p s t : string) : (p ++ s)%string = (p ++ t)%string -> s = t.
Proof.
  induction p as [|c p IH]; intros H; [exact H|].
  change (String c (p ++ s) = String c (p ++ t))%string in H.
  injection H as H. exact (IH H).
Qed.

Lemma numbered_distinct (l : list Candidate.t) :
  numberedInOrder l -> List.NoDup (List.map Candidate.candidateNumber l).
Proof.
  intros Hnum. apply List.NoDup_nth_error. intros i j Hi Hij.
  rewrite List.length_map in Hi. rewrite !List.nth_error_map in Hij.
  destruct (List.nth_error l i) as [c|] eqn:Ei.
  2: { apply List.nth_error_None in Ei. lia. }
  destruct (List.nth_error l j) as [c'|] eqn:Ej; [|discriminate].
  cbn [option_map] in Hij. injection Hij as Hij.
  rewrite (Hnum i c Ei), (Hnum j c' Ej) in Hij.
  apply prefix_inj in Hij. exact (sequenceNumber_inj 6 i j Hij).
Qed.

(** X30: [createCandidate] keeps the candidate table in order: if the
    stored candidates have different e-mail addresses, and the i-th of them
    carries the number made from the count i, this is still so after the
    call; the candidate numbers are then all different. *)
Theorem candidate_table_stays_in_order (id : string) (data : CreateCandidate.t)
    (s : Store) :
  List.NoDup (List.map Candidate.email (candidates s)) ->
  numberedInOrder (candidates s) ->
  let s1 := snd (createCandidate id data s) in
  List.NoDup (List.map Candidate.email (candidates s1))
  /\ numberedInOrder (candidates s1)
  /\ List.NoDup (List.map Candidate.candidateNumber (candidates s1)).
Proof.
  intros Hmail Hnum s1.
  assert (H12 : List.NoDup (List.map Candidate.email (candidates s1))
                /\ numberedInOrder (candidates s1)).
  { unfold s1. rewrite createCandidate_run.
    destruct (List.find _ (candidates s)) as [c|] eqn:E; cbn [snd candidates].
    - split; assumption.
    - split.
      + rewrite List.map_app. cbn [List.map]. apply NoDup_snoc; [exact Hmail|].
        intros Hin. apply in_map_iff in Hin. destruct Hin as [b [Hb Hbin]].
        pose proof (List.find_none _ _ E b Hbin) as Hno. cbv beta in Hno.
        cbn [newCandidate Candidate.email] in Hb. rewrite Hb, String.eqb_refl in Hno.
        discriminate.
      + intros i c Hi.
        destruct (Nat.lt_ge_cases i (List.length (candidates s))) as [Hlt|Hge].
        * rewrite List.nth_error_app1 in Hi by exact Hlt. exact (Hnum i c Hi).
        * rewrite List.nth_error_app2 in Hi by exact Hge.
          destruct (i - List.length (candidates s))%nat as [|k] eqn:Ek.
          -- cbn [List.nth_error] in Hi. injection Hi as <-.
             assert (i = List.length (candidates s)) by lia. subst i. reflexivity.
          -- cbn [List.nth_error] in Hi. destruct k; discriminate. }
  destruct H12 as [H1 H2]. split; [exact H1|]. split; [exact H2|].
  apply numbered_distinct. exact H2.
Qed.

(** *** Instances on the sample tables *)

Lemma posting_publishes_requisition_witness :
  let s := sampleStore approvedDb in
  exists posting s1,
    createJobPosting sampleYear sampleYearStart asciiLower
      "post-1" 2000 2000 samplePosting "user-7" s
    = (Returned (posting, approve_requisition 1000 "B" sampleRequisition), s1)
    /\ JobPosting.slug posting = "staff-engineer-remote"%string
    /\ JobPosting.postingNumber posting = "POST-2024-0001"%string
    /\ createJobPosting sampleYear sampleYearStart asciiLower
         "post-2" 3000 3000 samplePosting "user-8" s1
       = (Threw NOT_APPROVED, s1).
Proof.
  intros s.
  destruct (posting_publishes_requisition sampleYear sampleYearStart asciiLower
              "post-1" "post-2" 2000 2000 3000 3000 samplePosting samplePosting
              "user-7" "user-8" s (approve_requisition 1000 "B" sampleRequisition)
              eq_refl eq_refl eq_refl)
    as [posting [s1 [Hrun [_ [_ [_ [Hslug [_ Hagain]]]]]]]].
  exists posting, s1. split; [exact Hrun|]. split; [rewrite Hslug; reflexivity|].
  split; [|exact Hagain].
  vm_compute in Hrun. inversion Hrun. reflexivity.
Defined.

Lemma approval_opens_posting_witness :
  let s := sampleStore lastStepPending in
  let d1 := snd (approveJobRequisition "req-1" "B" None (sampleClock 1000)
                   lastStepPending) in
  createJobPosting sampleYear sampleYearStart asciiLower
    "post-1" 2000 2000 samplePosting "user-7" s
  = (Threw NOT_APPROVED, s)
  /\ exists posting r1 s2,
       createJobPosting sampleYear sampleYearStart asciiLower
         "post-1" 2000 2000 samplePosting "user-7" (set_recruitment d1 s)
       = (Returned (posting, r1), s2)
       /\ JobRequisition.status r1 = RequisitionStatus.approved
       /\ exists r2,
            In r2 (requisitions (recruitment s2))
            /\ JobRequisition.status r2 = RequisitionStatus.published
            /\ JobRequisition.approvedAt r2 = Some 1001%Z
            /\ JobRequisition.approvedById r2 = Some "B".
Proof.
  intros s d1.
  assert (H1 : List.NoDup (List.map ApprovalStep.id (steps lastStepPending)))
    by apply sample_step_ids.
  assert (H2 : List.NoDup (List.map JobRequisition.id (requisitions lastStepPending))).
  { constructor; [intros []|constructor]. }
  assert (H3 : active_workflow_of lastStepPending "req-1"
                 (sampleWorkflow WorkflowStatus.active)).
  { split; [left; reflexivity|]. split; [reflexivity|]. split; [reflexivity|].
    intros w' [<-|[]] _ _. reflexivity. }
  assert (H4 : current_step lastStepPending "wf-1"
                 (sampleStep "step-2" "B" 2 StepStatus.pending)).
  { split; [split; [left; reflexivity|split; reflexivity]|].
    intros t [[<-|[<-|[]]] [_ Hp]] Hne; [congruence|discriminate]. }
  destruct (approval_opens_posting sampleYear sampleYearStart asciiLower
              lastStepPending None (sampleClock 1000)
              (sampleWorkflow WorkflowStatus.active)
              (sampleStep "step-2" "B" 2 StepStatus.pending) sampleRequisition
              "post-1" 2000 2000 samplePosting "user-7" s
              H1 H2 H3 H4 eq_refl (or_introl eq_refl) eq_refl eq_refl)
    as [Hbefore [posting [r1 [s2 [Hrun [Happ [_ [_ [[r2 Hr2] _]]]]]]]]].
  split; [apply Hbefore; discriminate|].
  exists posting, r1, s2. split; [exact Hrun|].
  destruct Happ as [_ [_ [Hst _]]]. split; [exact Hst|].
  destruct Hr2 as [Hin [_ [_ [Hpub [Hat Hby]]]]].
  exists r2. split; [exact Hin|]. split; [exact Hpub|]. split; [exact Hat|exact Hby].
Defined.

Lemma one_candidate_per_email_witness :
  let s := sampleStore lastStepPending in
  let other := {| CreateCandidate.firstName := "Augusta";
                  CreateCandidate.lastName := "King";
                  CreateCandidate.email := "ada@example.org" |} in
  createCandidate "cand-2" other
    (snd (createCandidate "cand-1" (sampleCandidate "ada@example.org") s))
  = createCandidate "cand-1" (sampleCandidate "ada@example.org") s.
Proof.
  intros s other.
  apply (one_candidate_per_email "cand-1" "cand-2"
           (sampleCandidate "ada@example.org") other s).
  reflexivity.
Defined.

Lemma candidate_table_stays_in_order_witness :
  let s := snd (createCandidate "cand-1" (sampleCandidate "ada@example.org")
                  (sampleStore lastStepPending)) in
  let s1 := snd (createCandidate "cand-2" (sampleCandidate "grace@example.org") s) in
  numberedInOrder (candidates s)
  /\ List.map Candidate.candidateNumber (candidates s1)
     = ["CAND-000001"; "CAND-000002"]%string
  /\ List.NoDup (List.map Candidate.candidateNumber (candidates s1)).
Proof.
  intros s s1.
  assert (H1 : List.NoDup (List.map Candidate.email (candidates s))).
  { constructor; [intros []|constructor]. }
  assert (H2 : numberedInOrder (candidates s)).
  { intros i c Hi. destruct i as [|[|i]]; [|discriminate..].
    vm_compute in Hi. inversion Hi. reflexivity. }
  destruct (candidate_table_stays_in_order "cand-2"
              (sampleCandidate "grace@example.org") s H1 H2) as [_ [_ Hnd]].
  split; [exact H2|]. split; [reflexivity|exact Hnd].
Defined.

Lemma application_once_per_posting_witness :
  let s := sampleStore lastStepPending in
  let s1 := snd (createApplication sampleYear sampleYearStart "app-2" None 2000
                   (sampleApply "cand-2" "post-1") s) in
  List.length (applications (recruitment s1)) = 2%nat
  /\ createApplication sampleYear sampleYearStart "app-3" None 3000
       (sampleApply "cand-2" "post-1") s1
     = (Threw ALREADY_APPLIED, s1).
Proof.
  intros s s1. split; [reflexivity|].
  apply (application_once_per_posting sampleYear sampleYearStart "app-2" "app-3"
           None None 2000 3000 (sampleApply "cand-2" "post-1")
           (sampleApply "cand-2" "post-1") s); reflexivity.
Defined.

Lemma application_pairs_stay_unique_witness :
  let s := sampleStore lastStepPending in
  List.NoDup (List.map applicationPair (applications (recruitment s)))
  /\ List.NoDup
       (List.map applicationPair
          (applications
             (recruitment
                (snd (createApplication sampleYear sampleYearStart "app-2" None 2000
                        (sampleApply "cand-2" "post-1") s))))).
Proof.
  intros s.
  assert (H : List.NoDup (List.map applicationPair (applications (recruitment s)))).
  { constructor; [intros []|constructor]. }
  split; [exact H|].
  destruct (application_pairs_stay_unique sampleYear sampleYearStart s H) as [Hc _].
  apply Hc.
Defined.

Lemma new_application_has_no_history_witness :
  let s := sampleStore lastStepPending in
  exists a s1,
    createApplication sampleYear sampleYearStart "app-2" None 2000
      (sampleApply "cand-2" "post-1") s = (Returned a, s1)
    /\ Application.stage a = Stage.applied
    /\ latestStage (recruitment s1) "app-2" = None.
Proof.
  intros s.
  destruct (new_application_has_no_history sampleYear sampleYearStart "app-2" None 2000
              (sampleApply "cand-2" "post-1") s eq_refl eq_refl)
    as [a [s1 [Hrun [_ [Hst [_ [_ [Hl _]]]]]]]].
  exists a, s1. split; [exact Hrun|]. split; [exact Hst|exact Hl].
Defined.

End AtsFacts.
